(** * job_board_backend: role-scoped views over users, postings and applications

    A shallow embedding of the Django / Django REST framework views of the
    repository.  Database tables are lists of rows, foreign keys are the
    primary key of the row they point to, the Celery queue is the list of
    tasks handed to [.delay], and the Redis cache is the optional value
    stored under the key ['active_jobs_queryset'].  A view handler is a
    function from the state (and the authenticated request) to a response
    and the state it leaves behind.

    Requests are taken after JWT authentication: [request.user] is a row of
    the [User] table and [is_authenticated] is [True].  A request body is a
    JSON object ([request.data] as [JSONParser] leaves it): a key that is
    absent is [None], and the value of a key is of the JSON type its field
    expects. *)

From Stdlib Require Import Ascii String List Bool Arith PeanoNat NArith Lia.
From Stdlib Require Import Sorting.Sorted Sorting.Permutation.
Import ListNotations.
Local Open Scope string_scope.
Local Open Scope list_scope.

(** ** Responses *)

(** Exceptions that no handler of the repository catches; Django answers
    them with HTTP 500. *)
Inductive Exception : Type :=
| IntegrityError   (* django.db.IntegrityError: a unique constraint failed *)
| DoesNotExist     (* a dangling foreign key was followed *)
| KeyError         (* a key read from validated_data is missing *)
| ValueError.      (* raised by create_user and by RegisterView.create *)

(** The error kinds of the specification, and the unhandled exceptions. *)
Inductive Failure : Type :=
| ValidationError               (* serializers.ValidationError, HTTP 400 *)
| Forbidden                     (* PermissionDenied, HTTP 403 *)
| NotFound                      (* Http404 *)
| Conflict                      (* HTTP 409 *)
| InvalidToken                  (* "Invalid or expired token", HTTP 400 *)
| Unhandled (e : Exception).    (* HTTP 500 *)

Inductive Response (A : Type) : Type :=
| Success (status_code : nat) (data : A)
| Failed (e : Failure).
Arguments Success {A} status_code data.
Arguments Failed {A} e.

Definition HTTP_200_OK : nat := 200.
Definition HTTP_201_CREATED : nat := 201.

Definition is_success {A} (r : Response A) : bool :=
  match r with Success _ _ => true | Failed _ => false end.

(** Sequencing of steps that may raise. *)
Definition bind {A B} (r : Response A) (k : A -> Response B) : Response B :=
  match r with
  | Success _ a => k a
  | Failed e => Failed e
  end.

Notation "'do' x <- r ; k" := (bind r (fun x => k))
  (at level 10, x pattern, r at level 100, k at level 200).

Inductive Method : Type := GET | POST | PUT | PATCH | DELETE.

Definition Method_eqb (a b : Method) : bool :=
  match a, b with
  | GET, GET | POST, POST | PUT, PUT | PATCH, PATCH | DELETE, DELETE => true
  | _, _ => false
  end.

(** ** Strings, and [rest_framework.fields.CharField]

    A string is a sequence of characters with code points below 256. *)

(** Python's [str.isspace] on these characters: tab to carriage return,
    the separators 28 to 31, the space, NEL and the no-break space. *)
Definition isspace (c : ascii) : bool :=
  let n := nat_of_ascii c in
  (Nat.leb 9 n && Nat.leb n 13) || (Nat.leb 28 n && Nat.leb n 32)
  || Nat.eqb n 133 || Nat.eqb n 160.

Fixpoint lstrip (l : list ascii) : list ascii :=
  match l with
  | c :: t => if isspace c then lstrip t else l
  | [] => []
  end.

(** [str.strip()]. *)
Definition strip (s : string) : string :=
  string_of_list_ascii (rev (lstrip (rev (lstrip (list_ascii_of_string s))))).

Definition has_null_character (s : string) : bool :=
  existsb (Ascii.eqb Ascii.zero) (list_ascii_of_string s).

(** [CharField.run_validation]: surrounding whitespace is stripped
    ([trim_whitespace]); a blank value is refused, or returned as it is when
    [allow_blank]; otherwise the validators run, which are
    [ProhibitNullCharactersValidator] and, with [max_length], its
    [MaxLengthValidator]. *)
Definition CharField (allow_blank : bool) (max_length : option nat) (data : string)
  : Response string :=
  let value := strip data in
  if String.eqb value "" then
    if allow_blank then Success HTTP_200_OK "" else Failed ValidationError
  else if has_null_character value then Failed ValidationError
  else match max_length with
       | Some n => if Nat.leb (String.length value) n
                   then Success HTTP_200_OK value else Failed ValidationError
       | None => Success HTTP_200_OK value
       end.

(** ** authentication/models.py *)

Record User : Type := mkUser {
  user_id : nat;                     (* id = UUIDField(primary_key=True) *)
  email : string;                    (* unique *)
  password : string;                 (* the hash stored by set_password *)
  first_name : string;
  last_name : string;
  phone_number : option string;      (* null=True *)
  role : string;                     (* CharField, default 'user' *)
  is_email_verified : bool           (* default False *)
}.

Definition ROLE_CHOICES : list string := ["admin"; "job_seeker"; "employer"].

Record JobSeekerProfile : Type := mkJobSeekerProfile {
  jsp_user : nat;                    (* OneToOneField(User) *)
  resume : option string;
  skills : string;
  experience : nat                   (* default 0 *)
}.

Record EmployerProfile : Type := mkEmployerProfile {
  ep_user : nat;                     (* OneToOneField(User) *)
  company_name : option string;      (* null=True *)
  website : option string;
  bio : option string
}.

Record VerificationToken : Type := mkVerificationToken {
  vt_user : nat;                     (* OneToOneField(User) *)
  token : nat                        (* UUIDField(unique=True) *)
}.

(** ** jobs/models.py *)

Record Location : Type := mkLocation {
  location_id : nat;
  country : string;
  city : string;
  address : string
}.

Record JobPosting : Type := mkJobPosting {
  posting_id : nat;                  (* id = UUIDField(primary_key=True) *)
  title : string;
  description : string;
  category : string;
  location : option nat;             (* ForeignKey(Location, SET_NULL) *)
  job_type : string;
  employer : nat;                    (* ForeignKey(User) *)
  salary : nat;
  created_at : nat;                  (* auto_now_add *)
  is_active : bool                   (* default True *)
}.

(** ** applications/models.py *)

Definition STATUS_CHOICES : list string :=
  ["submitted"; "reviewed"; "accepted"; "rejected"].

Record JobApplication : Type := mkJobApplication {
  app_id : nat;                      (* AutoField *)
  job : nat;                         (* ForeignKey(JobPosting, CASCADE) *)
  job_seeker : nat;                  (* ForeignKey(User, CASCADE) *)
  status : string;                   (* choices=STATUS_CHOICES, default 'submitted' *)
  applied_at : nat                   (* auto_now_add *)
}.

(** ** Celery tasks (applications/tasks.py, authentication/tasks.py) *)

Inductive Task : Type :=
| send_application_submitted_email (job_seeker_email job_title : string)
| send_application_accepted_email (job_seeker_email job_title : string)
| send_verification_email (uid tok : nat)
| send_password_reset_email (uid tok : nat).

(** ** The state handlers run against *)

Record State : Type := mkState {
  users : list User;
  job_seeker_profiles : list JobSeekerProfile;
  employer_profiles : list EmployerProfile;
  verification_tokens : list VerificationToken;
  locations : list Location;
  job_postings : list JobPosting;
  job_applications : list JobApplication;
  active_jobs_queryset : option (list JobPosting);   (* the cache entry *)
  queue : list Task                                  (* tasks sent with .delay, oldest first *)
}.

Definition empty_state : State :=
  mkState [] [] [] [] [] [] [] None [].

Definition set_users (st : State) (x : list User) : State :=
  mkState x (job_seeker_profiles st) (employer_profiles st) (verification_tokens st)
    (locations st) (job_postings st) (job_applications st) (active_jobs_queryset st) (queue st).

Definition set_job_seeker_profiles (st : State) (x : list JobSeekerProfile) : State :=
  mkState (users st) x (employer_profiles st) (verification_tokens st)
    (locations st) (job_postings st) (job_applications st) (active_jobs_queryset st) (queue st).

Definition set_employer_profiles (st : State) (x : list EmployerProfile) : State :=
  mkState (users st) (job_seeker_profiles st) x (verification_tokens st)
    (locations st) (job_postings st) (job_applications st) (active_jobs_queryset st) (queue st).

Definition set_verification_tokens (st : State) (x : list VerificationToken) : State :=
  mkState (users st) (job_seeker_profiles st) (employer_profiles st) x
    (locations st) (job_postings st) (job_applications st) (active_jobs_queryset st) (queue st).

Definition set_job_applications (st : State) (x : list JobApplication) : State :=
  mkState (users st) (job_seeker_profiles st) (employer_profiles st) (verification_tokens st)
    (locations st) (job_postings st) x (active_jobs_queryset st) (queue st).

Definition set_cache (st : State) (x : option (list JobPosting)) : State :=
  mkState (users st) (job_seeker_profiles st) (employer_profiles st) (verification_tokens st)
    (locations st) (job_postings st) (job_applications st) x (queue st).

(** [task.delay(...)]: the task is appended to the queue. *)
Definition delay (st : State) (t : Task) : State :=
  mkState (users st) (job_seeker_profiles st) (employer_profiles st) (verification_tokens st)
    (locations st) (job_postings st) (job_applications st) (active_jobs_queryset st)
    (queue st ++ [t]).

(** Queryset lookups by primary key. *)
Definition get_user (st : State) (pk : nat) : option User :=
  find (fun u => Nat.eqb (user_id u) pk) (users st).

Definition get_posting (st : State) (pk : nat) : option JobPosting :=
  find (fun j => Nat.eqb (posting_id j) pk) (job_postings st).

Definition get_application (st : State) (pk : nat) : option JobApplication :=
  find (fun a => Nat.eqb (app_id a) pk) (job_applications st).

(** [VerificationToken.objects.get(token=t)]. *)
Definition get_token (st : State) (t : nat) : option VerificationToken :=
  find (fun r => Nat.eqb (token r) t) (verification_tokens st).

(** ** authentication/permissions.py *)

Record Request : Type := mkRequest {
  method : Method;
  user : User
}.

(** [rest_framework.permissions.BasePermission]: both hooks default to
    [True]; [O] is the type of the object the view retrieves. *)
Record BasePermission (O : Type) : Type := mkPermission {
  has_permission : Request -> bool;
  has_object_permission : Request -> O -> bool
}.
Arguments mkPermission {O} _ _.
Arguments has_permission {O} _ _.
Arguments has_object_permission {O} _ _ _.

Definition IsAuthenticated {O} : BasePermission O :=
  mkPermission (fun _ => true) (fun _ _ => true).

Definition IsAdminUser {O} : BasePermission O :=
  mkPermission (fun request => role (user request) =? "admin") (fun _ _ => true).

Definition IsEmployer {O} : BasePermission O :=
  mkPermission (fun request => role (user request) =? "employer") (fun _ _ => true).

Definition IsJobSeeker {O} : BasePermission O :=
  mkPermission (fun request => role (user request) =? "job_seeker") (fun _ _ => true).

Definition IsJobOwner : BasePermission JobPosting :=
  mkPermission (fun _ => true)
    (fun request obj => Nat.eqb (user_id (user request)) (employer obj)).

(** Python's [a or b] on two permission instances: an instance of a class
    that defines neither [__bool__] nor [__len__] is truthy, so the value
    is the left operand. *)
Definition truthy {O} (p : BasePermission O) : bool := true.

Definition py_or {O} (a b : BasePermission O) : BasePermission O :=
  if truthy a then a else b.

(** [APIView.check_permissions] and [check_object_permissions] for an
    authenticated request: the first refusal raises [PermissionDenied]. *)
Definition check_permissions {O} (perms : list (BasePermission O)) (request : Request)
  : Response unit :=
  if forallb (fun p => has_permission p request) perms
  then Success HTTP_200_OK tt else Failed Forbidden.

Definition check_object_permissions {O} (perms : list (BasePermission O))
  (request : Request) (obj : O) : Response unit :=
  if forallb (fun p => has_object_permission p request obj) perms
  then Success HTTP_200_OK tt else Failed Forbidden.

(** ** Pagination ([DEFAULT_PAGINATION_CLASS] and [PAGE_SIZE] of settings.py)

    Every list view of the repository answers with one page of its
    queryset. *)

(** The [page] parameter of the query string. *)
Inductive PageParam : Type :=
| PageNumber (n : nat)
| PageLast                         (* 'last' *)
| PageInvalid.                     (* neither a number nor 'last' *)

Definition PAGE_SIZE : nat := 10.

(** The body of a paginated response; the [next] and [previous] links
    are left out. *)
Record Page (A : Type) : Type := mkPage {
  count : nat;
  results : list A
}.
Arguments mkPage {A} count results.
Arguments count {A} _.
Arguments results {A} _.

Module PageNumberPagination.

(** [Paginator.num_pages] with [allow_empty_first_page]: an empty list
    has one page. *)
Definition num_pages (n : nat) : nat :=
  Nat.max 1 ((n + (PAGE_SIZE - 1)) / PAGE_SIZE).

(** [paginate_queryset]: page 1 unless the query string asks for another;
    a page that does not exist is answered with 404. *)
Definition paginate_queryset {A} (rows : list A) (p : option PageParam)
  : Response (Page A) :=
  let page_number :=
    match p with
    | None => Some 1
    | Some (PageNumber n) => Some n
    | Some PageLast => Some (num_pages (length rows))
    | Some PageInvalid => None
    end in
  match page_number with
  | None => Failed NotFound
  | Some n =>
      if Nat.leb 1 n && Nat.leb n (num_pages (length rows))
      then Success HTTP_200_OK
             (mkPage (length rows) (firstn PAGE_SIZE (skipn ((n - 1) * PAGE_SIZE) rows)))
      else Failed NotFound
  end.

End PageNumberPagination.

(** ** applications/serializers.py *)

(** [request.data], as far as the writable fields of
    [JobApplicationSerializer] read it: [job_id] (source ['job']) and
    [status].  [job] and [job_seeker] are read-only. *)
Record ApplicationData : Type := mkApplicationData {
  data_job_id : option nat;
  data_status : option string
}.

(** [serializer.validated_data]. *)
Record ApplicationValidated : Type := mkApplicationValidated {
  validated_job : option JobPosting;
  validated_status : option string
}.

Module JobApplicationSerializer.

(** [job_id = PrimaryKeyRelatedField(queryset=JobPosting.objects.all(), ...)]:
    no status filter; required unless the update is partial. *)
Definition job_id (st : State) (partial : bool) (d : option nat)
  : Response (option JobPosting) :=
  match d with
  | None => if partial then Success HTTP_200_OK None else Failed ValidationError
  | Some pk =>
      match get_posting st pk with
      | Some j => Success HTTP_200_OK (Some j)
      | None => Failed ValidationError
      end
  end.

(** The [status] field the model serializer builds: a choice field, not
    required because the model field has a default, and writable because
    [read_only_fields] is [['job_seeker', 'applied_at']]. *)
Definition status_field (d : option string) : Response (option string) :=
  match d with
  | None => Success HTTP_200_OK None
  | Some s =>
      if existsb (String.eqb s) STATUS_CHOICES
      then Success HTTP_200_OK (Some s) else Failed ValidationError
  end.

Definition validate (request : Request) (data : ApplicationValidated)
  : Response ApplicationValidated :=
  if Method_eqb (method request) POST then
    match validated_job data with
    | None => Failed (Unhandled KeyError)
    | Some j =>
        if Nat.eqb (employer j) (user_id (user request))
        then Failed ValidationError          (* "You cannot apply to your own job." *)
        else Success HTTP_200_OK data
    end
  else Success HTTP_200_OK data.

(** [is_valid(raise_exception=True)].  The model's [unique_together] adds
    no validator here: DRF builds one only when every field of the
    constraint is writable or has a default, and [job_seeker] is read-only
    without a default. *)
Definition is_valid (st : State) (request : Request) (partial : bool)
  (data : ApplicationData) : Response ApplicationValidated :=
  do j <- job_id st partial (data_job_id data);
  do s <- status_field (data_status data);
  validate request (mkApplicationValidated j s).

Definition same_pair (a b : JobApplication) : bool :=
  Nat.eqb (job a) (job b) && Nat.eqb (job_seeker a) (job_seeker b).

(** The key the [AutoField] hands out: one that no row has. *)
Definition next_app_id (st : State) : nat :=
  S (list_max (map app_id (job_applications st))).

(** [ModelSerializer.create]: [JobApplication.objects.create] on the validated data;
    the insert fails on [unique_together = ('job', 'job_seeker')]. *)
Definition create (st : State) (j : JobPosting) (s : option string)
  (seeker : User) (now : nat) : Response JobApplication * State :=
  let row := mkJobApplication (next_app_id st) (posting_id j) (user_id seeker)
               (match s with Some x => x | None => "submitted" end) now in
  if existsb (same_pair row) (job_applications st)
  then (Failed (Unhandled IntegrityError), st)
  else (Success HTTP_201_CREATED row,
        set_job_applications st (job_applications st ++ [row])).

(** [ModelSerializer.update]: set the validated attributes on the instance
    and [instance.save()]. *)
Definition set_attrs (instance : JobApplication) (v : ApplicationValidated)
  : JobApplication :=
  mkJobApplication (app_id instance)
    (match validated_job v with Some j => posting_id j | None => job instance end)
    (job_seeker instance)
    (match validated_status v with Some s => s | None => status instance end)
    (applied_at instance).

Definition update (st : State) (instance : JobApplication) (v : ApplicationValidated)
  : Response JobApplication * State :=
  let instance' := set_attrs instance v in
  if existsb (fun r => negb (Nat.eqb (app_id r) (app_id instance')) && same_pair r instance')
       (job_applications st)
  then (Failed (Unhandled IntegrityError), st)
  else (Success HTTP_200_OK instance',
        set_job_applications st
          (map (fun r => if Nat.eqb (app_id r) (app_id instance') then instance' else r)
             (job_applications st))).

End JobApplicationSerializer.

(** ** applications/views.py *)

Module JobApplicationListCreate.

Definition get_queryset (st : State) (request : Request) : list JobApplication :=
  let user := user request in
  if String.eqb (role user) "job_seeker" then
    filter (fun a => Nat.eqb (job_seeker a) (user_id user)) (job_applications st)
  else if String.eqb (role user) "employer" then
    filter (fun a => match get_posting st (job a) with
                     | Some j => Nat.eqb (employer j) (user_id user)
                     | None => false
                     end) (job_applications st)
  else if String.eqb (role user) "admin" then job_applications st
  else [].

Definition get_permissions (request : Request) : list (BasePermission JobApplication) :=
  match method request with
  | POST => [IsJobSeeker]
  | _ => [IsAuthenticated]
  end.

(** [get], which is [ListModelMixin.list]: the page asked for of the
    queryset; [page] is the [page] parameter of the query string. *)
Definition get (st : State) (u : User) (page : option PageParam)
  : Response (Page JobApplication) * State :=
  let request := mkRequest GET u in
  match check_permissions (get_permissions request) request with
  | Failed e => (Failed e, st)
  | Success _ _ =>
      (PageNumberPagination.paginate_queryset (get_queryset st request) page, st)
  end.

(** [post]: validate, [perform_create] (save with [job_seeker=request.user]),
    queue the e-mail task, answer 201. *)
Definition post (st : State) (u : User) (data : ApplicationData) (now : nat)
  : Response JobApplication * State :=
  let request := mkRequest POST u in
  match check_permissions (get_permissions request) request with
  | Failed e => (Failed e, st)
  | Success _ _ =>
      match JobApplicationSerializer.is_valid st request false data with
      | Failed e => (Failed e, st)
      | Success _ v =>
          match validated_job v with
          | None => (Failed (Unhandled KeyError), st)
          | Some j =>
              match JobApplicationSerializer.create st j (validated_status v) u now with
              | (Failed e, st1) => (Failed e, st1)
              | (Success _ row, st1) =>
                  let job_seeker_email := email (user request) in
                  let job_title := title j in
                  (Success HTTP_201_CREATED row,
                   delay st1 (send_application_submitted_email job_seeker_email job_title))
              end
          end
      end
  end.

End JobApplicationListCreate.

Module JobApplicationDetail.

Definition get_permissions (request : Request) : list (BasePermission JobApplication) :=
  match method request with
  | GET => [IsAuthenticated]
  | PUT => [IsAuthenticated; py_or IsEmployer IsAdminUser]
  | _ => [IsAuthenticated]
  end.

(** [GenericAPIView.get_object] over [JobApplication.objects.all()]. *)
Definition super_get_object (st : State) (request : Request) (pk : nat)
  : Response JobApplication :=
  match get_application st pk with
  | None => Failed NotFound
  | Some obj =>
      do _ <- check_object_permissions (get_permissions request) request obj;
      Success HTTP_200_OK obj
  end.

Definition get_object (st : State) (request : Request) (pk : nat)
  : Response JobApplication :=
  do obj <- super_get_object st request pk;
  let user := user request in
  if String.eqb (role user) "job_seeker" && negb (Nat.eqb (job_seeker obj) (user_id user))
  then Failed Forbidden        (* "You can only view your own applications." *)
  else if String.eqb (role user) "employer" then
    match get_posting st (job obj) with
    | None => Failed (Unhandled DoesNotExist)
    | Some j =>
        if negb (Nat.eqb (employer j) (user_id user))
        then Failed Forbidden  (* "You can only view applications for your jobs." *)
        else Success HTTP_200_OK obj
    end
  else Success HTTP_200_OK obj.

Definition perform_update (st : State) (instance : JobApplication)
  (v : ApplicationValidated) : Response JobApplication * State :=
  JobApplicationSerializer.update st instance v.

Definition get (st : State) (u : User) (pk : nat) : Response JobApplication * State :=
  let request := mkRequest GET u in
  match check_permissions (get_permissions request) request with
  | Failed e => (Failed e, st)
  | Success _ _ => (get_object st request pk, st)
  end.

Definition put (st : State) (u : User) (pk : nat) (data : ApplicationData)
  : Response JobApplication * State :=
  let request := mkRequest PUT u in
  match check_permissions (get_permissions request) request with
  | Failed e => (Failed e, st)
  | Success _ _ =>
      match get_object st request pk with
      | Failed e => (Failed e, st)
      | Success _ instance =>
          match JobApplicationSerializer.is_valid st request true data with
          | Failed e => (Failed e, st)
          | Success _ v =>
              match perform_update st instance v with
              | (Failed e, st1) => (Failed e, st1)
              | (Success _ instance', st1) => (Success HTTP_200_OK instance', st1)
              end
          end
      end
  end.

(** [instance.job_seeker.email] and [instance.job.title], read through the
    instance's foreign keys. *)
Definition accepted_email_args (st : State) (instance : JobApplication)
  : option (string * string) :=
  match get_user st (job_seeker instance), get_posting st (job instance) with
  | Some seeker, Some j => Some (email seeker, title j)
  | _, _ => None
  end.

(** [patch]: the first [perform_update] saves, the task is queued on the
    edge into ['accepted'], and [perform_update] is called once more. *)
Definition patch (st : State) (u : User) (pk : nat) (data : ApplicationData)
  : Response JobApplication * State :=
  let request := mkRequest PATCH u in
  match check_permissions (get_permissions request) request with
  | Failed e => (Failed e, st)
  | Success _ _ =>
      match get_object st request pk with
      | Failed e => (Failed e, st)
      | Success _ instance =>
          match JobApplicationSerializer.is_valid st request true data with
          | Failed e => (Failed e, st)
          | Success _ v =>
              let old_status := status instance in
              match perform_update st instance v with
              | (Failed e, st1) => (Failed e, st1)
              | (Success _ instance', st1) =>
                  let new_status := status instance' in
                  match
                    (if negb (String.eqb old_status "accepted")
                        && String.eqb new_status "accepted"
                     then
                       match accepted_email_args st1 instance' with
                       | Some (job_seeker_email, job_title) =>
                           Success HTTP_200_OK
                             (delay st1 (send_application_accepted_email
                                           job_seeker_email job_title))
                       | None => Failed (Unhandled DoesNotExist)
                       end
                     else Success HTTP_200_OK st1)
                  with
                  | Failed e => (Failed e, st1)
                  | Success _ st2 =>
                      match perform_update st2 instance' v with
                      | (Failed e, st3) => (Failed e, st3)
                      | (Success _ instance'', st3) => (Success HTTP_200_OK instance'', st3)
                      end
                  end
              end
          end
      end
  end.

End JobApplicationDetail.

Module JobApplicationsView.

(** [permission_classes = [permissions.IsAuthenticated, IsEmployer or
    IsAdminUser]]: a class is truthy as well, so the second entry is
    [IsEmployer]. *)
Definition permission_classes : list (BasePermission JobApplication) :=
  [IsAuthenticated; py_or IsEmployer IsAdminUser].

(** [job_id] is the keyword argument of the route, [None] when the route
    gave none. *)
Definition get_queryset (st : State) (request : Request) (job_id : option nat)
  : list JobApplication :=
  match job_id with
  | None => []
  | Some id =>
      let user := user request in
      match find (fun j => Nat.eqb (posting_id j) id
                           && Nat.eqb (employer j) (user_id user)) (job_postings st) with
      | Some posting =>
          filter (fun a => Nat.eqb (job a) (posting_id posting)) (job_applications st)
      | None => []                     (* JobPosting.DoesNotExist *)
      end
  end.

End JobApplicationsView.

(** ** jobs/serializers.py *)

Definition JOB_TYPES : list string := ["full_time"; "part_time"; "contract"; "remote"].
Definition CATEGORY_CHOICES : list string :=
  ["tech"; "healthcare"; "finance"; "education"; "other"].

(** [request.data] for a posting, restricted to the writable fields, as
    the fields of the serializer read it ([Field.get_value]); [salary] is a
    whole amount that is not negative.  [data_is_active] is [None] when the
    [BooleanField] reads no value: the key is absent from a JSON body, or
    from the body of a partial update.  From a form-encoded body that is
    not a partial update the field reads an absent key as [False], which is
    [Some false] here. *)
Record JobPostingData : Type := mkJobPostingData {
  data_title : option string;
  data_description : option string;
  data_salary : option nat;
  data_category : option string;
  data_job_type : option string;
  data_is_active : option bool;
  location_country : option string;
  location_city : option string;
  location_address : option string
}.

Module JobPostingSerializer.

Definition required {A} (d : option A) : Response A :=
  match d with
  | Some x => Success HTTP_200_OK x
  | None => Failed ValidationError        (* "This field is required." *)
  end.

(** A [CharField] of the serializer: none of them allows a blank value. *)
Definition char_field (max_length : option nat) (s : string) : Response string :=
  CharField false max_length s.

(** [salary]: a [DecimalField] with [max_digits=10] and [decimal_places=2],
    which leaves eight digits before the decimal point. *)
Definition decimal_field (s : nat) : Response nat :=
  if N.ltb (N.of_nat s) 100000000
  then Success HTTP_200_OK s else Failed ValidationError.

Definition choice (choices : list string) (s : string) : Response string :=
  if existsb (String.eqb s) choices
  then Success HTTP_200_OK s else Failed ValidationError.

(** The three write-only location fields, and [validate] on creation
    ([self.instance is None]): the three keys must all be present. *)
Definition validate_create (data : JobPostingData)
  : Response (string * string * string) :=
  match location_country data, location_city data, location_address data with
  | Some c, Some t, Some a =>
      do c' <- char_field None c;
      do t' <- char_field None t;
      do a' <- char_field None a;
      Success HTTP_200_OK (c', t', a')
  | _, _, _ => Failed ValidationError
  end.

(** [Location.objects.get_or_create(country=..., city=..., address=...)];
    [fresh] is the uuid4 drawn if a row has to be inserted. *)
Definition get_or_create (rows : list Location) (fresh : nat) (c t a : string)
  : Location * list Location :=
  match find (fun l => String.eqb (country l) c && String.eqb (city l) t
                       && String.eqb (address l) a) rows with
  | Some l => (l, rows)
  | None => let l := mkLocation fresh c t a in (l, rows ++ [l])
  end.

(** [validated_data] of an update: a key is present when the request
    carried it. *)
Record JobPostingValidated : Type := mkJobPostingValidated {
  validated_title : option string;
  validated_description : option string;
  validated_salary : option nat;
  validated_category : option string;
  validated_job_type : option string;
  validated_is_active : option bool;
  validated_country : option string;
  validated_city : option string;
  validated_address : option string
}.

(** A field of an update: checked when present, and refused when absent
    from an update that is not partial, unless the field is not required. *)
Definition field {A} (partial : bool) (check : A -> Response A) (d : option A)
  : Response (option A) :=
  match d with
  | Some x => do y <- check x; Success HTTP_200_OK (Some y)
  | None => if partial then Success HTTP_200_OK None else Failed ValidationError
  end.

Definition present {A} (d : option A) : bool :=
  match d with Some _ => true | None => false end.

(** [validate] on update ([self.instance] is set): if any location key is
    in the data, all three must be. *)
Definition validate_update (data : JobPostingValidated) : Response JobPostingValidated :=
  if present (validated_country data) || present (validated_city data)
     || present (validated_address data)
  then
    if present (validated_country data) && present (validated_city data)
       && present (validated_address data)
    then Success HTTP_200_OK data
    else Failed ValidationError
  else Success HTTP_200_OK data.

(** [is_valid] for an update.  [is_active] has a default and the three
    location fields are declared with [required=False]. *)
Definition is_valid_update (partial : bool) (data : JobPostingData)
  : Response JobPostingValidated :=
  do t <- field partial (char_field (Some 100)) (data_title data);
  do d <- field partial (char_field None) (data_description data);
  do s <- field partial decimal_field (data_salary data);
  do c <- field partial (choice CATEGORY_CHOICES) (data_category data);
  do jt <- field partial (choice JOB_TYPES) (data_job_type data);
  do lc <- field true (char_field None) (location_country data);
  do lt <- field true (char_field None) (location_city data);
  do la <- field true (char_field None) (location_address data);
  validate_update (mkJobPostingValidated t d s c jt (data_is_active data) lc lt la).

(** Python truth of an optional string: present and not empty. *)
Definition truthy_str (d : option string) : bool :=
  match d with Some x => negb (String.eqb x "") | None => false end.

Definition keep {A} (new : option A) (old : A) : A :=
  match new with Some x => x | None => old end.

(** [update]: the location is replaced when the three popped values are
    all truthy; the other validated attributes are set and the instance is
    saved.  [employer] is read-only, [id] and [created_at] are not editable. *)
Definition update (st : State) (loc_pk : nat) (instance : JobPosting)
  (v : JobPostingValidated) : JobPosting * State :=
  let country := validated_country v in
  let city := validated_city v in
  let address := validated_address v in
  let (loc, locs) :=
    if truthy_str country && truthy_str city && truthy_str address then
      let (l, locs) := get_or_create (locations st) loc_pk
                         (keep country "") (keep city "") (keep address "") in
      (Some (location_id l), locs)
    else (location instance, locations st) in
  let instance' :=
    mkJobPosting (posting_id instance)
      (keep (validated_title v) (title instance))
      (keep (validated_description v) (description instance))
      (keep (validated_category v) (category instance))
      loc
      (keep (validated_job_type v) (job_type instance))
      (employer instance)
      (keep (validated_salary v) (salary instance))
      (created_at instance)
      (keep (validated_is_active v) (is_active instance)) in
  (instance',
   mkState (users st) (job_seeker_profiles st) (employer_profiles st)
     (verification_tokens st) locs
     (map (fun r => if Nat.eqb (posting_id r) (posting_id instance') then instance' else r)
        (job_postings st))
     (job_applications st) (active_jobs_queryset st) (queue st)).

End JobPostingSerializer.

(** ** jobs/filters.py *)

(** The query string of a list request, as far as the view reads it: the
    six parameters of [JobPostingFilter] and [page].  A parameter that is
    absent or empty is [None]; [param_salary] is [Some None] for a value that
    is not a number and [Some (Some n)] for the whole number [n]. *)
Record QueryParams : Type := mkQueryParams {
  param_title : option string;
  param_description : option string;
  param_category : option string;
  param_country : option string;
  param_city : option string;
  param_salary : option (option nat);
  param_page : option PageParam
}.

Definition no_params : QueryParams :=
  mkQueryParams None None None None None None None.

Module JobPostingFilter.

(** The cleaned value of a [CharFilter]: the form field strips the
    parameter and refuses null characters; an empty value does not filter. *)
Definition CharFilter (d : option string) : Response (option string) :=
  match d with
  | None => Success HTTP_200_OK None
  | Some raw =>
      let value := strip raw in
      if String.eqb value "" then Success HTTP_200_OK None
      else if has_null_character value then Failed ValidationError
      else Success HTTP_200_OK (Some value)
  end.

Definition NumberFilter (d : option (option nat)) : Response (option nat) :=
  match d with
  | None => Success HTTP_200_OK None
  | Some None => Failed ValidationError
  | Some (Some n) => Success HTTP_200_OK (Some n)
  end.

(** [filterset.form.cleaned_data]. *)
Record Cleaned : Type := mkCleaned {
  cleaned_title : option string;
  cleaned_description : option string;
  cleaned_category : option string;
  cleaned_country : option string;
  cleaned_city : option string;
  cleaned_salary : option nat
}.

(** [filterset.is_valid()]; the backend answers an invalid query string
    with 400. *)
Definition is_valid (q : QueryParams) : Response Cleaned :=
  do t <- CharFilter (param_title q);
  do d <- CharFilter (param_description q);
  do c <- CharFilter (param_category q);
  do lc <- CharFilter (param_country q);
  do lt <- CharFilter (param_city q);
  do s <- NumberFilter (param_salary q);
  Success HTTP_200_OK (mkCleaned t d c lc lt s).

(** [icontains] on the SQLite database of the settings is [LIKE], which
    ignores the case of the letters A to Z and of no other character. *)
Definition lower (c : ascii) : ascii :=
  let n := nat_of_ascii c in
  if Nat.leb 65 n && Nat.leb n 90 then ascii_of_nat (n + 32) else c.

Fixpoint startswith_ci (s needle : string) : bool :=
  match needle, s with
  | EmptyString, _ => true
  | String _ _, EmptyString => false
  | String a needle', String b s' => Ascii.eqb (lower a) (lower b) && startswith_ci s' needle'
  end.

Fixpoint icontains (s needle : string) : bool :=
  startswith_ci s needle
  || match s with
     | EmptyString => false
     | String _ s' => icontains s' needle
     end.

(** The row a posting is joined with for [location__country] and
    [location__city]. *)
Definition location_of (st : State) (j : JobPosting) : option Location :=
  match location j with
  | Some id => find (fun l => Nat.eqb (location_id l) id) (locations st)
  | None => None
  end.

Definition lookup {A} (value : option A) (test : A -> bool) : bool :=
  match value with Some v => test v | None => true end.

(** One [.filter(...)] for each cleaned value that is not empty. *)
Definition keeps (st : State) (c : Cleaned) (j : JobPosting) : bool :=
  lookup (cleaned_title c) (icontains (title j))
  && lookup (cleaned_description c) (icontains (description j))
  && lookup (cleaned_category c) (String.eqb (category j))
  && lookup (cleaned_country c)
       (fun v => match location_of st j with
                 | Some l => String.eqb (country l) v
                 | None => false
                 end)
  && lookup (cleaned_city c)
       (fun v => match location_of st j with
                 | Some l => String.eqb (city l) v
                 | None => false
                 end)
  && lookup (cleaned_salary c) (fun n => Nat.leb n (salary j)).

End JobPostingFilter.

(** ** jobs/views.py *)

(** A queryset on [JobPosting]: the [filter] of its query (each queryset of
    the list view is ordered by [-created_at]) and the rows it holds once it
    has been evaluated. *)
Inductive Query : Type :=
| filter_employer (user_pk : nat)          (* filter(employer=user) *)
| filter_is_active.                        (* filter(is_active=True) *)

Record QuerySet : Type := mkQuerySet {
  query : Query;
  result_cache : option (list JobPosting)
}.

Module JobPostingListCreateView.

(** [order_by('-created_at')]: newest first; rows with equal timestamps keep
    their table order. *)
Fixpoint insert_newest_first (j : JobPosting) (l : list JobPosting) : list JobPosting :=
  match l with
  | [] => [j]
  | h :: t =>
      if Nat.leb (created_at h) (created_at j)
      then j :: h :: t
      else h :: insert_newest_first j t
  end.

Definition order_by_created_at_desc (l : list JobPosting) : list JobPosting :=
  fold_right insert_newest_first [] l.

Definition get_permissions (request : Request) : list (BasePermission JobPosting) :=
  match method request with
  | POST => [IsAuthenticated; IsEmployer]
  | _ => [IsAuthenticated]
  end.

Definition where_clause (q : Query) (j : JobPosting) : bool :=
  match q with
  | filter_employer user_pk => Nat.eqb (employer j) user_pk
  | filter_is_active => is_active j
  end.

(** Running the query on the table. *)
Definition fetch_all (st : State) (q : Query) : list JobPosting :=
  order_by_created_at_desc (filter (where_clause q) (job_postings st)).

(** The rows of a queryset: those it holds, or those the table gives. *)
Definition rows (st : State) (qs : QuerySet) : list JobPosting :=
  match result_cache qs with
  | Some fetched => fetched
  | None => fetch_all st (query qs)
  end.

(** [queryset.all()]: a copy with the same query and no rows, so that its
    rows are fetched again. *)
Definition all (qs : QuerySet) : QuerySet := mkQuerySet (query qs) None.

(** [get_queryset].  [cache.set] pickles the queryset, which evaluates it:
    the cache holds the rows as they were at that time, and a queryset that
    comes out of the cache comes with these rows. *)
Definition get_queryset (st : State) (request : Request) : QuerySet * State :=
  let user := user request in
  if String.eqb (role user) "employer" then
    (mkQuerySet (filter_employer (user_id user)) None, st)
  else
    match active_jobs_queryset st with          (* cache.get(cache_key) *)
    | None =>
        let fetched := fetch_all st filter_is_active in
        (mkQuerySet filter_is_active (Some fetched), set_cache st (Some fetched))
    | Some fetched => (mkQuerySet filter_is_active (Some fetched), st)
    end.

(** The entry leaves the cache when its 15 minutes are over. *)
Definition cache_timeout (st : State) : State := set_cache st None.

(** [DjangoFilterBackend.filter_queryset]: an invalid query string is
    refused; otherwise the result is [filterset.qs], which starts from
    [queryset.all()] and so reads the table again, whatever rows the queryset
    came with. *)
Definition filter_queryset (st : State) (q : QueryParams) (queryset : QuerySet)
  : Response (list JobPosting) :=
  do cleaned <- JobPostingFilter.is_valid q;
  Success HTTP_200_OK (filter (JobPostingFilter.keeps st cleaned) (rows st (all queryset))).

(** [get], which is [ListModelMixin.list]: [get_queryset], the filter
    backend, and the page of the result. *)
Definition get (st : State) (u : User) (q : QueryParams)
  : Response (Page JobPosting) * State :=
  let request := mkRequest GET u in
  match check_permissions (get_permissions request) request with
  | Failed e => (Failed e, st)
  | Success _ _ =>
      let (queryset, st1) := get_queryset st request in
      (do filtered <- filter_queryset st1 q queryset;
       PageNumberPagination.paginate_queryset filtered (param_page q), st1)
  end.

(** [post]: field validation, [validate], [perform_create]
    ([serializer.save(employer=request.user)], then
    [cache.delete('active_jobs_queryset')]).  [pk] and [loc_pk] are the
    uuid4 values drawn for the posting and for a new location.  When the
    [is_active] field read no value, the key is not in [validated_data] and
    the row gets the model's [default=True]. *)
Definition post (st : State) (u : User) (data : JobPostingData) (pk loc_pk now : nat)
  : Response JobPosting * State :=
  let request := mkRequest POST u in
  match check_permissions (get_permissions request) request with
  | Failed e => (Failed e, st)
  | Success _ _ =>
      let validated :=
        do t0 <- JobPostingSerializer.required (data_title data);
        do t <- JobPostingSerializer.char_field (Some 100) t0;
        do d0 <- JobPostingSerializer.required (data_description data);
        do d <- JobPostingSerializer.char_field None d0;
        do s0 <- JobPostingSerializer.required (data_salary data);
        do s <- JobPostingSerializer.decimal_field s0;
        do c0 <- JobPostingSerializer.required (data_category data);
        do c <- JobPostingSerializer.choice CATEGORY_CHOICES c0;
        do jt0 <- JobPostingSerializer.required (data_job_type data);
        do jt <- JobPostingSerializer.choice JOB_TYPES jt0;
        do loc <- JobPostingSerializer.validate_create data;
        Success HTTP_200_OK (t, d, s, c, jt, loc) in
      match validated with
      | Failed e => (Failed e, st)
      | Success _ (t, d, s, c, jt, (lc, lt, la)) =>
          let (l, locs) := JobPostingSerializer.get_or_create (locations st) loc_pk lc lt la in
          let row := mkJobPosting pk t d c (Some (location_id l)) jt (user_id u) s now
                       (match data_is_active data with Some b => b | None => true end) in
          (Success HTTP_201_CREATED row,
           mkState (users st) (job_seeker_profiles st) (employer_profiles st)
             (verification_tokens st) locs (job_postings st ++ [row])
             (job_applications st) None (queue st))
      end
  end.

End JobPostingListCreateView.

Module JobPostingDetailView.

Definition get_permissions (request : Request) : list (BasePermission JobPosting) :=
  match method request with
  | PUT | PATCH | DELETE => [IsAuthenticated; IsEmployer; IsJobOwner]
  | _ =>
      if String.eqb (role (user request)) "employer"
      then [IsAuthenticated; IsJobOwner]
      else [IsAuthenticated]
  end.

(** Defined by the view, but [get_object] below does not go through it. *)
Definition get_queryset (st : State) (request : Request) : list JobPosting :=
  let user := user request in
  if String.eqb (role user) "employer"
  then filter (fun j => Nat.eqb (employer j) (user_id user)) (job_postings st)
  else filter is_active (job_postings st).

(** [generics.get_object_or_404(JobPosting, id=...)], then
    [check_object_permissions]. *)
Definition get_object (st : State) (request : Request) (id : nat) : Response JobPosting :=
  match get_posting st id with
  | None => Failed NotFound
  | Some obj =>
      do _ <- check_object_permissions (get_permissions request) request obj;
      Success HTTP_200_OK obj
  end.

Definition get (st : State) (u : User) (id : nat) : Response JobPosting * State :=
  let request := mkRequest GET u in
  match check_permissions (get_permissions request) request with
  | Failed e => (Failed e, st)
  | Success _ _ => (get_object st request id, st)
  end.

(** [UpdateModelMixin.update], which [put] and [patch] call: permissions,
    [get_object], validation, [perform_update], 200.  [loc_pk] is the uuid4
    drawn if a location has to be inserted. *)
Definition update (st : State) (u : User) (m : Method) (partial : bool) (id : nat)
  (data : JobPostingData) (loc_pk : nat) : Response JobPosting * State :=
  let request := mkRequest m u in
  match check_permissions (get_permissions request) request with
  | Failed e => (Failed e, st)
  | Success _ _ =>
      match get_object st request id with
      | Failed e => (Failed e, st)
      | Success _ instance =>
          match JobPostingSerializer.is_valid_update partial data with
          | Failed e => (Failed e, st)
          | Success _ v =>
              let (instance', st1) := JobPostingSerializer.update st loc_pk instance v in
              (Success HTTP_200_OK instance', st1)
          end
      end
  end.

Definition put (st : State) (u : User) (id : nat) (data : JobPostingData) (loc_pk : nat)
  : Response JobPosting * State :=
  update st u PUT false id data loc_pk.

Definition patch (st : State) (u : User) (id : nat) (data : JobPostingData) (loc_pk : nat)
  : Response JobPosting * State :=
  update st u PATCH true id data loc_pk.

End JobPostingDetailView.

(** ** authentication/serializers.py *)

(** What the views take from Django itself: the e-mail format check of
    [EmailField], [BaseUserManager.normalize_email] and the password hasher
    behind [set_password]. *)
Record Django : Type := mkDjango {
  EmailValidator : string -> bool;
  normalize_email : string -> string;
  make_password : string -> string
}.

(** [request.data] for [RegisterSerializer], field by field. *)
Record RegisterData : Type := mkRegisterData {
  data_email : option string;
  data_password : option string;
  data_first_name : option string;
  data_last_name : option string;
  data_phone_number : option string;
  data_role : option string
}.

(** [validated_data]: optional fields are present only when supplied;
    [role] is always present because the field has a default. *)
Record RegisterValidated : Type := mkRegisterValidated {
  validated_email : string;
  validated_password : string;
  validated_first_name : option string;
  validated_last_name : option string;
  validated_phone_number : option string;
  validated_role : string
}.

Definition dict_get {A} (d : option A) (default : A) : A :=
  match d with Some x => x | None => default end.

Module CustomUserManager.
Section WithDjango.
Variable django : Django.

(** [create_user(email, password, **extra_fields)]; [uid] is the uuid4
    drawn for the primary key.  Saving fails on the unique e-mail column. *)
Definition create_user (st : State) (uid : nat) (email_ password_ : string)
  (first_name_ last_name_ phone_number_ role_ : option string)
  : Response User * State :=
  if String.eqb email_ "" then (Failed (Unhandled ValueError), st)
  else
    let email' := normalize_email django email_ in
    let user := mkUser uid email' (make_password django password_)
                  (dict_get first_name_ "") (dict_get last_name_ "") phone_number_
                  (dict_get role_ "user") false in
    if existsb (fun u => String.eqb (email u) email') (users st)
    then (Failed (Unhandled IntegrityError), st)
    else (Success HTTP_201_CREATED user, set_users st (users st ++ [user])).

End WithDjango.
End CustomUserManager.

Module RegisterSerializer.
Section WithDjango.
Variable django : Django.

(** [email]: the [EmailField] built for the model field, with
    [max_length=254] and the [UniqueValidator] of the unique column. *)
Definition email_field (st : State) (d : option string) : Response string :=
  match d with
  | None => Failed ValidationError
  | Some raw =>
      do e <- CharField false (Some 254) raw;
      if negb (EmailValidator django e) then Failed ValidationError
      else if existsb (fun u => String.eqb (email u) e) (users st)   (* UniqueValidator *)
      then Failed ValidationError
      else Success HTTP_200_OK e
  end.

(** [password = serializers.CharField(write_only=True, required=True)]. *)
Definition password_field (d : option string) : Response string :=
  match d with
  | None => Failed ValidationError
  | Some raw => CharField false None raw
  end.

(** [first_name] and [last_name]: [max_length=150, blank=True] on the
    model, so the field is not required and allows a blank value. *)
Definition name_field (d : option string) : Response (option string) :=
  match d with
  | None => Success HTTP_200_OK None
  | Some raw => do n <- CharField true (Some 150) raw; Success HTTP_200_OK (Some n)
  end.

(** [phone_number = serializers.CharField(required=False, allow_blank=True)]. *)
Definition phone_field (d : option string) : Response (option string) :=
  match d with
  | None => Success HTTP_200_OK None
  | Some raw => do p <- CharField true None raw; Success HTTP_200_OK (Some p)
  end.

(** [role = ChoiceField(choices=User.ROLE_CHOICES, default='job_seeker')]. *)
Definition role_field (d : option string) : Response string :=
  match d with
  | None => Success HTTP_200_OK "job_seeker"
  | Some r =>
      if existsb (String.eqb r) ROLE_CHOICES
      then Success HTTP_200_OK r else Failed ValidationError
  end.

Definition is_valid (st : State) (data : RegisterData) : Response RegisterValidated :=
  do e <- email_field st (data_email data);
  do p <- password_field (data_password data);
  do f <- name_field (data_first_name data);
  do l <- name_field (data_last_name data);
  do ph <- phone_field (data_phone_number data);
  do r <- role_field (data_role data);
  Success HTTP_200_OK (mkRegisterValidated e p f l ph r).

(** The class body defines [create] twice.  This is the first definition;
    the second one below rebinds the name, so this one is never called. *)
Definition create_shadowed (st : State) (uid : nat) (v : RegisterValidated)
  : Response User * State :=
  let role := validated_role v in
  match CustomUserManager.create_user django st uid
          (validated_email v) (validated_password v)
          (Some (dict_get (validated_first_name v) ""))
          (Some (dict_get (validated_last_name v) ""))
          (Some (dict_get (validated_phone_number v) ""))
          (Some role) with
  | (Failed e, st1) => (Failed e, st1)
  | (Success _ user, st1) =>
      if String.eqb role "job_seeker" then
        (Success HTTP_201_CREATED user,
         set_job_seeker_profiles st1
           (job_seeker_profiles st1 ++ [mkJobSeekerProfile (user_id user) None "" 0]))
      else if String.eqb role "employer" then
        (Success HTTP_201_CREATED user,
         set_employer_profiles st1
           (employer_profiles st1 ++
            [mkEmployerProfile (user_id user)
               (Some (first_name user ++ "'s Company")%string) None None]))
      else (Success HTTP_201_CREATED user, st1)
  end.

(** The definition in force: the second [create] of the class.  [tok] is
    the uuid4 drawn for the verification token. *)
Definition create (st : State) (uid tok : nat) (v : RegisterValidated)
  : Response User * State :=
  match CustomUserManager.create_user django st uid
          (validated_email v) (validated_password v)
          (validated_first_name v) (validated_last_name v)
          (validated_phone_number v) (Some (validated_role v)) with
  | (Failed e, st1) => (Failed e, st1)
  | (Success _ user, st1) =>
      let st2 :=
        if String.eqb (role user) "job_seeker" then
          set_job_seeker_profiles st1
            (job_seeker_profiles st1 ++ [mkJobSeekerProfile (user_id user) None "" 0])
        else if String.eqb (role user) "employer" then
          set_employer_profiles st1
            (employer_profiles st1 ++ [mkEmployerProfile (user_id user) None None None])
        else st1 in
      let token := mkVerificationToken (user_id user) tok in
      let st3 := set_verification_tokens st2 (verification_tokens st2 ++ [token]) in
      (Success HTTP_201_CREATED user,
       delay st3 (send_verification_email (user_id user) tok))
  end.

End WithDjango.
End RegisterSerializer.

(** ** authentication/views.py *)

(** The body of the 201 response: the serialised profile, or the user for
    an admin. *)
Inductive ProfileData : Type :=
| JobSeekerProfileData (u : User) (p : JobSeekerProfile)
| EmployerProfileData (u : User) (p : EmployerProfile)
| UserData (u : User).

Module RegisterView.
Section WithDjango.
Variable django : Django.

Definition create (st : State) (uid tok : nat) (data : RegisterData)
  : Response ProfileData * State :=
  match RegisterSerializer.is_valid django st data with
  | Failed e => (Failed e, st)
  | Success _ v =>
      match RegisterSerializer.create django st uid tok v with
      | (Failed e, st1) => (Failed e, st1)
      | (Success _ user, st1) =>
          if String.eqb (role user) "job_seeker" then
            match find (fun p => Nat.eqb (jsp_user p) (user_id user))
                    (job_seeker_profiles st1) with
            | Some profile => (Success HTTP_201_CREATED (JobSeekerProfileData user profile), st1)
            | None => (Failed (Unhandled DoesNotExist), st1)
            end
          else if String.eqb (role user) "employer" then
            match find (fun p => Nat.eqb (ep_user p) (user_id user))
                    (employer_profiles st1) with
            | Some profile => (Success HTTP_201_CREATED (EmployerProfileData user profile), st1)
            | None => (Failed (Unhandled DoesNotExist), st1)
            end
          else if String.eqb (role user) "admin" then
            (Success HTTP_201_CREATED (UserData user), st1)
          else (Failed (Unhandled ValueError), st1)
      end
  end.

End WithDjango.
End RegisterView.

Module VerifyEmailView.

(** [user.save()]: the row with the user's primary key is rewritten. *)
Definition save_user (st : State) (u : User) : State :=
  set_users st (map (fun r => if Nat.eqb (user_id r) (user_id u) then u else r) (users st)).

(** [verification_token.delete()]; the token column is unique. *)
Definition delete_token (st : State) (vt : VerificationToken) : State :=
  set_verification_tokens st
    (filter (fun r => negb (Nat.eqb (token r) (token vt))) (verification_tokens st)).

Definition set_verified (u : User) : User :=
  mkUser (user_id u) (email u) (password u) (first_name u) (last_name u)
    (phone_number u) (role u) true.

(** [get]: [token_param] is the [token] query parameter, absent or a uuid. *)
Definition get (st : State) (token_param : option nat) : Response string * State :=
  match match token_param with
        | Some t => get_token st t
        | None => None
        end with
  | None => (Failed InvalidToken, st)      (* VerificationToken.DoesNotExist *)
  | Some verification_token =>
      match get_user st (vt_user verification_token) with
      | None => (Failed (Unhandled DoesNotExist), st)
      | Some user =>
          if negb (is_email_verified user) then
            let st1 := save_user st (set_verified user) in
            let st2 := delete_token st1 verification_token in
            (Success HTTP_200_OK "Email verified successfully", st2)
          else (Success HTTP_200_OK "Email already verified", st)
      end
  end.

End VerifyEmailView.

(** What [UserProfileView.get_object] returns. *)
Inductive Profile : Type :=
| SeekerProfile (p : JobSeekerProfile)
| CompanyProfile (p : EmployerProfile).

Module UserProfileView.

(** [get_object]: [get_or_create] of the profile that goes with the role;
    404 for an admin and for any other role. *)
Definition get_object (st : State) (request : Request) : Response Profile * State :=
  let user := user request in
  if String.eqb (role user) "job_seeker" then
    match find (fun p => Nat.eqb (jsp_user p) (user_id user)) (job_seeker_profiles st) with
    | Some profile => (Success HTTP_200_OK (SeekerProfile profile), st)
    | None =>
        let profile := mkJobSeekerProfile (user_id user) None "" 0 in
        (Success HTTP_200_OK (SeekerProfile profile),
         set_job_seeker_profiles st (job_seeker_profiles st ++ [profile]))
    end
  else if String.eqb (role user) "employer" then
    match find (fun p => Nat.eqb (ep_user p) (user_id user)) (employer_profiles st) with
    | Some profile => (Success HTTP_200_OK (CompanyProfile profile), st)
    | None =>
        let profile := mkEmployerProfile (user_id user)
                         (Some (first_name user ++ "'s Company")%string) None None in
        (Success HTTP_200_OK (CompanyProfile profile),
         set_employer_profiles st (employer_profiles st ++ [profile]))
    end
  else if String.eqb (role user) "admin" then (Failed NotFound, st)
  else (Failed NotFound, st).

(** [get]: [RetrieveModelMixin.retrieve] on [get_object]. *)
Definition get (st : State) (u : User) : Response Profile * State :=
  get_object st (mkRequest GET u).

End UserProfileView.

(** ** Password reset (authentication/models.py, authentication/views.py) *)

Record PasswordResetToken : Type := mkPasswordResetToken {
  prt_user : nat;                    (* ForeignKey(User) *)
  prt_token : nat;                   (* UUIDField(unique=True) *)
  expires_at : option nat            (* null=True *)
}.

(** The state with the table of reset tokens beside it. *)
Record AuthState : Type := mkAuthState {
  core : State;
  password_reset_tokens : list PasswordResetToken
}.

(** The table of reset tokens with other values of [expires_at]. *)
Definition set_expires_at (f : PasswordResetToken -> option nat) (r : PasswordResetToken)
  : PasswordResetToken :=
  mkPasswordResetToken (prt_user r) (prt_token r) (f r).

Definition with_expires_at (f : PasswordResetToken -> option nat) (st : AuthState)
  : AuthState :=
  mkAuthState (core st) (map (set_expires_at f) (password_reset_tokens st)).

Definition set_password (django : Django) (u : User) (raw : string) : User :=
  mkUser (user_id u) (email u) (make_password django raw) (first_name u) (last_name u)
    (phone_number u) (role u) (is_email_verified u).

Module PasswordResetRequestView.
Section WithDjango.
Variable django : Django.

(** [email = serializers.EmailField()]. *)
Definition email_field (d : option string) : Response string :=
  match d with
  | None => Failed ValidationError
  | Some raw =>
      do e <- CharField false None raw;
      if negb (EmailValidator django e) then Failed ValidationError
      else Success HTTP_200_OK e
  end.

(** [post]; [tok] is the uuid4 drawn for the token.  The insert fails on
    the unique token column. *)
Definition post (st : AuthState) (data_email : option string) (tok : nat)
  : Response string * AuthState :=
  match email_field data_email with
  | Failed e => (Failed e, st)
  | Success _ email_ =>
      match find (fun u => String.eqb (email u) email_) (users (core st)) with
      | Some user =>
          if existsb (fun r => Nat.eqb (prt_token r) tok) (password_reset_tokens st)
          then (Failed (Unhandled IntegrityError), st)
          else
            let token := mkPasswordResetToken (user_id user) tok None in
            (Success HTTP_200_OK "Password reset email sent",
             mkAuthState (delay (core st) (send_password_reset_email (user_id user) tok))
               (password_reset_tokens st ++ [token]))
      | None =>                            (* User.DoesNotExist *)
          (Success HTTP_200_OK "Password reset email sent", st)
      end
  end.

End WithDjango.
End PasswordResetRequestView.

Module PasswordResetConfirmView.
Section WithDjango.
Variable django : Django.

Definition get_reset_token (st : AuthState) (t : nat) : option PasswordResetToken :=
  find (fun r => Nat.eqb (prt_token r) t) (password_reset_tokens st).

(** [new_password = serializers.CharField(write_only=True)]. *)
Definition new_password_field (d : option string) : Response string :=
  match d with
  | None => Failed ValidationError
  | Some raw => CharField false None raw
  end.

(** [post]: [data_token] is the [token] field, absent or a uuid. *)
Definition post (st : AuthState) (data_token : option nat) (data_new_password : option string)
  : Response string * AuthState :=
  match data_token, new_password_field data_new_password with
  | None, _ => (Failed ValidationError, st)
  | _, Failed e => (Failed e, st)
  | Some t, Success _ new_password =>
      match get_reset_token st t with
      | None => (Failed InvalidToken, st)   (* PasswordResetToken.DoesNotExist *)
      | Some reset_token =>
          match get_user (core st) (prt_user reset_token) with
          | None => (Failed (Unhandled DoesNotExist), st)
          | Some user =>
              let st1 := VerifyEmailView.save_user (core st)
                           (set_password django user new_password) in
              (Success HTTP_200_OK "Password reset successfully",
               mkAuthState st1
                 (filter (fun r => negb (Nat.eqb (prt_token r) (prt_token reset_token)))
                    (password_reset_tokens st)))
          end
      end
  end.

End WithDjango.
End PasswordResetConfirmView.

(** ** Profile updates (authentication/serializers.py)

    [first_name], [last_name] and [phone_number] are declared with a dotted
    source, so their validated values arrive under the key ['user'];
    [email], [is_email_verified] and [role] are read-only. *)

(** [validated_data['user']]: a key is present when the request carried
    the field. *)
Record UserValidated : Type := mkUserValidated {
  uv_first_name : option string;
  uv_last_name : option string;
  uv_phone_number : option string      (* allow_blank=True *)
}.

(** Python truth of the popped dict: it has a key. *)
Definition truthy_dict (d : UserValidated) : bool :=
  JobPostingSerializer.present (uv_first_name d)
  || JobPostingSerializer.present (uv_last_name d)
  || JobPostingSerializer.present (uv_phone_number d).

(** The three assignments to [instance.user]. *)
Definition set_user_data (user : User) (d : UserValidated) : User :=
  mkUser (user_id user) (email user) (password user)
    (dict_get (uv_first_name d) (first_name user))
    (dict_get (uv_last_name d) (last_name user))
    (match uv_phone_number d with Some p => Some p | None => phone_number user end)
    (role user) (is_email_verified user).

(** The first half of both [update] methods: [instance.user] is read
    through the foreign key [user_pk], changed and saved when the dict is
    not empty. *)
Definition update_user (st : State) (user_pk : nat) (d : UserValidated) : Response State :=
  if truthy_dict d then
    match get_user st user_pk with
    | None => Failed (Unhandled DoesNotExist)
    | Some user => Success HTTP_200_OK (VerifyEmailView.save_user st (set_user_data user d))
    end
  else Success HTTP_200_OK st.

(** The rest of [validated_data] for [EmployerProfileSerializer]:
    [company_name] and [website] accept null. *)
Record EmployerValidated : Type := mkEmployerValidated {
  ev_user : UserValidated;
  ev_company_name : option (option string);
  ev_website : option (option string)
}.

Record JobSeekerValidated : Type := mkJobSeekerValidated {
  sv_user : UserValidated;
  sv_skills : option string;
  sv_resume : option (option string);
  sv_experience : option nat
}.

Module EmployerProfileSerializer.

(** [update]; the row of the profile is found by its one-to-one user. *)
Definition update (st : State) (instance : EmployerProfile) (v : EmployerValidated)
  : Response EmployerProfile * State :=
  match update_user st (ep_user instance) (ev_user v) with
  | Failed e => (Failed e, st)
  | Success _ st1 =>
      let instance' :=
        mkEmployerProfile (ep_user instance)
          (dict_get (ev_company_name v) (company_name instance))
          (dict_get (ev_website v) (website instance))
          (bio instance) in
      (Success HTTP_200_OK instance',
       set_employer_profiles st1
         (map (fun r => if Nat.eqb (ep_user r) (ep_user instance') then instance' else r)
            (employer_profiles st1)))
  end.

End EmployerProfileSerializer.

Module JobSeekerProfileSerializer.

Definition update (st : State) (instance : JobSeekerProfile) (v : JobSeekerValidated)
  : Response JobSeekerProfile * State :=
  match update_user st (jsp_user instance) (sv_user v) with
  | Failed e => (Failed e, st)
  | Success _ st1 =>
      let instance' :=
        mkJobSeekerProfile (jsp_user instance)
          (dict_get (sv_resume v) (resume instance))
          (dict_get (sv_skills v) (skills instance))
          (dict_get (sv_experience v) (experience instance)) in
      (Success HTTP_200_OK instance',
       set_job_seeker_profiles st1
         (map (fun r => if Nat.eqb (jsp_user r) (jsp_user instance') then instance' else r)
            (job_seeker_profiles st1)))
  end.

End JobSeekerProfileSerializer.

(** ** Sequences of requests *)

(** One request to one of the handlers above, with the values drawn while
    it is served. *)
Inductive Call : Type :=
| ListApplications (u : User) (page : option PageParam)
| SubmitApplication (u : User) (data : ApplicationData) (now : nat)
| GetApplication (u : User) (pk : nat)
| PutApplication (u : User) (pk : nat) (data : ApplicationData)
| PatchApplication (u : User) (pk : nat) (data : ApplicationData)
| ListJobs (u : User) (q : QueryParams)
| CreateJob (u : User) (data : JobPostingData) (pk loc_pk now : nat)
| GetJob (u : User) (id : nat)
| Register (uid tok : nat) (data : RegisterData)
| VerifyEmail (token_param : option nat)
| CacheTimeout.

(** The state a request leaves behind. *)
Definition handle (django : Django) (st : State) (c : Call) : State :=
  match c with
  | ListApplications u page => snd (JobApplicationListCreate.get st u page)
  | SubmitApplication u data now => snd (JobApplicationListCreate.post st u data now)
  | GetApplication u pk => snd (JobApplicationDetail.get st u pk)
  | PutApplication u pk data => snd (JobApplicationDetail.put st u pk data)
  | PatchApplication u pk data => snd (JobApplicationDetail.patch st u pk data)
  | ListJobs u q => snd (JobPostingListCreateView.get st u q)
  | CreateJob u data pk loc_pk now =>
      snd (JobPostingListCreateView.post st u data pk loc_pk now)
  | GetJob u id => snd (JobPostingDetailView.get st u id)
  | Register uid tok data => snd (RegisterView.create django st uid tok data)
  | VerifyEmail token_param => snd (VerifyEmailView.get st token_param)
  | CacheTimeout => JobPostingListCreateView.cache_timeout st
  end.

Definition handle_all (django : Django) (st : State) (calls : list Call) : State :=
  fold_left (handle django) calls st.

(** The requests above together with the updates of a posting, the
    applications of one posting and the profile of the requesting user. *)
Inductive WideCall : Type :=
| Narrow (c : Call)
| PutJob (u : User) (id : nat) (data : JobPostingData) (loc_pk : nat)
| PatchJob (u : User) (id : nat) (data : JobPostingData) (loc_pk : nat)
| GetProfile (u : User).

Definition handle_wide (django : Django) (st : State) (c : WideCall) : State :=
  match c with
  | Narrow c => handle django st c
  | PutJob u id data loc_pk => snd (JobPostingDetailView.put st u id data loc_pk)
  | PatchJob u id data loc_pk => snd (JobPostingDetailView.patch st u id data loc_pk)
  | GetProfile u => snd (UserProfileView.get st u)
  end.

Definition handle_all_wide (django : Django) (st : State) (calls : list WideCall) : State :=
  fold_left (handle_wide django) calls st.

(** * A running scenario

    One job seeker, two employers and an admin; employer [bob] owns an
    active and an inactive posting, employer [carol] an active one. *)

Definition alice : User :=
  mkUser 1 "alice@example.com" "pbkdf2$a" "Alice" "A" None "job_seeker" false.
Definition bob : User :=
  mkUser 2 "bob@example.com" "pbkdf2$b" "Bob" "B" None "employer" true.
Definition carol : User :=
  mkUser 3 "carol@example.com" "pbkdf2$c" "Carol" "C" None "employer" true.
Definition root : User :=
  mkUser 4 "root@example.com" "pbkdf2$r" "Root" "R" None "admin" true.

Definition backend_job : JobPosting :=
  mkJobPosting 10 "Backend Engineer" "Django" "tech" None "full_time" 2 90 100 true.
Definition archived_job : JobPosting :=
  mkJobPosting 11 "Archived Role" "closed" "other" None "contract" 2 50 200 false.
Definition nurse_job : JobPosting :=
  mkJobPosting 12 "Nurse" "ward" "healthcare" None "part_time" 3 60 150 true.

Definition board : State :=
  mkState [alice; bob; carol; root] [mkJobSeekerProfile 1 None "" 0]
    [mkEmployerProfile 2 None None None; mkEmployerProfile 3 None None None]
    [mkVerificationToken 1 777] []
    [backend_job; archived_job; nurse_job] [] None [].




(** [board] after alice's application to the backend posting. *)
Definition board_applied : State :=
  snd (JobApplicationListCreate.post board alice (mkApplicationData (Some 10) None) 1000).

Definition with_role (data : RegisterData) (r : string) : RegisterData :=
  mkRegisterData (data_email data) (data_password data) (data_first_name data)
    (data_last_name data) (data_phone_number data) (Some r).

(** A stand-in for Django's own functions, to run the scenario. *)
Definition plain_django : Django :=
  mkDjango (fun e => existsb (Ascii.eqb "@"%char) (list_ascii_of_string e))
    (fun e => e) (fun p => ("hashed:" ++ p)%string).

Definition dana_data : RegisterData :=
  mkRegisterData (Some "dana@example.com") (Some "s3cret") (Some "Dana") None None
    (Some "employer").

Definition erin_data : RegisterData :=
  mkRegisterData (Some "erin@example.com") (Some "s3cret") (Some "Erin") None None None.

(** * Properties *)

(** ** Predicates used in the statements *)

(** The two uniqueness constraints of the [JobApplication] table: the
    primary key, and [unique_together = ('job', 'job_seeker')]. *)
Definition pair_of (a : JobApplication) : nat * nat := (job a, job_seeker a).
Definition unique_together (rows : list JobApplication) : Prop := NoDup (map pair_of rows).
Definition unique_pk (rows : list JobApplication) : Prop := NoDup (map app_id rows).
Definition applications_wf (st : State) : Prop :=
  unique_pk (job_applications st) /\ unique_together (job_applications st).
Definition has_applied (st : State) (j u : nat) : bool :=
  existsb (fun a => Nat.eqb (job a) j && Nat.eqb (job_seeker a) u) (job_applications st).
Definition status_ok (s : option string) : bool :=
  match s with None => true | Some x => existsb (String.eqb x) STATUS_CHOICES end.

(** The cache entry, when present, holds rows whose [is_active] is set. *)
Definition cache_wf (st : State) : Prop :=
  match active_jobs_queryset st with
  | None => True
  | Some l => Forall (fun j => is_active j = true) l
  end.


(** The access predicates of the specification (section 4.1), in its
    words, to compare the views with. *)
Definition canMutateApplicationStatus (st : State) (actor : User) (app : JobApplication)
  : bool :=
  String.eqb (role actor) "admin"
  || (String.eqb (role actor) "employer"
      && match get_posting st (job app) with
         | Some j => Nat.eqb (user_id actor) (employer j)
         | None => false
         end).

Definition canViewJob (actor : User) (j : JobPosting) : bool :=
  is_active j
  || (String.eqb (role actor) "employer" && Nat.eqb (user_id actor) (employer j))
  || String.eqb (role actor) "admin".

(** Every stored application carries one of the four status values. *)
Definition statuses_valid (st : State) : Prop :=
  Forall (fun a => In (status a) STATUS_CHOICES) (job_applications st).

(** Every stored application points to a posting of the table. *)
Definition jobs_exist (st : State) : Prop :=
  Forall (fun a => get_posting st (job a) <> None) (job_applications st).

(** [unique_together = ('country', 'city', 'address')] of [Location]. *)
Definition triple_of (l : Location) : string * string * string :=
  (country l, city l, address l).

Definition locations_unique (st : State) : Prop :=
  NoDup (map triple_of (locations st)).

(** The scenario with the reset-token table, empty. *)
Definition board_auth : AuthState := mkAuthState board [].

(** The table a successful [put] or [patch] leaves: the row with the
    requested id carries the validated attributes, nothing else moved. *)
Definition updated_to (st : State) (pk : nat) (d : ApplicationData)
  (inst' : JobApplication) (st' : State) : Prop :=
  exists inst v c,
    get_application st pk = Some inst /\
    JobApplicationSerializer.update st inst v = (Success c inst', set_job_applications st
      (map (fun r => if Nat.eqb (app_id r) (app_id inst') then inst' else r)
         (job_applications st))) /\
    validated_status v = data_status d /\ status_ok (data_status d) = true /\
    match data_job_id d with
    | None => validated_job v = None
    | Some j_id => exists j, get_posting st j_id = Some j /\ validated_job v = Some j
    end /\
    job_applications st' =
      map (fun r => if Nat.eqb (app_id r) (app_id inst') then inst' else r)
        (job_applications st) /\
    users st' = users st /\ job_postings st' = job_postings st /\
    job_seeker_profiles st' = job_seeker_profiles st /\
    employer_profiles st' = employer_profiles st /\
    verification_tokens st' = verification_tokens st /\
    locations st' = locations st /\
    active_jobs_queryset st' = active_jobs_queryset st.

Definition has_triple (c t a : string) (l : Location) : bool :=
  String.eqb (country l) c && String.eqb (city l) t && String.eqb (address l) a.

Definition is_write (m : Method) : bool :=
  match m with PUT | PATCH | DELETE => true | _ => false end.

(** A user created without a role: the model's default. *)
Definition mallory : User :=
  mkUser 9 "mallory@example.com" "pbkdf2$m" "Mallory" "M" None "user" true.

(** A complete posting, and two partial updates. *)
Definition clerk_data : JobPostingData :=
  mkJobPostingData (Some "Clerk") (Some "filing") (Some 40) (Some "finance")
    (Some "full_time") None (Some "US") (Some "SF") (Some "A1").

Definition deactivate_data : JobPostingData :=
  mkJobPostingData None None None None None (Some false) None None None.

Definition city_only_data : JobPostingData :=
  mkJobPostingData None None None None None None None (Some "Oslo") None.

(** The calls that write to the application table. *)
Definition writes_applications (c : WideCall) : bool :=
  match c with
  | Narrow (SubmitApplication _ _ _) | Narrow (PutApplication _ _ _)
  | Narrow (PatchApplication _ _ _) => true
  | _ => false
  end.

(** The calls that write to the posting and location tables. *)
Definition writes_postings (c : WideCall) : bool :=
  match c with
  | Narrow (CreateJob _ _ _ _ _) | PutJob _ _ _ _ | PatchJob _ _ _ _ => true
  | _ => false
  end.

(** A mixed run of requests on the scenario. *)
Definition busy_day : list WideCall :=
  [ Narrow (SubmitApplication alice (mkApplicationData (Some 12) (Some "accepted")) 400);
    Narrow (PatchApplication bob 1 (mkApplicationData None (Some "bogus")));
    Narrow (PatchApplication bob 1 (mkApplicationData (Some 11) (Some "rejected")));
    PutJob bob 10 clerk_data 50;
    Narrow (CreateJob carol clerk_data 21 51 301);
    PatchJob carol 12 deactivate_data 52;
    Narrow (Register 5 778 dana_data);
    GetProfile bob;
    Narrow (VerifyEmail (Some 777)) ].

(** The location of [clerk_data] typed with spaces around it, another
    location, and requests served between two postings of one location. *)
Definition clerk_data_spaced : JobPostingData :=
  mkJobPostingData (Some "Teller") (Some "counting") (Some 45) (Some "finance")
    (Some "part_time") None (Some " US") (Some "SF  ") (Some " A1 ").

Definition oslo_data : JobPostingData :=
  mkJobPostingData (Some "Nurse") (Some "night shifts") (Some 60) (Some "healthcare")
    (Some "full_time") None (Some "NO") (Some "Oslo") (Some "B2").

Definition between_postings : list WideCall :=
  [ Narrow (CreateJob carol oslo_data 22 52 302);
    PatchJob bob 20 deactivate_data 53;
    Narrow (ListJobs alice no_params);
    PutJob carol 22 oslo_data 54 ].

(** [email = models.EmailField(unique=True)]. *)
Definition emails_unique (st : State) : Prop :=
  NoDup (map email (users st)).

(** The primary key of [User]. *)
Definition user_ids_unique (st : State) : Prop :=
  NoDup (map user_id (users st)).

(** The scenario with one reset token of alice whose [expires_at] lies in
    the past. *)
Definition board_reset : AuthState :=
  mkAuthState board [mkPasswordResetToken 1 900 (Some 0)].

(** What the account of a user keeps through a profile update. *)
Definition same_account (u u' : User) : Prop :=
  user_id u' = user_id u /\ email u' = email u /\ password u' = password u /\
  role u' = role u /\ is_email_verified u' = is_email_verified u.

(** A profile update that renames bob and sets his company. *)
Definition rename_bob : EmployerValidated :=
  mkEmployerValidated (mkUserValidated (Some "Robert") None None)
    (Some (Some "Bob and Sons")) None.

(** ** Fields *)

(** What a [CharField] lets through is the stripped value, and it is not
    blank unless the field allows that. *)
Lemma CharField_success allow_blank max_length data c value :
  CharField allow_blank max_length data = Success c value ->
  c = HTTP_200_OK /\ value = strip data /\
  (allow_blank = false -> String.eqb value "" = false).
Proof.
  unfold CharField. destruct (String.eqb (strip data) "") eqn:Hblank.
  - apply String.eqb_eq in Hblank. destruct allow_blank; intros H; inversion H; subst.
    rewrite Hblank. split; [reflexivity|]. split; [reflexivity|]. intros E. discriminate E.
  - destruct (has_null_character (strip data)); [intros H; discriminate H|].
    destruct max_length as [n|].
    + destruct (Nat.leb (String.length (strip data)) n); intros H; inversion H; subst.
      auto.
    + intros H. inversion H; subst. auto.
Qed.

Lemma CharField_failure allow_blank max_length data e :
  CharField allow_blank max_length data = Failed e -> e = ValidationError.
Proof.
  unfold CharField. destruct (String.eqb (strip data) "").
  - destruct allow_blank; intros H; inversion H; reflexivity.
  - destruct (has_null_character (strip data)); [intros H; inversion H; reflexivity|].
    destruct max_length as [n|].
    + destruct (Nat.leb (String.length (strip data)) n); intros H; inversion H; reflexivity.
    + intros H. discriminate H.
Qed.

(** A value made of whitespace only is blank. *)
Lemma CharField_whitespace max_length :
  CharField false max_length "   " = Failed ValidationError.
Proof. reflexivity. Qed.

(** ** applications: submitting *)

Lemma get_posting_some st pk j :
  get_posting st pk = Some j -> posting_id j = pk /\ In j (job_postings st).
Proof.
  unfold get_posting. intros H. apply find_some in H. destruct H as [Hin Heq].
  apply Nat.eqb_eq in Heq. auto.
Qed.

Lemma next_app_id_fresh st a :
  In a (job_applications st) -> app_id a < JobApplicationSerializer.next_app_id st.
Proof.
  intros Hin. unfold JobApplicationSerializer.next_app_id.
  assert (H : Forall (fun k => k <= list_max (map app_id (job_applications st)))
                (map app_id (job_applications st))).
  { apply list_max_le. lia. }
  rewrite Forall_forall in H. specialize (H (app_id a) (in_map _ _ _ Hin)). lia.
Qed.

Lemma status_field_spec s :
  JobApplicationSerializer.status_field s =
  if status_ok s then Success HTTP_200_OK s else Failed ValidationError.
Proof.
  destruct s as [x|]; [|reflexivity].
  unfold JobApplicationSerializer.status_field, status_ok.
  destruct (existsb (String.eqb x) STATUS_CHOICES); reflexivity.
Qed.

Lemma existsb_same_pair st row :
  existsb (JobApplicationSerializer.same_pair row) (job_applications st) =
  has_applied st (job row) (job_seeker row).
Proof.
  unfold has_applied, JobApplicationSerializer.same_pair.
  induction (job_applications st) as [|a l IH]; cbn; [reflexivity|].
  rewrite IH, (Nat.eqb_sym (job row)), (Nat.eqb_sym (job_seeker row)). reflexivity.
Qed.

Ltac unfold_post :=
  unfold JobApplicationListCreate.post, check_permissions,
    JobApplicationSerializer.is_valid, JobApplicationSerializer.job_id,
    JobApplicationSerializer.validate, JobApplicationSerializer.create;
  rewrite status_field_spec.

(** What a successful [post] did. *)
Lemma post_success st u d now c row st' :
  JobApplicationListCreate.post st u d now = (Success c row, st') ->
  exists pk j,
    role u = "job_seeker" /\ data_job_id d = Some pk /\ get_posting st pk = Some j /\
    employer j <> user_id u /\ status_ok (data_status d) = true /\
    has_applied st (posting_id j) (user_id u) = false /\
    c = HTTP_201_CREATED /\
    row = mkJobApplication (JobApplicationSerializer.next_app_id st) (posting_id j)
            (user_id u) (dict_get (data_status d) "submitted") now /\
    st' = delay (set_job_applications st (job_applications st ++ [row]))
            (send_application_submitted_email (email u) (title j)).
Proof.
  unfold_post. cbn. intros H.
  destruct (String.eqb (role u) "job_seeker") eqn:Hrole; cbn in H; [|discriminate H].
  destruct (data_job_id d) as [pk|] eqn:Hpk; cbn in H; [|discriminate H].
  destruct (get_posting st pk) as [j|] eqn:Hj; cbn in H; [|discriminate H].
  destruct (status_ok (data_status d)) eqn:Hs; cbn in H; [|discriminate H].
  destruct (Nat.eqb (employer j) (user_id u)) eqn:Hown; cbn in H; [discriminate H|].
  rewrite existsb_same_pair in H. cbn in H.
  destruct (has_applied st (posting_id j) (user_id u)) eqn:Hdup;
    inversion H; subst; clear H.
  exists pk, j. apply String.eqb_eq in Hrole. apply Nat.eqb_neq in Hown.
  repeat split; auto.
Qed.

(** The conditions under which [post] succeeds. *)
Lemma post_succeeds st u pk j s now :
  role u = "job_seeker" -> get_posting st pk = Some j ->
  employer j <> user_id u -> status_ok s = true ->
  has_applied st (posting_id j) (user_id u) = false ->
  let row := mkJobApplication (JobApplicationSerializer.next_app_id st) (posting_id j)
               (user_id u) (dict_get s "submitted") now in
  JobApplicationListCreate.post st u (mkApplicationData (Some pk) s) now =
  (Success HTTP_201_CREATED row,
   delay (set_job_applications st (job_applications st ++ [row]))
     (send_application_submitted_email (email u) (title j))).
Proof.
  intros Hrole Hj Hown Hs Hdup. unfold_post.
  cbn. rewrite Hrole. cbn. rewrite Hj. cbn. rewrite Hs. cbn.
  apply Nat.eqb_neq in Hown. rewrite Hown. cbn.
  rewrite existsb_same_pair. cbn. rewrite Hdup. reflexivity.
Qed.

(** A failed [post] leaves the state as it was and is never [Conflict]. *)
Lemma post_failure st u d now e st' :
  JobApplicationListCreate.post st u d now = (Failed e, st') ->
  st' = st /\ e <> Conflict.
Proof.
  unfold_post. cbn. intros H.
  destruct (String.eqb (role u) "job_seeker"); cbn in H;
    [|inversion H; split; [auto | discriminate]].
  destruct (data_job_id d) as [pk|]; cbn in H;
    [|inversion H; split; [auto | discriminate]].
  destruct (get_posting st pk) as [j|]; cbn in H;
    [|inversion H; split; [auto | discriminate]].
  destruct (status_ok (data_status d)); cbn in H;
    [|inversion H; split; [auto | discriminate]].
  destruct (Nat.eqb (employer j) (user_id u)); cbn in H;
    [inversion H; split; [auto | discriminate]|].
  match type of H with context [existsb ?f ?l] => destruct (existsb f l) end;
    inversion H; split; [auto | discriminate].
Qed.

Lemma has_applied_false st j u :
  has_applied st j u = false ->
  ~ In (j, u) (map pair_of (job_applications st)).
Proof.
  unfold has_applied. intros H Hin. apply in_map_iff in Hin.
  destruct Hin as [a [Hp Ha]]. unfold pair_of in Hp. inversion Hp; subst.
  assert (Ht : existsb (fun a0 => Nat.eqb (job a0) (job a) && Nat.eqb (job_seeker a0) (job_seeker a))
                 (job_applications st) = true).
  { apply existsb_exists. exists a. split; [assumption|].
    rewrite !Nat.eqb_refl. reflexivity. }
  congruence.
Qed.

Lemma has_applied_true st j u :
  has_applied st j u = true <->
  exists a, In a (job_applications st) /\ job a = j /\ job_seeker a = u.
Proof.
  unfold has_applied. rewrite existsb_exists. split.
  - intros [a [Hin Hb]]. apply andb_true_iff in Hb. destruct Hb as [H1 H2].
    apply Nat.eqb_eq in H1, H2. eauto.
  - intros [a [Hin [H1 H2]]]. exists a. split; [assumption|].
    subst. rewrite !Nat.eqb_refl. reflexivity.
Qed.

Lemma NoDup_snoc {A} (l : list A) (x : A) :
  NoDup l -> ~ In x l -> NoDup (l ++ [x]).
Proof.
  intros Hl Hx. apply NoDup_app; [assumption | repeat constructor; auto |].
  intros a Ha [Heq | []]. subst. contradiction.
Qed.

(** The insert of [ModelSerializer.create] keeps both uniqueness constraints. *)
Lemma create_keeps_wf st j s u now r st' :
  applications_wf st ->
  JobApplicationSerializer.create st j s u now = (r, st') ->
  applications_wf st'.
Proof.
  intros [Hpk Hut]. unfold JobApplicationSerializer.create.
  rewrite existsb_same_pair. cbn.
  destruct (has_applied st (posting_id j) (user_id u)) eqn:Hdup; intros H;
    inversion H; subst; clear H; [split; assumption|].
  split; unfold unique_pk, unique_together in *; cbn; rewrite map_app; cbn.
  - apply NoDup_snoc; [assumption|].
    intros Hin. apply in_map_iff in Hin. destruct Hin as [a [Heq Ha]].
    apply next_app_id_fresh in Ha. lia.
  - apply NoDup_snoc; [assumption|].
    apply has_applied_false. assumption.
Qed.

(** [instance.save()] on an existing row keeps both uniqueness constraints. *)
Lemma replace_row_keeps_unique (inst : JobApplication) (rows : list JobApplication) :
  unique_pk rows -> unique_together rows ->
  existsb (fun r => negb (Nat.eqb (app_id r) (app_id inst))
                    && JobApplicationSerializer.same_pair r inst) rows = false ->
  let rows' := map (fun r => if Nat.eqb (app_id r) (app_id inst) then inst else r) rows in
  unique_pk rows' /\ unique_together rows'.
Proof.
  unfold unique_pk, unique_together. intros Hpk Hut Hother. cbn zeta.
  assert (Hfar : forall r, In r rows -> app_id r <> app_id inst -> pair_of r <> pair_of inst).
  { intros r Hin Hne Hp. rewrite <- not_true_iff_false in Hother. apply Hother.
    apply existsb_exists. exists r. split; [assumption|].
    apply Nat.eqb_neq in Hne. rewrite Hne. cbn.
    unfold pair_of in Hp. inversion Hp as [[Hj Hs]].
    unfold JobApplicationSerializer.same_pair. rewrite Hj, Hs, !Nat.eqb_refl. reflexivity. }
  clear Hother. induction rows as [|r t IH]; cbn; [split; constructor|].
  inversion Hpk as [|? ? Hnotin_pk Hpk']; subst.
  inversion Hut as [|? ? Hnotin_ut Hut']; subst.
  destruct (IH Hpk' Hut') as [IHpk IHut].
  { intros a Ha. apply Hfar. right. assumption. }
  assert (Hin_map : forall a,
             In a (map (fun r0 => if Nat.eqb (app_id r0) (app_id inst) then inst else r0) t) ->
             (In a t /\ app_id a <> app_id inst) \/
             (a = inst /\ exists b, In b t /\ app_id b = app_id inst)).
  { intros a Ha. apply in_map_iff in Ha. destruct Ha as [b [Hb Hbt]].
    destruct (Nat.eqb (app_id b) (app_id inst)) eqn:E.
    - right. apply Nat.eqb_eq in E. split; [congruence | eauto].
    - left. subst. apply Nat.eqb_neq in E. auto. }
  destruct (Nat.eqb (app_id r) (app_id inst)) eqn:E.
  - apply Nat.eqb_eq in E. split; constructor; try assumption.
    + intros Hin. apply in_map_iff in Hin. destruct Hin as [a [Ha Hat]].
      apply Hin_map in Hat. destruct Hat as [[Hat Hne] | [_ [b [Hb Hbe]]]].
      * congruence.
      * apply Hnotin_pk. apply in_map_iff. exists b. split; [congruence | assumption].
    + intros Hin. apply in_map_iff in Hin. destruct Hin as [a [Ha Hat]].
      apply Hin_map in Hat. destruct Hat as [[Hat Hne] | [_ [b [Hb Hbe]]]].
      * apply (Hfar a); [right; assumption | assumption | assumption].
      * apply Hnotin_pk. apply in_map_iff. exists b. split; [congruence | assumption].
  - apply Nat.eqb_neq in E. split; constructor; try assumption.
    + intros Hin. apply in_map_iff in Hin. destruct Hin as [a [Ha Hat]].
      apply Hin_map in Hat. destruct Hat as [[Hat Hne] | [Heq _]].
      * apply Hnotin_pk. apply in_map_iff. exists a. auto.
      * subst a. congruence.
    + intros Hin. apply in_map_iff in Hin. destruct Hin as [a [Ha Hat]].
      apply Hin_map in Hat. destruct Hat as [[Hat Hne] | [Heq _]].
      * apply Hnotin_ut. apply in_map_iff. exists a. auto.
      * subst a. apply (Hfar r); [left; reflexivity | assumption | congruence].
Qed.

Lemma update_keeps_wf st inst v r st' :
  applications_wf st ->
  JobApplicationSerializer.update st inst v = (r, st') ->
  applications_wf st'.
Proof.
  intros [Hpk Hut]. unfold JobApplicationSerializer.update. cbn zeta.
  match goal with |- context [existsb ?f ?l] => destruct (existsb f l) eqn:Hother end;
    intros H; inversion H; subst; clear H; [split; assumption|].
  apply (replace_row_keeps_unique _ _ Hpk Hut Hother).
Qed.

Lemma wf_delay st t : applications_wf st -> applications_wf (delay st t).
Proof. intros H. exact H. Qed.

Lemma post_keeps_wf st u d now :
  applications_wf st ->
  applications_wf (snd (JobApplicationListCreate.post st u d now)).
Proof.
  intros Hwf. unfold JobApplicationListCreate.post.
  destruct (check_permissions _ _); [|exact Hwf].
  destruct (JobApplicationSerializer.is_valid _ _ _ _) as [? v|]; [|exact Hwf].
  destruct (validated_job v) as [j|]; [|exact Hwf].
  destruct (JobApplicationSerializer.create st j (validated_status v) u now)
    as [[? row|e] st1] eqn:Hc; apply (create_keeps_wf _ _ _ _ _ _ _ Hwf) in Hc;
    cbn; [apply wf_delay|]; assumption.
Qed.

Lemma put_keeps_wf st u pk d :
  applications_wf st ->
  applications_wf (snd (JobApplicationDetail.put st u pk d)).
Proof.
  intros Hwf. unfold JobApplicationDetail.put, JobApplicationDetail.perform_update.
  destruct (check_permissions _ _); [|exact Hwf].
  destruct (JobApplicationDetail.get_object _ _ _) as [? inst|]; [|exact Hwf].
  destruct (JobApplicationSerializer.is_valid _ _ _ _) as [? v|]; [|exact Hwf].
  destruct (JobApplicationSerializer.update st inst v) as [[? inst'|e] st1] eqn:Hu;
    apply (update_keeps_wf _ _ _ _ _ Hwf) in Hu; exact Hu.
Qed.

Lemma patch_keeps_wf st u pk d :
  applications_wf st ->
  applications_wf (snd (JobApplicationDetail.patch st u pk d)).
Proof.
  intros Hwf. unfold JobApplicationDetail.patch, JobApplicationDetail.perform_update.
  destruct (check_permissions _ _); [|exact Hwf].
  destruct (JobApplicationDetail.get_object _ _ _) as [? inst|]; [|exact Hwf].
  destruct (JobApplicationSerializer.is_valid _ _ _ _) as [? v|]; [|exact Hwf].
  destruct (JobApplicationSerializer.update st inst v) as [[? inst'|e] st1] eqn:Hu;
    apply (update_keeps_wf _ _ _ _ _ Hwf) in Hu; [|exact Hu].
  cbn zeta.
  destruct (negb (String.eqb (status inst) "accepted") && String.eqb (status inst') "accepted").
  - destruct (JobApplicationDetail.accepted_email_args st1 inst') as [[em ti]|]; [|exact Hu].
    destruct (JobApplicationSerializer.update _ inst' v) as [[? inst''|e] st3] eqn:Hu2;
      apply update_keeps_wf in Hu2; try exact Hu2; apply wf_delay; exact Hu.
  - destruct (JobApplicationSerializer.update st1 inst' v) as [[? inst''|e] st3] eqn:Hu2;
      apply update_keeps_wf in Hu2; assumption.
Qed.

Lemma empty_state_wf : applications_wf empty_state.
Proof. split; constructor. Qed.

(** C1 (amended).  The table never holds two applications for one
    (job, job seeker) pair: [post] keeps both uniqueness constraints.  A
    submission for a pair that already has an application fails and changes
    nothing, and the failure is never [Conflict]; when the first [post]
    succeeded, repeating it raises the unhandled [IntegrityError] of the
    insert. *)
Theorem C1_duplicate_application_integrity_error :
  forall st u d now,
    applications_wf st ->
    applications_wf (snd (JobApplicationListCreate.post st u d now)) /\
    fst (JobApplicationListCreate.post st u d now) <> Failed Conflict /\
    (forall pk, data_job_id d = Some pk -> has_applied st pk (user_id u) = true ->
       exists e, JobApplicationListCreate.post st u d now = (Failed e, st) /\ e <> Conflict) /\
    (forall c row st1,
       JobApplicationListCreate.post st u d now = (Success c row, st1) ->
       forall now',
         JobApplicationListCreate.post st1 u d now' =
         (Failed (Unhandled IntegrityError), st1)).
Proof.
  intros st u d now Hwf. split; [|split; [|split]].
  - apply post_keeps_wf. assumption.
  - destruct (JobApplicationListCreate.post st u d now) as [[c row|e] st1] eqn:Hp; cbn.
    + intros H. discriminate H.
    + apply post_failure in Hp. destruct Hp as [_ Hne]. congruence.
  - intros pk Hpk Hdup.
    destruct (JobApplicationListCreate.post st u d now) as [[c row|e] st1] eqn:Hp.
    + apply post_success in Hp.
      destruct Hp as [pk' [j [_ [Hpk' [Hj [_ [_ [Hnone _]]]]]]]].
      apply get_posting_some in Hj. destruct Hj as [Hid _].
      assert (pk' = pk) by congruence. subst. congruence.
    + apply post_failure in Hp. destruct Hp as [Hst Hne]. subst. eauto.
  - intros c row st1 Hp now'. apply post_success in Hp.
    destruct Hp as [pk [j [Hrole [Hpk [Hj [Hown [Hs [Hnone [_ [Hrow Hst]]]]]]]]]].
    unfold_post. cbn. rewrite Hrole, Hpk. cbn.
    assert (Hj1 : get_posting st1 pk = Some j) by (subst st1; exact Hj).
    rewrite Hj1. cbn. rewrite Hs. cbn.
    apply Nat.eqb_neq in Hown. rewrite Hown. cbn.
    rewrite existsb_same_pair. cbn.
    assert (Hnow : has_applied st1 (posting_id j) (user_id u) = true).
    { apply has_applied_true. exists row. subst st1 row. cbn. split; [|auto].
      apply in_or_app. right. left. reflexivity. }
    rewrite Hnow. reflexivity.
Qed.

Lemma C1_duplicate_application_integrity_error_witness :
  applications_wf board /\
  JobApplicationListCreate.post board_applied alice (mkApplicationData (Some 10) None) 1001 =
  (Failed (Unhandled IntegrityError), board_applied).
Proof.
  assert (Hwf : applications_wf board) by (split; constructor).
  split; [exact Hwf|].
  destruct (C1_duplicate_application_integrity_error board alice
              (mkApplicationData (Some 10) None) 1000 Hwf) as [_ [_ [_ H]]].
  exact (H _ _ _ eq_refl 1001).
Defined.

(** C1 as stated fails: alice applies to the backend posting, applies
    again, and the second call ends in the unhandled [IntegrityError], not
    in [Conflict]. *)
Lemma C1_counterexample :
  is_success (fst (JobApplicationListCreate.post board alice
                     (mkApplicationData (Some 10) None) 1000)) = true /\
  has_applied board_applied 10 (user_id alice) = true /\
  fst (JobApplicationListCreate.post board_applied alice
         (mkApplicationData (Some 10) None) 1001) = Failed (Unhandled IntegrityError) /\
  fst (JobApplicationListCreate.post board_applied alice
         (mkApplicationData (Some 10) None) 1001) <> Failed Conflict.
Proof.
  repeat split; try reflexivity. vm_compute. intros H. discriminate H.
Qed.

(** C5 (amended).  A successful [post] inserts one row for the requesting
    user whose status is the one the request carried, and ['submitted'] when
    it carried none, and queues one "application submitted" task for the
    user's e-mail address and the posting's title. *)
Theorem C5_created_status_and_notification :
  forall st u d now c row st',
    JobApplicationListCreate.post st u d now = (Success c row, st') ->
    status row = dict_get (data_status d) "submitted" /\
    In (status row) STATUS_CHOICES /\
    job_seeker row = user_id u /\
    job_applications st' = job_applications st ++ [row] /\
    exists j, get_posting st (job row) = Some j /\
              queue st' = queue st ++ [send_application_submitted_email (email u) (title j)].
Proof.
  intros st u d now c row st' Hp. apply post_success in Hp.
  destruct Hp as [pk [j [Hrole [Hpk [Hj [Hown [Hs [Hnone [_ [Hrow Hst]]]]]]]]]].
  pose proof (get_posting_some _ _ _ Hj) as [Hid _].
  subst row st'. cbn. repeat split.
  - unfold status_ok in Hs. destruct (data_status d) as [s|]; cbn.
    + apply existsb_exists in Hs. destruct Hs as [x [Hin Heq]].
      apply String.eqb_eq in Heq. subst. assumption.
    + left. reflexivity.
  - exists j. rewrite Hid. auto.
Qed.

Lemma C5_created_status_and_notification_witness :
  status (mkJobApplication 1 10 1 "submitted" 1000) = "submitted" /\
  queue board_applied = [send_application_submitted_email "alice@example.com" "Backend Engineer"].
Proof.
  destruct (C5_created_status_and_notification board alice
              (mkApplicationData (Some 10) None) 1000 HTTP_201_CREATED
              (mkJobApplication 1 10 1 "submitted" 1000) board_applied eq_refl)
    as [Hs [_ [_ [_ [j [Hj Hq]]]]]].
  split; [exact Hs|]. cbn in Hj. inversion Hj; subst. exact Hq.
Defined.

(** C5 as stated fails: the status sent along with the application is
    stored. *)
Lemma C5_counterexample :
  exists row st',
    JobApplicationListCreate.post board alice
      (mkApplicationData (Some 10) (Some "accepted")) 1000 =
    (Success HTTP_201_CREATED row, st') /\
    In row (job_applications st') /\
    status row = "accepted" /\ status row <> "submitted".
Proof.
  eexists. eexists. split; [reflexivity|].
  split; [left; reflexivity|]. split; [reflexivity|]. cbn. intros H. discriminate H.
Qed.

(** C9.  For a posting whose [is_active] is false, [post] by a user
    succeeds exactly when the user is a job seeker, is not the posting's
    employer, has no application for it yet and sent no invalid status; and
    a successful call stores the application. *)
Theorem C9_inactive_posting_accepts_application :
  forall st u pk j s now,
    get_posting st pk = Some j ->
    is_active j = false ->
    let r := JobApplicationListCreate.post st u (mkApplicationData (Some pk) s) now in
    (is_success (fst r) = true <->
     role u = "job_seeker" /\ employer j <> user_id u /\
     has_applied st pk (user_id u) = false /\ status_ok s = true) /\
    (is_success (fst r) = true ->
     exists row, fst r = Success HTTP_201_CREATED row /\
                 In row (job_applications (snd r)) /\
                 job row = pk /\ job_seeker row = user_id u).
Proof.
  intros st u pk j s now Hj Hinactive r.
  pose proof (get_posting_some _ _ _ Hj) as [Hid _].
  assert (Hok : role u = "job_seeker" /\ employer j <> user_id u /\
                has_applied st pk (user_id u) = false /\ status_ok s = true ->
                exists row, r = (Success HTTP_201_CREATED row,
                                 delay (set_job_applications st (job_applications st ++ [row]))
                                   (send_application_submitted_email (email u) (title j))) /\
                            job row = pk /\ job_seeker row = user_id u).
  { intros [Hrole [Hown [Hnone Hs]]]. rewrite <- Hid in Hnone.
    eexists. split; [apply (post_succeeds st u pk j s now Hrole Hj Hown Hs Hnone)|].
    cbn. auto. }
  assert (Hinv : is_success (fst r) = true ->
                 role u = "job_seeker" /\ employer j <> user_id u /\
                 has_applied st pk (user_id u) = false /\ status_ok s = true).
  { destruct r as [[c row|e] st'] eqn:Hr; cbn; [intros _|discriminate].
    apply post_success in Hr.
    destruct Hr as [pk' [j' [Hrole [Hpk [Hj' [Hown [Hs [Hnone _]]]]]]]].
    cbn in Hpk, Hs. inversion Hpk; subst pk'.
    rewrite Hj in Hj'. inversion Hj'; subst j'. rewrite Hid in Hnone. auto. }
  split; [split|].
  - exact Hinv.
  - intros H. destruct (Hok H) as [row [Hr _]]. rewrite Hr. reflexivity.
  - intros H. destruct (Hok (Hinv H)) as [row [Hr [Hjob Hseeker]]].
    exists row. rewrite Hr. cbn. repeat split; auto.
    apply in_or_app. right. left. reflexivity.
Qed.

Lemma C9_inactive_posting_accepts_application_witness :
  is_active archived_job = false /\
  exists row,
    fst (JobApplicationListCreate.post board alice (mkApplicationData (Some 11) None) 1000)
    = Success HTTP_201_CREATED row /\ job row = 11.
Proof.
  split; [reflexivity|].
  destruct (C9_inactive_posting_accepts_application board alice 11 archived_job None 1000
              eq_refl eq_refl) as [_ H].
  destruct (H eq_refl) as [row [Hr [_ [Hj _]]]].
  exists row. split; assumption.
Defined.

(** ** applications: updating the status *)

Lemma update_queue st inst v r st' :
  JobApplicationSerializer.update st inst v = (r, st') -> queue st' = queue st.
Proof.
  unfold JobApplicationSerializer.update. cbn zeta.
  match goal with |- context [existsb ?f ?l] => destruct (existsb f l) end;
    intros H; inversion H; reflexivity.
Qed.

Lemma update_users_postings st inst v r st' :
  JobApplicationSerializer.update st inst v = (r, st') ->
  users st' = users st /\ job_postings st' = job_postings st.
Proof.
  unfold JobApplicationSerializer.update. cbn zeta.
  match goal with |- context [existsb ?f ?l] => destruct (existsb f l) end;
    intros H; inversion H; split; reflexivity.
Qed.

Lemma update_status st inst v c inst' st' :
  JobApplicationSerializer.update st inst v = (Success c inst', st') ->
  inst' = JobApplicationSerializer.set_attrs inst v.
Proof.
  unfold JobApplicationSerializer.update. cbn zeta.
  match goal with |- context [existsb ?f ?l] => destruct (existsb f l) end;
    intros H; inversion H; reflexivity.
Qed.

(** [put] never queues a task. *)
Lemma put_queue st u pk d :
  queue (snd (JobApplicationDetail.put st u pk d)) = queue st.
Proof.
  unfold JobApplicationDetail.put, JobApplicationDetail.perform_update.
  destruct (check_permissions _ _); [|reflexivity].
  destruct (JobApplicationDetail.get_object _ _ _) as [? inst|]; [|reflexivity].
  destruct (JobApplicationSerializer.is_valid _ _ _ _) as [? v|]; [|reflexivity].
  destruct (JobApplicationSerializer.update st inst v) as [[? inst'|e] st1] eqn:Hu;
    apply update_queue in Hu; exact Hu.
Qed.

(** [put] refuses every user whose role is not ['employer']. *)
Lemma put_forbidden_unless_employer st u pk d :
  role u <> "employer" ->
  JobApplicationDetail.put st u pk d = (Failed Forbidden, st).
Proof.
  intros Hrole. unfold JobApplicationDetail.put, check_permissions. cbn.
  apply String.eqb_neq in Hrole. rewrite Hrole. reflexivity.
Qed.

(** Setting the same validated attributes again changes nothing. *)
Lemma set_attrs_idem inst v :
  JobApplicationSerializer.set_attrs (JobApplicationSerializer.set_attrs inst v) v =
  JobApplicationSerializer.set_attrs inst v.
Proof.
  unfold JobApplicationSerializer.set_attrs. cbn.
  destruct (validated_job v), (validated_status v); reflexivity.
Qed.

(** [patch] queues the "accepted" task exactly on the edge into
    ['accepted'], and only once. *)
Lemma patch_notifies_on_edge st u pk d c inst' st' :
  JobApplicationDetail.patch st u pk d = (Success c inst', st') ->
  exists inst,
    get_application st pk = Some inst /\
    if negb (String.eqb (status inst) "accepted") && String.eqb (status inst') "accepted"
    then exists seeker j,
           get_user st (job_seeker inst') = Some seeker /\
           get_posting st (job inst') = Some j /\
           queue st' = queue st ++ [send_application_accepted_email (email seeker) (title j)]
    else queue st' = queue st.
Proof.
  unfold JobApplicationDetail.patch, JobApplicationDetail.perform_update.
  destruct (check_permissions _ _); [|discriminate].
  destruct (JobApplicationDetail.get_object _ _ _) as [? inst|] eqn:Hobj; [|discriminate].
  destruct (JobApplicationSerializer.is_valid _ _ _ _) as [? v|]; [|discriminate].
  destruct (JobApplicationSerializer.update st inst v) as [[? inst1|e] st1] eqn:Hu;
    [|discriminate].
  cbn zeta. intros H. exists inst. split.
  { unfold JobApplicationDetail.get_object, JobApplicationDetail.super_get_object in Hobj.
    destruct (get_application st pk) as [obj|]; [|discriminate Hobj].
    cbn in Hobj.
    destruct (String.eqb (role u) "job_seeker" && negb (Nat.eqb (job_seeker obj) (user_id u)));
      [discriminate Hobj|].
    destruct (String.eqb (role u) "employer").
    - destruct (get_posting st (job obj)) as [j|]; [|discriminate Hobj].
      destruct (negb (Nat.eqb (employer j) (user_id u))); inversion Hobj; reflexivity.
    - inversion Hobj; reflexivity. }
  pose proof (update_status _ _ _ _ _ _ Hu) as Hinst1.
  pose proof (update_queue _ _ _ _ _ Hu) as Hq1.
  pose proof (update_users_postings _ _ _ _ _ Hu) as [Hus1 Hjs1].
  destruct (negb (String.eqb (status inst) "accepted") && String.eqb (status inst1) "accepted")
    eqn:Hedge.
  - unfold JobApplicationDetail.accepted_email_args in H.
    destruct (get_user st1 (job_seeker inst1)) as [seeker|] eqn:Hseeker; [|discriminate H].
    destruct (get_posting st1 (job inst1)) as [j|] eqn:Hj; [|discriminate H].
    destruct (JobApplicationSerializer.update _ inst1 v) as [[? inst2|e] st3] eqn:Hu2;
      [|discriminate H].
    inversion H; subst c inst' st'; clear H.
    pose proof (update_status _ _ _ _ _ _ Hu2) as Hinst2.
    rewrite Hinst1, set_attrs_idem in Hinst2. rewrite <- Hinst1 in Hinst2. subst inst2.
    rewrite Hedge. exists seeker, j.
    unfold get_user, get_posting in *. rewrite Hus1 in Hseeker. rewrite Hjs1 in Hj.
    repeat split; try assumption.
    apply update_queue in Hu2. rewrite Hu2. cbn. rewrite Hq1. reflexivity.
  - destruct (JobApplicationSerializer.update st1 inst1 v) as [[? inst2|e] st3] eqn:Hu2;
      [|discriminate H].
    inversion H; subst c inst' st'; clear H.
    pose proof (update_status _ _ _ _ _ _ Hu2) as Hinst2.
    rewrite Hinst1, set_attrs_idem in Hinst2. rewrite <- Hinst1 in Hinst2. subst inst2.
    rewrite Hedge. apply update_queue in Hu2. congruence.
Qed.

(** C4 (the code at the failing input).  [put] never queues a task, so
    the employer's PUT that moves alice's application from ['submitted'] to
    ['accepted'] sends no "application accepted" notification; the same
    request sent as PATCH queues one. *)
Theorem C4_put_accept_sends_no_notification :
  (forall st u pk d, queue (snd (JobApplicationDetail.put st u pk d)) = queue st) /\
  let data := mkApplicationData None (Some "accepted") in
  get_application board_applied 1 = Some (mkJobApplication 1 10 1 "submitted" 1000) /\
  fst (JobApplicationDetail.put board_applied bob 1 data) =
    Success HTTP_200_OK (mkJobApplication 1 10 1 "accepted" 1000) /\
  get_application (snd (JobApplicationDetail.put board_applied bob 1 data)) 1 =
    Some (mkJobApplication 1 10 1 "accepted" 1000) /\
  queue (snd (JobApplicationDetail.put board_applied bob 1 data)) = queue board_applied /\
  queue (snd (JobApplicationDetail.patch board_applied bob 1 data)) =
    queue board_applied ++
    [send_application_accepted_email "alice@example.com" "Backend Engineer"].
Proof.
  split; [exact put_queue|]. cbv zeta. repeat split.
Qed.

(** C2 (the code at the failing inputs).  The specification's predicate
    lets the admin update alice's application and does not let alice do so;
    the admin's PUT is refused with 403, because the permission list of PUT
    holds [IsEmployer() or IsAdminUser()], which is [IsEmployer()], and
    alice's PATCH of her own application is carried out, because PATCH
    asks for [IsAuthenticated] only. *)
Theorem C2_update_permission_diverges :
  let app := mkJobApplication 1 10 1 "submitted" 1000 in
  let data := mkApplicationData None (Some "accepted") in
  get_application board_applied 1 = Some app /\
  canMutateApplicationStatus board_applied root app = true /\
  JobApplicationDetail.put board_applied root 1 data = (Failed Forbidden, board_applied) /\
  canMutateApplicationStatus board_applied alice app = false /\
  fst (JobApplicationDetail.patch board_applied alice 1 data) =
    Success HTTP_200_OK (mkJobApplication 1 10 1 "accepted" 1000) /\
  get_application (snd (JobApplicationDetail.patch board_applied alice 1 data)) 1 =
    Some (mkJobApplication 1 10 1 "accepted" 1000).
Proof.
  cbv zeta. repeat split.
Qed.

(** ** jobs: listing *)

Section OrderBy.
Import JobPostingListCreateView.

Lemma insert_newest_first_perm j l :
  Permutation (insert_newest_first j l) (j :: l).
Proof.
  induction l as [|h t IH]; cbn; [reflexivity|].
  destruct (Nat.leb (created_at h) (created_at j)); [reflexivity|].
  rewrite IH. apply perm_swap.
Qed.

Lemma order_by_perm l : Permutation (order_by_created_at_desc l) l.
Proof.
  induction l as [|h t IH]; cbn; [constructor|].
  rewrite insert_newest_first_perm. constructor. exact IH.
Qed.



Lemma order_by_In j l : In j (order_by_created_at_desc l) <-> In j l.
Proof.
  split; apply Permutation_in; [|symmetry]; apply order_by_perm.
Qed.

End OrderBy.

Lemma get_queryset_keeps_cache st request :
  cache_wf st -> cache_wf (snd (JobPostingListCreateView.get_queryset st request)).
Proof.
  intros Hwf. unfold JobPostingListCreateView.get_queryset.
  destruct (String.eqb (role (user request)) "employer"); [exact Hwf|].
  unfold cache_wf in *. destruct (active_jobs_queryset st) as [l|] eqn:Hc; cbn.
  - rewrite Hc. exact Hwf.
  - apply Forall_forall. intros j Hj. unfold JobPostingListCreateView.fetch_all in Hj.
    apply (proj1 (order_by_In _ _)) in Hj.
    apply (proj1 (filter_In _ _ _)) in Hj. tauto.
Qed.

Lemma post_posting_keeps_cache st u data pk loc_pk now :
  cache_wf st ->
  cache_wf (snd (JobPostingListCreateView.post st u data pk loc_pk now)).
Proof.
  intros Hwf. unfold JobPostingListCreateView.post.
  destruct (check_permissions _ _); [|exact Hwf].
  match goal with |- context [match ?v with Success _ _ => _ | Failed _ => _ end] =>
    destruct v as [? [[[[[t d] s] c] jt] [[lc lt] la]]|] end; [|exact Hwf].
  destruct (JobPostingSerializer.get_or_create _ _ _ _ _). exact I.
Qed.

Lemma cache_timeout_wf st : cache_wf (JobPostingListCreateView.cache_timeout st).
Proof. exact I. Qed.

Lemma get_unfold st u q :
  JobPostingListCreateView.get st u q =
  let (queryset, st1) := JobPostingListCreateView.get_queryset st (mkRequest GET u) in
  (do filtered <- JobPostingListCreateView.filter_queryset st1 q queryset;
   PageNumberPagination.paginate_queryset filtered (param_page q), st1).
Proof. reflexivity. Qed.

(** What a list request leaves behind is what [get_queryset] leaves. *)
Lemma get_state st u q :
  snd (JobPostingListCreateView.get st u q) =
  snd (JobPostingListCreateView.get_queryset st (mkRequest GET u)).
Proof.
  rewrite get_unfold.
  destruct (JobPostingListCreateView.get_queryset st (mkRequest GET u)). reflexivity.
Qed.

(** [get_queryset] writes the cache entry and nothing else. *)
Lemma get_queryset_tables st request :
  let st' := snd (JobPostingListCreateView.get_queryset st request) in
  users st' = users st /\ job_seeker_profiles st' = job_seeker_profiles st /\
  employer_profiles st' = employer_profiles st /\
  verification_tokens st' = verification_tokens st /\
  locations st' = locations st /\ job_postings st' = job_postings st /\
  job_applications st' = job_applications st /\ queue st' = queue st /\
  (role (user request) = "employer" -> st' = st).
Proof.
  cbv zeta. unfold JobPostingListCreateView.get_queryset.
  destruct (String.eqb (role (user request)) "employer") eqn:E.
  - repeat split.
  - apply String.eqb_neq in E.
    destruct (active_jobs_queryset st); cbn; repeat split; intros H; contradiction.
Qed.

(** The query of the queryset that [get_queryset] returns. *)
Lemma get_queryset_query st request :
  query (fst (JobPostingListCreateView.get_queryset st request)) =
  if String.eqb (role (user request)) "employer"
  then filter_employer (user_id (user request)) else filter_is_active.
Proof.
  unfold JobPostingListCreateView.get_queryset.
  destruct (String.eqb (role (user request)) "employer"); [reflexivity|].
  destruct (active_jobs_queryset st); reflexivity.
Qed.

Lemma filter_is_valid_code q c cleaned :
  JobPostingFilter.is_valid q = Success c cleaned -> c = HTTP_200_OK.
Proof.
  unfold JobPostingFilter.is_valid, bind. intros H.
  repeat match type of H with
         | match ?x with Success _ _ => _ | Failed _ => _ end = _ =>
             destruct x; [|discriminate H]
         end.
  inversion H. reflexivity.
Qed.

Lemma no_params_valid :
  JobPostingFilter.is_valid no_params =
  Success HTTP_200_OK (JobPostingFilter.mkCleaned None None None None None None).
Proof. reflexivity. Qed.

Lemma keeps_nothing_cleaned st j :
  JobPostingFilter.keeps st (JobPostingFilter.mkCleaned None None None None None None) j = true.
Proof. reflexivity. Qed.

Lemma filter_true {A} (f : A -> bool) (l : list A) :
  (forall x, f x = true) -> filter f l = l.
Proof.
  intros H. induction l as [|h t IH]; cbn; [reflexivity|]. rewrite H, IH. reflexivity.
Qed.

(** What a list request that is answered holds: the page asked for, cut
    out of the rows the table gives for the role, filtered and newest first,
    and the number of these rows. *)
Lemma list_success st u q c p st' :
  JobPostingListCreateView.get st u q = (Success c p, st') ->
  exists cleaned n,
    c = HTTP_200_OK /\
    st' = snd (JobPostingListCreateView.get_queryset st (mkRequest GET u)) /\
    JobPostingFilter.is_valid q = Success HTTP_200_OK cleaned /\
    1 <= n /\
    (param_page q = None -> n = 1) /\
    let full :=
      filter (JobPostingFilter.keeps st cleaned)
        (JobPostingListCreateView.fetch_all st
           (if String.eqb (role u) "employer"
            then filter_employer (user_id u) else filter_is_active)) in
    count p = length full /\
    results p = firstn PAGE_SIZE (skipn ((n - 1) * PAGE_SIZE) full).
Proof.
  rewrite get_unfold.
  pose proof (get_queryset_query st (mkRequest GET u)) as Hq.
  pose proof (get_queryset_tables st (mkRequest GET u)) as Ht. cbv zeta in Ht.
  destruct (JobPostingListCreateView.get_queryset st (mkRequest GET u)) as [qs st1].
  cbn [fst snd user] in *.
  destruct Ht as [_ [_ [_ [_ [Hl [Hj _]]]]]].
  unfold JobPostingListCreateView.filter_queryset, bind.
  destruct (JobPostingFilter.is_valid q) as [c0 cleaned|] eqn:Hv; [|intros H; discriminate H].
  pose proof (filter_is_valid_code _ _ _ Hv) as Hc0. subst c0.
  unfold PageNumberPagination.paginate_queryset.
  unfold JobPostingListCreateView.rows, JobPostingListCreateView.all. cbn [result_cache query].
  rewrite Hq.
  assert (Hfull :
    filter (JobPostingFilter.keeps st1 cleaned)
      (JobPostingListCreateView.fetch_all st1
         (if String.eqb (role u) "employer"
          then filter_employer (user_id u) else filter_is_active))
    = filter (JobPostingFilter.keeps st cleaned)
        (JobPostingListCreateView.fetch_all st
           (if String.eqb (role u) "employer"
            then filter_employer (user_id u) else filter_is_active))).
  { unfold JobPostingListCreateView.fetch_all. rewrite Hj.
    apply filter_ext. intros j. unfold JobPostingFilter.keeps, JobPostingFilter.location_of.
    rewrite Hl. reflexivity. }
  rewrite Hfull.
  set (full := filter (JobPostingFilter.keeps st cleaned) _).
  destruct (param_page q) as [[n| |]|] eqn:Hp.
  - destruct (Nat.leb 1 n && Nat.leb n _) eqn:E; intros H; inversion H; subst.
    apply andb_true_iff in E. destruct E as [E _]. apply Nat.leb_le in E.
    exists cleaned, n. cbn. repeat split; try assumption; try reflexivity.
    intros Hn. discriminate Hn.
  - destruct (Nat.leb 1 _ && Nat.leb _ _) eqn:E; intros H; inversion H; subst.
    apply andb_true_iff in E. destruct E as [E _]. apply Nat.leb_le in E.
    exists cleaned, (PageNumberPagination.num_pages (length full)).
    cbn. repeat split; try assumption; try reflexivity.
    intros Hn. discriminate Hn.
  - intros H. discriminate H.
  - destruct (Nat.leb 1 1 && Nat.leb 1 _) eqn:E; intros H; inversion H; subst.
    exists cleaned, 1. cbn. repeat split; try reflexivity.
Qed.

(** A request without parameters is always answered, with the first page. *)
Lemma list_no_params st u :
  exists p,
    JobPostingListCreateView.get st u no_params =
    (Success HTTP_200_OK p, snd (JobPostingListCreateView.get_queryset st (mkRequest GET u))).
Proof.
  rewrite get_unfold.
  destruct (JobPostingListCreateView.get_queryset st (mkRequest GET u)) as [qs st1].
  unfold JobPostingListCreateView.filter_queryset. rewrite no_params_valid. cbn [bind snd].
  unfold PageNumberPagination.paginate_queryset. cbn [param_page no_params].
  assert (E : forall n, Nat.leb 1 1 && Nat.leb 1 (PageNumberPagination.num_pages n) = true).
  { intros n. apply andb_true_iff. split; [reflexivity|].
    apply Nat.leb_le. unfold PageNumberPagination.num_pages. apply Nat.le_max_l. }
  rewrite E. eexists. reflexivity.
Qed.



Lemma in_firstn {A} (x : A) n (l : list A) : In x (firstn n l) -> In x l.
Proof.
  revert l. induction n as [|n IH]; intros l H; [contradiction|].
  destruct l as [|a l]; [contradiction|]. cbn in H.
  destruct H as [H|H]; [left; exact H | right; apply IH; exact H].
Qed.





(** The answer to a list request does not depend on the cache entry: the
    filter backend starts from [queryset.all()], which reads the table. *)
Lemma list_ignores_cache_entry st u q entry :
  fst (JobPostingListCreateView.get (set_cache st entry) u q) =
  fst (JobPostingListCreateView.get st u q).
Proof.
  rewrite !get_unfold.
  unfold JobPostingListCreateView.get_queryset. cbn [user].
  destruct (String.eqb (role u) "employer"); [reflexivity|].
  cbn [active_jobs_queryset set_cache].
  destruct entry; destruct (active_jobs_queryset st); reflexivity.
Qed.




(** ** jobs: retrieving one posting *)

(** C3.  [get_object] looks the posting up in the whole table and not in
    [get_queryset]: a user who is not an employer retrieves every posting,
    active or not, and an employer is refused with [Forbidden] on every
    posting of someone else, while an id that does not exist gives
    [NotFound].  At the scenario: job seeker alice retrieves bob's inactive
    posting, which the view's queryset for her does not hold and the
    specification's predicate denies her; employer carol gets [Forbidden] for
    the same posting and [NotFound] for an id that is not in the table.
    Nothing is written. *)
Theorem C3_get_object_bypasses_get_queryset :
  (forall st u id j,
     get_posting st id = Some j -> role u <> "employer" ->
     JobPostingDetailView.get st u id = (Success HTTP_200_OK j, st)) /\
  (forall st u id j,
     get_posting st id = Some j -> role u = "employer" -> user_id u <> employer j ->
     JobPostingDetailView.get st u id = (Failed Forbidden, st)) /\
  (forall st u id,
     get_posting st id = None -> JobPostingDetailView.get st u id = (Failed NotFound, st)) /\
  is_active archived_job = false /\
  canViewJob alice archived_job = false /\
  ~ In archived_job (JobPostingDetailView.get_queryset board (mkRequest GET alice)) /\
  JobPostingDetailView.get board alice 11 = (Success HTTP_200_OK archived_job, board) /\
  canViewJob carol archived_job = false /\
  JobPostingDetailView.get board carol 11 = (Failed Forbidden, board) /\
  JobPostingDetailView.get board carol 99 = (Failed NotFound, board).
Proof.
  split; [|split; [|split]].
  - intros st u id j Hj Hrole. apply String.eqb_neq in Hrole.
    unfold JobPostingDetailView.get, JobPostingDetailView.get_object,
      JobPostingDetailView.get_permissions, check_permissions, check_object_permissions.
    cbn. rewrite Hrole, Hj. reflexivity.
  - intros st u id j Hj Hrole Hown.
    unfold JobPostingDetailView.get, JobPostingDetailView.get_object,
      JobPostingDetailView.get_permissions, check_permissions, check_object_permissions.
    cbn. rewrite Hrole, Hj. cbn. apply Nat.eqb_neq in Hown. rewrite Hown. reflexivity.
  - intros st u id Hnone.
    unfold JobPostingDetailView.get, JobPostingDetailView.get_object,
      JobPostingDetailView.get_permissions, check_permissions.
    cbn. rewrite Hnone. destruct (String.eqb (role u) "employer"); reflexivity.
  - repeat split; try reflexivity.
    cbn. intros H. repeat (destruct H as [H|H]; [discriminate H|]). exact H.
Qed.

Lemma C3_get_object_bypasses_get_queryset_witness :
  JobPostingDetailView.get board root 11 = (Success HTTP_200_OK archived_job, board) /\
  JobPostingDetailView.get board carol 10 = (Failed Forbidden, board) /\
  JobPostingDetailView.get board bob 99 = (Failed NotFound, board).
Proof.
  destruct C3_get_object_bypasses_get_queryset as [Hany [Hforeign [Hmissing _]]].
  split; [|split].
  - apply Hany; [reflexivity|]. cbn. intros E. discriminate E.
  - apply (Hforeign board carol 10 backend_job); [reflexivity | reflexivity |].
    cbn. intros E. discriminate E.
  - apply Hmissing. reflexivity.
Defined.

(** ** authentication: registration *)

Section Registration.
Variable django : Django.

(** What a successful registration wrote. *)
Lemma register_success st uid tok data c body st' :
  RegisterView.create django st uid tok data = (Success c body, st') ->
  exists v u,
    RegisterSerializer.is_valid django st data = Success HTTP_200_OK v /\
    u = mkUser uid (normalize_email django (validated_email v))
          (make_password django (validated_password v))
          (dict_get (validated_first_name v) "") (dict_get (validated_last_name v) "")
          (validated_phone_number v) (validated_role v) false /\
    users st' = users st ++ [u] /\
    verification_tokens st' = verification_tokens st ++ [mkVerificationToken uid tok] /\
    queue st' = queue st ++ [send_verification_email uid tok] /\
    job_seeker_profiles st' =
      job_seeker_profiles st ++
      (if String.eqb (role u) "job_seeker" then [mkJobSeekerProfile uid None "" 0] else []) /\
    employer_profiles st' =
      employer_profiles st ++
      (if String.eqb (role u) "job_seeker" then []
       else if String.eqb (role u) "employer" then [mkEmployerProfile uid None None None]
       else []) /\
    match body with
    | JobSeekerProfileData u' _ => u' = u /\ role u = "job_seeker"
    | EmployerProfileData u' _ => u' = u /\ role u = "employer"
    | UserData u' => u' = u /\ role u = "admin"
    end.
Proof.
  unfold RegisterView.create. intros H.
  destruct (RegisterSerializer.is_valid django st data) as [code v|] eqn:Hv; [|discriminate H].
  assert (Hcode : code = HTTP_200_OK).
  { unfold RegisterSerializer.is_valid, bind in Hv.
    repeat match type of Hv with
           | match ?x with Success _ _ => _ | Failed _ => _ end = _ =>
               destruct x; [|discriminate Hv]
           end.
    inversion Hv. reflexivity. }
  subst code.
  unfold RegisterSerializer.create, CustomUserManager.create_user in H.
  destruct (String.eqb (validated_email v) ""); [discriminate H|].
  match type of H with context [existsb ?f ?l] => destruct (existsb f l) end;
    [discriminate H|].
  cbn in H. exists v. eexists. split; [reflexivity|]. split; [reflexivity|]. cbn.
  destruct (String.eqb (validated_role v) "job_seeker") eqn:Hjs; cbn in H.
  { match type of H with context [find ?f ?l] => destruct (find f l) end;
      inversion H; subst; clear H; cbn.
    rewrite app_nil_r. apply String.eqb_eq in Hjs. repeat split; auto. }
  destruct (String.eqb (validated_role v) "employer") eqn:Hem; cbn in H.
  { match type of H with context [find ?f ?l] => destruct (find f l) end;
      inversion H; subst; clear H; cbn.
    rewrite app_nil_r. apply String.eqb_eq in Hem. repeat split; auto. }
  destruct (String.eqb (validated_role v) "admin") eqn:Had; cbn in H;
    inversion H; subst; clear H; cbn.
  rewrite !app_nil_r. apply String.eqb_eq in Had. repeat split; auto.
Qed.

Lemma role_field_default :
  RegisterSerializer.role_field None = RegisterSerializer.role_field (Some "job_seeker").
Proof. reflexivity. Qed.

Lemma is_valid_role st data v :
  RegisterSerializer.is_valid django st data = Success HTTP_200_OK v ->
  validated_role v = match data_role data with Some r => r | None => "job_seeker" end.
Proof.
  unfold RegisterSerializer.is_valid, bind. intros Hv.
  destruct (RegisterSerializer.email_field django st (data_email data)); [|discriminate Hv].
  destruct (RegisterSerializer.password_field (data_password data)); [|discriminate Hv].
  destruct (RegisterSerializer.name_field (data_first_name data)); [|discriminate Hv].
  destruct (RegisterSerializer.name_field (data_last_name data)); [|discriminate Hv].
  destruct (RegisterSerializer.phone_field (data_phone_number data)); [|discriminate Hv].
  unfold RegisterSerializer.role_field in Hv.
  destruct (data_role data) as [r|].
  - destruct (existsb (String.eqb r) ROLE_CHOICES); [|discriminate Hv].
    inversion Hv. reflexivity.
  - inversion Hv. reflexivity.
Qed.

(** The address that passes [email] is the stripped value of the request;
    it is not blank, and no stored user has it. *)
Lemma email_field_success st d c e :
  RegisterSerializer.email_field django st d = Success c e ->
  exists raw,
    d = Some raw /\ e = strip raw /\ String.eqb e "" = false /\
    existsb (fun u => String.eqb (email u) e) (users st) = false.
Proof.
  unfold RegisterSerializer.email_field, bind. destruct d as [raw|]; [|discriminate].
  destruct (CharField false (Some 254) raw) as [c0 x|] eqn:Hf; [|discriminate].
  apply CharField_success in Hf. destruct Hf as [_ [Hx Hblank]].
  destruct (negb (EmailValidator django x)); [discriminate|].
  destruct (existsb _ _) eqn:Hex; [discriminate|].
  intros H. inversion H; subst. exists raw. auto.
Qed.

(** Without a role, a request whose other fields pass validation is
    carried out, unless the normalised e-mail address is taken. *)
Lemma register_without_role_succeeds st uid tok data :
  data_role data = None ->
  is_success (RegisterSerializer.password_field (data_password data)) = true ->
  is_success (RegisterSerializer.name_field (data_first_name data)) = true ->
  is_success (RegisterSerializer.name_field (data_last_name data)) = true ->
  is_success (RegisterSerializer.phone_field (data_phone_number data)) = true ->
  (exists c e,
     RegisterSerializer.email_field django st (data_email data) = Success c e /\
     existsb (fun u => String.eqb (email u) (normalize_email django e)) (users st) = false) ->
  is_success (fst (RegisterView.create django st uid tok data)) = true.
Proof.
  intros Hrole Hp Hf Hl Hph [ce [e [Ee Hfree]]].
  unfold RegisterView.create, RegisterSerializer.is_valid.
  rewrite Ee.
  destruct (RegisterSerializer.password_field (data_password data)) as [? p|];
    [|discriminate Hp].
  destruct (RegisterSerializer.name_field (data_first_name data)) as [? f|];
    [|discriminate Hf].
  destruct (RegisterSerializer.name_field (data_last_name data)) as [? l|];
    [|discriminate Hl].
  destruct (RegisterSerializer.phone_field (data_phone_number data)) as [? ph|];
    [|discriminate Hph].
  rewrite Hrole. cbn.
  apply email_field_success in Ee. destruct Ee as [raw [Hd [He [Hblank _]]]].
  unfold RegisterSerializer.create, CustomUserManager.create_user. cbn.
  rewrite Hblank, Hfree. cbn.
  match goal with |- context [find ?g ?rows] => destruct (find g rows) eqn:Hfind end.
  - reflexivity.
  - exfalso.
    assert (Hin : In (mkJobSeekerProfile uid None "" 0)
                    (job_seeker_profiles st ++ [mkJobSeekerProfile uid None "" 0]))
      by (apply in_or_app; right; left; reflexivity).
    pose proof (find_none _ _ Hfind _ Hin) as Hnew.
    cbn in Hnew. rewrite Nat.eqb_refl in Hnew. discriminate Hnew.
Qed.
End Registration.

(** C8 (the code at the failing input).  A successful registration adds
    one [JobSeekerProfile] with empty skills and zero experience for a job
    seeker (also when no role was sent) and no profile for an admin; for an
    employer it adds one [EmployerProfile] whose [company_name] is null: the
    [create] in force passes no company name, the one that derived it from
    the first name is shadowed. *)
Theorem C8_registration_profile_rows :
  forall django st uid tok data c body st',
    RegisterView.create django st uid tok data = (Success c body, st') ->
    (data_role data = Some "job_seeker" \/ data_role data = None ->
       job_seeker_profiles st' = job_seeker_profiles st ++ [mkJobSeekerProfile uid None "" 0] /\
       employer_profiles st' = employer_profiles st) /\
    (data_role data = Some "employer" ->
       employer_profiles st' = employer_profiles st ++ [mkEmployerProfile uid None None None] /\
       job_seeker_profiles st' = job_seeker_profiles st) /\
    (data_role data = Some "admin" ->
       job_seeker_profiles st' = job_seeker_profiles st /\
       employer_profiles st' = employer_profiles st).
Proof.
  intros django st uid tok data c body st' H. apply register_success in H.
  destruct H as [v [u [Hv [Hu [_ [_ [_ [Hjs [Hep _]]]]]]]]].
  apply is_valid_role in Hv.
  assert (Hrole : role u = validated_role v) by (subst u; reflexivity).
  rewrite Hrole, Hv in Hjs, Hep. split; [|split].
  - intros [Hr | Hr]; rewrite Hr in Hjs, Hep; cbn in Hjs, Hep;
      rewrite app_nil_r in Hep; auto.
  - intros Hr. rewrite Hr in Hjs, Hep. cbn in Hjs, Hep. rewrite app_nil_r in Hjs. auto.
  - intros Hr. rewrite Hr in Hjs, Hep. cbn in Hjs, Hep. rewrite app_nil_r in Hjs, Hep. auto.
Qed.

Lemma C8_registration_profile_rows_witness :
  exists st',
    snd (RegisterView.create plain_django board 5 888 dana_data) = st' /\
    employer_profiles st' = employer_profiles board ++ [mkEmployerProfile 5 None None None].
Proof.
  eexists. split; [reflexivity|].
  destruct (C8_registration_profile_rows plain_django board 5 888 dana_data _ _ _ eq_refl)
    as [_ [H _]].
  exact (proj1 (H eq_refl)).
Defined.

(** The first, shadowed [create] would have stored the company name. *)
Lemma create_shadowed_company_name :
  employer_profiles
    (snd (RegisterSerializer.create_shadowed plain_django board 5
            (mkRegisterValidated "dana@example.com" "s3cret" (Some "Dana") None None
               "employer")))
  = employer_profiles board ++ [mkEmployerProfile 5 (Some "Dana's Company") None None].
Proof. reflexivity. Qed.

(** C10.  A registration request without a role is handled exactly as
    one that sends ['job_seeker']; it succeeds whenever its other fields
    pass validation (a password, a name or a phone number is read with its
    surrounding whitespace stripped, so a password of whitespace only does
    not pass) and the normalised e-mail address is free; and when it
    succeeds, the user it stored has role ['job_seeker'], and a
    [JobSeekerProfile] row for that user was stored with it. *)
Theorem C10_role_defaults_to_job_seeker :
  forall django st uid tok data,
    data_role data = None ->
    RegisterView.create django st uid tok data =
    RegisterView.create django st uid tok (with_role data "job_seeker") /\
    (is_success (RegisterSerializer.password_field (data_password data)) = true ->
     is_success (RegisterSerializer.name_field (data_first_name data)) = true ->
     is_success (RegisterSerializer.name_field (data_last_name data)) = true ->
     is_success (RegisterSerializer.phone_field (data_phone_number data)) = true ->
     (exists c e,
        RegisterSerializer.email_field django st (data_email data) = Success c e /\
        existsb (fun u => String.eqb (email u) (normalize_email django e)) (users st)
        = false) ->
     is_success (fst (RegisterView.create django st uid tok data)) = true) /\
    (forall c body st',
       RegisterView.create django st uid tok data = (Success c body, st') ->
       exists u p,
         body = JobSeekerProfileData u p /\
         In u (users st') /\ user_id u = uid /\ role u = "job_seeker" /\
         In (mkJobSeekerProfile uid None "" 0) (job_seeker_profiles st')).
Proof.
  intros django st uid tok data Hnone. split; [|split].
  - unfold RegisterView.create, RegisterSerializer.is_valid, with_role. cbn.
    rewrite Hnone, role_field_default. reflexivity.
  - apply register_without_role_succeeds. exact Hnone.
  - intros c body st' H. pose proof (register_success _ _ _ _ _ _ _ _ H) as Hs.
    destruct Hs as [v [u [Hv [Hu [Hus [_ [_ [Hjs [_ Hbody]]]]]]]]].
    apply is_valid_role in Hv. rewrite Hnone in Hv.
    assert (Hrole : role u = "job_seeker") by (subst u; exact Hv).
    rewrite Hrole in Hjs. cbn in Hjs.
    destruct body as [u' p | u' p | u']; destruct Hbody as [Hu' Hr];
      try (rewrite Hrole in Hr; discriminate Hr).
    exists u, p. subst u'. split; [reflexivity|]. split; [|split; [|split]].
    + rewrite Hus. apply in_or_app. right. left. reflexivity.
    + subst u. reflexivity.
    + exact Hrole.
    + rewrite Hjs. apply in_or_app. right. left. reflexivity.
Qed.

Lemma C10_role_defaults_to_job_seeker_witness :
  data_role erin_data = None /\
  exists u p,
    fst (RegisterView.create plain_django board 6 889 erin_data) =
    Success HTTP_201_CREATED (JobSeekerProfileData u p) /\ role u = "job_seeker".
Proof.
  split; [reflexivity|].
  destruct (C10_role_defaults_to_job_seeker plain_django board 6 889 erin_data eq_refl)
    as [_ [_ H]].
  destruct (H _ _ _ eq_refl) as [u [p [Hb [_ [_ [Hr _]]]]]].
  exists u, p. split; [|exact Hr].
  cbn in Hb. inversion Hb. reflexivity.
Defined.

(** ** authentication: e-mail verification *)

Lemma find_map_same_key {A} (key : A -> nat) (f : A -> A) (k : nat) (l : list A) :
  (forall a, key (f a) = key a) ->
  find (fun a => Nat.eqb (key a) k) (map f l) =
  option_map f (find (fun a => Nat.eqb (key a) k) l).
Proof.
  intros Hkey. induction l as [|a l IH]; cbn; [reflexivity|].
  rewrite Hkey. destruct (Nat.eqb (key a) k); [reflexivity | exact IH].
Qed.

Lemma get_user_some st pk u : get_user st pk = Some u -> user_id u = pk.
Proof.
  unfold get_user. intros H. apply find_some in H. apply Nat.eqb_eq. tauto.
Qed.

Lemma get_user_after_save st u :
  get_user st (user_id u) = Some u ->
  get_user (VerifyEmailView.save_user st (VerifyEmailView.set_verified u)) (user_id u)
  = Some (VerifyEmailView.set_verified u).
Proof.
  intros Hu. unfold get_user, VerifyEmailView.save_user in *. cbn [users set_users].
  rewrite (find_map_same_key user_id).
  - rewrite Hu. cbn. rewrite Nat.eqb_refl. reflexivity.
  - intros a. destruct (Nat.eqb (user_id a) _) eqn:E; [|reflexivity].
    apply Nat.eqb_eq in E. cbn in *. congruence.
Qed.

Lemma get_token_after_delete st vt :
  get_token (VerifyEmailView.delete_token st vt) (token vt) = None.
Proof.
  unfold get_token, VerifyEmailView.delete_token. cbn.
  induction (verification_tokens st) as [|r l IH]; cbn; [reflexivity|].
  destruct (Nat.eqb (token r) (token vt)) eqn:E; cbn; [exact IH|].
  rewrite E. exact IH.
Qed.

Lemma get_token_some st t vt : get_token st t = Some vt -> token vt = t.
Proof.
  unfold get_token. intros H. apply find_some in H. apply Nat.eqb_eq. tauto.
Qed.

(** A call with a token that is not in the table. *)
Lemma verify_unknown_token st t :
  get_token st t = None -> VerifyEmailView.get st (Some t) = (Failed InvalidToken, st).
Proof.
  unfold VerifyEmailView.get. intros H. rewrite H. reflexivity.
Qed.

(** C7 (amended).  On the state, verifying twice is verifying once.  With
    a token in the table whose user is already verified, the call answers
    200 and changes nothing.  With a token whose user is not verified, the
    call answers 200, marks the user verified and deletes the token; the
    token is then spent, and sending it again is answered with
    [InvalidToken] and changes nothing. *)
Theorem C7_verify_email_single_use :
  forall st t,
    snd (VerifyEmailView.get (snd (VerifyEmailView.get st (Some t))) (Some t)) =
    snd (VerifyEmailView.get st (Some t)) /\
    forall vt u,
      get_token st t = Some vt -> get_user st (vt_user vt) = Some u ->
      (is_email_verified u = true ->
         VerifyEmailView.get st (Some t) = (Success HTTP_200_OK "Email already verified", st)) /\
      (is_email_verified u = false ->
         exists st',
           VerifyEmailView.get st (Some t) =
             (Success HTTP_200_OK "Email verified successfully", st') /\
           get_user st' (user_id u) = Some (VerifyEmailView.set_verified u) /\
           get_token st' t = None /\
           VerifyEmailView.get st' (Some t) = (Failed InvalidToken, st')).
Proof.
  intros st t.
  assert (Hcases : forall vt u,
             get_token st t = Some vt -> get_user st (vt_user vt) = Some u ->
             (is_email_verified u = true ->
              VerifyEmailView.get st (Some t) =
                (Success HTTP_200_OK "Email already verified", st)) /\
             (is_email_verified u = false ->
              exists st',
                VerifyEmailView.get st (Some t) =
                  (Success HTTP_200_OK "Email verified successfully", st') /\
                get_user st' (user_id u) = Some (VerifyEmailView.set_verified u) /\
                get_token st' t = None /\
                VerifyEmailView.get st' (Some t) = (Failed InvalidToken, st'))).
  { intros vt u Hvt Hu. pose proof (get_token_some _ _ _ Hvt) as Ht.
    pose proof (get_user_some _ _ _ Hu) as Hid.
    unfold VerifyEmailView.get. rewrite Hvt, Hu. split.
    - intros Hver. rewrite Hver. reflexivity.
    - intros Hver. rewrite Hver. cbn [negb]. eexists. split; [reflexivity|].
      assert (Hgone : get_token
                        (VerifyEmailView.delete_token
                           (VerifyEmailView.save_user st (VerifyEmailView.set_verified u)) vt)
                        t = None).
      { rewrite <- Ht. apply get_token_after_delete. }
      split; [|split].
      + rewrite <- Hid in Hu. apply get_user_after_save in Hu. exact Hu.
      + exact Hgone.
      + rewrite Hgone. reflexivity. }
  split; [|exact Hcases].
  destruct (get_token st t) as [vt|] eqn:Hvt.
  - destruct (get_user st (vt_user vt)) as [u|] eqn:Hu.
    + destruct (Hcases vt u eq_refl Hu) as [Hyes Hno].
      destruct (is_email_verified u) eqn:Hver.
      * rewrite (Hyes eq_refl). cbn. rewrite (Hyes eq_refl). reflexivity.
      * destruct (Hno eq_refl) as [st' [H1 [_ [_ H2]]]]. rewrite H1. cbn. rewrite H2.
        reflexivity.
    + unfold VerifyEmailView.get. rewrite Hvt, Hu. cbn.
      rewrite Hvt, Hu. reflexivity.
  - rewrite (verify_unknown_token _ _ Hvt). cbn. rewrite (verify_unknown_token _ _ Hvt).
    reflexivity.
Qed.

Lemma C7_verify_email_single_use_witness :
  get_token board 777 = Some (mkVerificationToken 1 777) /\
  exists st',
    VerifyEmailView.get board (Some 777) =
      (Success HTTP_200_OK "Email verified successfully", st') /\
    VerifyEmailView.get st' (Some 777) = (Failed InvalidToken, st').
Proof.
  split; [reflexivity|].
  destruct (C7_verify_email_single_use board 777) as [_ H].
  destruct (H (mkVerificationToken 1 777) alice eq_refl eq_refl) as [_ Hno].
  destruct (Hno eq_refl) as [st' [H1 [_ [_ H2]]]].
  exists st'. split; assumption.
Defined.

(** C7 as stated fails: alice verifies with her token; calling again with
    the same token, whose user is now verified, is not answered with
    success. *)
Lemma C7_counterexample :
  fst (VerifyEmailView.get board (Some 777)) =
    Success HTTP_200_OK "Email verified successfully" /\
  option_map is_email_verified
    (get_user (snd (VerifyEmailView.get board (Some 777))) 1) = Some true /\
  fst (VerifyEmailView.get (snd (VerifyEmailView.get board (Some 777))) (Some 777)) =
    Failed InvalidToken.
Proof. repeat split. Qed.

(** ** Invariants along any sequence of requests *)

(** The tables and the cache entry a handler may have written. *)
Lemma create_user_frame django st uid e p f l ph r res st' :
  CustomUserManager.create_user django st uid e p f l ph r = (res, st') ->
  job_applications st' = job_applications st /\
  active_jobs_queryset st' = active_jobs_queryset st.
Proof.
  unfold CustomUserManager.create_user.
  destruct (String.eqb e ""); [intros H; inversion H; auto|].
  destruct (existsb _ _); intros H; inversion H; auto.
Qed.

Lemma register_frame django st uid tok data :
  job_applications (snd (RegisterView.create django st uid tok data)) = job_applications st /\
  active_jobs_queryset (snd (RegisterView.create django st uid tok data))
  = active_jobs_queryset st.
Proof.
  unfold RegisterView.create.
  destruct (RegisterSerializer.is_valid django st data) as [? v|]; [|auto].
  unfold RegisterSerializer.create.
  destruct (CustomUserManager.create_user _ _ _ _ _ _ _ _ _) as [[? u|e] st1] eqn:Hc;
    apply create_user_frame in Hc; [|exact Hc].
  destruct Hc as [Ha Hc]. rewrite <- Ha, <- Hc.
  destruct (String.eqb (role u) "job_seeker").
  { match goal with |- context [find ?g ?rows] => destruct (find g rows) end; auto. }
  destruct (String.eqb (role u) "employer").
  { match goal with |- context [find ?g ?rows] => destruct (find g rows) end; auto. }
  destruct (String.eqb (role u) "admin"); auto.
Qed.

Lemma verify_frame st tp :
  job_applications (snd (VerifyEmailView.get st tp)) = job_applications st /\
  active_jobs_queryset (snd (VerifyEmailView.get st tp)) = active_jobs_queryset st.
Proof.
  unfold VerifyEmailView.get.
  destruct (match tp with Some t => get_token st t | None => None end) as [vt|]; [|auto].
  destruct (get_user st (vt_user vt)) as [u|]; [|auto].
  destruct (negb (is_email_verified u)); auto.
Qed.

Lemma job_post_applications st u data pk loc_pk now :
  job_applications (snd (JobPostingListCreateView.post st u data pk loc_pk now))
  = job_applications st.
Proof.
  unfold JobPostingListCreateView.post.
  destruct (check_permissions _ _); [|reflexivity].
  match goal with |- context [match ?v with Success _ _ => _ | Failed _ => _ end] =>
    destruct v as [? [[[[[t d] s] c] jt] [[lc lt] la]]|] end; [|reflexivity].
  destruct (JobPostingSerializer.get_or_create _ _ _ _ _). reflexivity.
Qed.

Lemma job_list_applications st u q :
  job_applications (snd (JobPostingListCreateView.get st u q)) = job_applications st.
Proof.
  rewrite get_state.
  pose proof (get_queryset_tables st (mkRequest GET u)) as H. cbv zeta in H. tauto.
Qed.

Lemma update_cache st inst v r st' :
  JobApplicationSerializer.update st inst v = (r, st') ->
  active_jobs_queryset st' = active_jobs_queryset st.
Proof.
  unfold JobApplicationSerializer.update. cbn zeta.
  destruct (existsb _ _); intros H; inversion H; reflexivity.
Qed.

Lemma application_post_cache st u d now :
  active_jobs_queryset (snd (JobApplicationListCreate.post st u d now))
  = active_jobs_queryset st.
Proof.
  destruct (JobApplicationListCreate.post st u d now) as [[c row|e] st'] eqn:Hp.
  - apply post_success in Hp.
    destruct Hp as [pk [j [_ [_ [_ [_ [_ [_ [_ [_ Hst]]]]]]]]]]. subst st'. reflexivity.
  - apply post_failure in Hp. destruct Hp as [Hst _]. subst st'. reflexivity.
Qed.

Lemma application_put_cache st u pk d :
  active_jobs_queryset (snd (JobApplicationDetail.put st u pk d)) = active_jobs_queryset st.
Proof.
  unfold JobApplicationDetail.put, JobApplicationDetail.perform_update.
  destruct (check_permissions _ _); [|reflexivity].
  destruct (JobApplicationDetail.get_object _ _ _) as [? inst|]; [|reflexivity].
  destruct (JobApplicationSerializer.is_valid _ _ _ _) as [? v|]; [|reflexivity].
  destruct (JobApplicationSerializer.update st inst v) as [[? inst'|e] st1] eqn:Hu;
    apply update_cache in Hu; exact Hu.
Qed.

Lemma application_patch_cache st u pk d :
  active_jobs_queryset (snd (JobApplicationDetail.patch st u pk d)) = active_jobs_queryset st.
Proof.
  unfold JobApplicationDetail.patch, JobApplicationDetail.perform_update.
  destruct (check_permissions _ _); [|reflexivity].
  destruct (JobApplicationDetail.get_object _ _ _) as [? inst|]; [|reflexivity].
  destruct (JobApplicationSerializer.is_valid _ _ _ _) as [? v|]; [|reflexivity].
  destruct (JobApplicationSerializer.update st inst v) as [[? inst'|e] st1] eqn:Hu;
    apply update_cache in Hu; [|exact Hu].
  cbn zeta.
  destruct (negb (String.eqb (status inst) "accepted") && String.eqb (status inst') "accepted").
  - destruct (JobApplicationDetail.accepted_email_args st1 inst') as [[em ti]|]; [|exact Hu].
    destruct (JobApplicationSerializer.update _ inst' v) as [[? inst''|e] st3] eqn:Hu2;
      apply update_cache in Hu2; cbn in *; congruence.
  - destruct (JobApplicationSerializer.update st1 inst' v) as [[? inst''|e] st3] eqn:Hu2;
      apply update_cache in Hu2; cbn in *; congruence.
Qed.

Lemma wf_same_applications st st' :
  job_applications st' = job_applications st -> applications_wf st -> applications_wf st'.
Proof. unfold applications_wf. intros H. rewrite H. auto. Qed.

Lemma cache_wf_same_cache st st' :
  active_jobs_queryset st' = active_jobs_queryset st -> cache_wf st -> cache_wf st'.
Proof. unfold cache_wf. intros H. rewrite H. auto. Qed.

(** Every handler keeps the uniqueness constraints of the application
    table and the shape of the cache entry. *)
Lemma handle_keeps_invariants django st c :
  applications_wf st /\ cache_wf st ->
  applications_wf (handle django st c) /\ cache_wf (handle django st c).
Proof.
  intros [Ha Hc]. destruct c; cbn [handle].
  - unfold JobApplicationListCreate.get. destruct (check_permissions _ _); auto.
  - split; [apply post_keeps_wf; exact Ha|].
    apply (cache_wf_same_cache st); [apply application_post_cache | exact Hc].
  - unfold JobApplicationDetail.get. destruct (check_permissions _ _); auto.
  - split; [apply put_keeps_wf; exact Ha|].
    apply (cache_wf_same_cache st); [apply application_put_cache | exact Hc].
  - split; [apply patch_keeps_wf; exact Ha|].
    apply (cache_wf_same_cache st); [apply application_patch_cache | exact Hc].
  - split.
    + apply (wf_same_applications st); [apply job_list_applications | exact Ha].
    + rewrite get_state. apply get_queryset_keeps_cache. exact Hc.
  - split.
    + apply (wf_same_applications st); [apply job_post_applications | exact Ha].
    + apply post_posting_keeps_cache. exact Hc.
  - unfold JobPostingDetailView.get. destruct (check_permissions _ _); auto.
  - destruct (register_frame django st uid tok data) as [H1 H2]. split.
    + apply (wf_same_applications st); assumption.
    + apply (cache_wf_same_cache st); assumption.
  - destruct (verify_frame st token_param) as [H1 H2]. split.
    + apply (wf_same_applications st); assumption.
    + apply (cache_wf_same_cache st); assumption.
  - split; [exact Ha | exact I].
Qed.

Lemma invariants_after_any_calls django calls :
  applications_wf (handle_all django empty_state calls) /\
  cache_wf (handle_all django empty_state calls).
Proof.
  unfold handle_all.
  assert (H : forall st, applications_wf st /\ cache_wf st ->
                         applications_wf (fold_left (handle django) calls st) /\
                         cache_wf (fold_left (handle django) calls st)).
  { induction calls as [|c calls IH]; intros st Hst; [exact Hst|].
    cbn. apply IH. apply handle_keeps_invariants. exact Hst. }
  apply H. split; [apply empty_state_wf | exact I].
Qed.

(** * Further properties of the views *)

(** ** applications: reading *)

Lemma get_application_some st pk a :
  get_application st pk = Some a -> app_id a = pk /\ In a (job_applications st).
Proof.
  unfold get_application. intros H. apply find_some in H. destruct H as [Hin Heq].
  apply Nat.eqb_eq in Heq. auto.
Qed.

Lemma role_choice_cases r :
  In r ROLE_CHOICES <-> r = "admin" \/ r = "job_seeker" \/ r = "employer".
Proof.
  unfold ROLE_CHOICES. cbn. split.
  - intros [H | [H | [H | []]]]; auto.
  - intros [H | [H | H]]; auto.
Qed.

(** X1.  For the three roles of [ROLE_CHOICES], an application can be retrieved
    by its id exactly when the list of the same user shows it. *)
Theorem application_detail_agrees_with_list :
  forall st u pk a,
    In (role u) ROLE_CHOICES ->
    (JobApplicationDetail.get st u pk = (Success HTTP_200_OK a, st) <->
     get_application st pk = Some a /\
     In a (JobApplicationListCreate.get_queryset st (mkRequest GET u))).
Proof.
  intros st u pk a Hrole. apply role_choice_cases in Hrole.
  unfold JobApplicationDetail.get, JobApplicationDetail.get_object,
    JobApplicationDetail.super_get_object, JobApplicationListCreate.get_queryset,
    check_permissions, check_object_permissions.
  cbn. destruct (get_application st pk) as [obj|] eqn:Hobj; cbn.
  2:{ split; [intros H; discriminate H | intros [H _]; discriminate H]. }
  pose proof (get_application_some _ _ _ Hobj) as [_ Hin].
  destruct Hrole as [Hr | [Hr | Hr]]; rewrite Hr; cbn.
  - split.
    + intros H. inversion H; subst. auto.
    + intros [H _]. inversion H; subst. reflexivity.
  - destruct (Nat.eqb (job_seeker obj) (user_id u)) eqn:E; cbn.
    + split.
      * intros H. inversion H; subst. split; [reflexivity|].
        apply filter_In. auto.
      * intros [H _]. inversion H; subst. reflexivity.
    + split; [intros H; discriminate H|].
      intros [H Hl]. inversion H; subst. apply (proj1 (filter_In _ _ _)) in Hl.
      destruct Hl as [_ Hl]. congruence.
  - destruct (get_posting st (job obj)) as [j|] eqn:Hj; cbn.
    + destruct (Nat.eqb (employer j) (user_id u)) eqn:E; cbn.
      * split.
        -- intros H. inversion H; subst. split; [reflexivity|].
           apply filter_In. rewrite Hj. auto.
        -- intros [H _]. inversion H; subst. reflexivity.
      * split; [intros H; discriminate H|].
        intros [H Hl]. inversion H; subst. apply (proj1 (filter_In _ _ _)) in Hl.
        destruct Hl as [_ Hl]. rewrite Hj in Hl. congruence.
    + split; [intros H; discriminate H|].
      intros [H Hl]. inversion H; subst. apply (proj1 (filter_In _ _ _)) in Hl.
      destruct Hl as [_ Hl]. rewrite Hj in Hl. discriminate Hl.
Qed.

Lemma application_detail_agrees_with_list_witness :
  JobApplicationDetail.get board_applied bob 1 =
    (Success HTTP_200_OK (mkJobApplication 1 10 1 "submitted" 1000), board_applied) /\
  JobApplicationDetail.get board_applied carol 1 <>
    (Success HTTP_200_OK (mkJobApplication 1 10 1 "submitted" 1000), board_applied).
Proof.
  split.
  - apply (proj2 (application_detail_agrees_with_list board_applied bob 1 _
                    (or_intror (or_intror (or_introl eq_refl))))).
    split; [reflexivity | left; reflexivity].
  - intros H.
    apply (proj1 (application_detail_agrees_with_list board_applied carol 1 _
                    (or_intror (or_intror (or_introl eq_refl))))) in H.
    destruct H as [_ []].
Defined.

(** X2.  An application that exists but lies outside the scope of a job seeker
    or an employer is refused with [Forbidden]; an id that does not exist is
    [NotFound] for everybody. *)
Theorem application_detail_denials :
  forall st u pk,
    (get_application st pk = None ->
     JobApplicationDetail.get st u pk = (Failed NotFound, st)) /\
    (forall a, get_application st pk = Some a ->
       (role u = "job_seeker" -> job_seeker a <> user_id u ->
        JobApplicationDetail.get st u pk = (Failed Forbidden, st)) /\
       (role u = "employer" ->
        forall j, get_posting st (job a) = Some j -> employer j <> user_id u ->
        JobApplicationDetail.get st u pk = (Failed Forbidden, st))).
Proof.
  intros st u pk.
  unfold JobApplicationDetail.get, JobApplicationDetail.get_object,
    JobApplicationDetail.super_get_object, check_permissions, check_object_permissions.
  cbn. split.
  - intros H. rewrite H. reflexivity.
  - intros a Ha. rewrite Ha. cbn. split.
    + intros Hr Hne. rewrite Hr. cbn. apply Nat.eqb_neq in Hne. rewrite Hne. reflexivity.
    + intros Hr j Hj Hne. rewrite Hr, Hj. cbn. apply Nat.eqb_neq in Hne. rewrite Hne.
      reflexivity.
Qed.



(** ** applications: what an update can and cannot change *)

Lemma get_object_some st request pk c inst :
  JobApplicationDetail.get_object st request pk = Success c inst ->
  get_application st pk = Some inst.
Proof.
  unfold JobApplicationDetail.get_object, JobApplicationDetail.super_get_object.
  destruct (get_application st pk) as [obj|]; [|discriminate].
  unfold check_object_permissions.
  destruct (forallb _ _); [|discriminate]. cbn.
  destruct (String.eqb (role (user request)) "job_seeker"
            && negb (Nat.eqb (job_seeker obj) (user_id (user request)))); [discriminate|].
  destruct (String.eqb (role (user request)) "employer").
  - destruct (get_posting st (job obj)) as [j|]; [|discriminate].
    destruct (negb (Nat.eqb (employer j) (user_id (user request)))); [discriminate|].
    intros H. inversion H. reflexivity.
  - intros H. inversion H. reflexivity.
Qed.

Lemma is_valid_update_fields st request d c v :
  method request <> POST ->
  JobApplicationSerializer.is_valid st request true d = Success c v ->
  validated_status v = data_status d /\ status_ok (data_status d) = true /\
  match data_job_id d with
  | None => validated_job v = None
  | Some pk => exists j, get_posting st pk = Some j /\ validated_job v = Some j
  end.
Proof.
  intros Hm. unfold JobApplicationSerializer.is_valid, JobApplicationSerializer.job_id,
    JobApplicationSerializer.validate.
  rewrite status_field_spec.
  assert (Hpost : Method_eqb (method request) POST = false)
    by (destruct (method request); try reflexivity; congruence).
  rewrite Hpost.
  destruct (data_job_id d) as [pk|]; cbn.
  - destruct (get_posting st pk) as [j|]; cbn; [|discriminate].
    destruct (status_ok (data_status d)); cbn; [|discriminate].
    intros H. inversion H; subst. cbn. eauto.
  - destruct (status_ok (data_status d)); cbn; [|discriminate].
    intros H. inversion H; subst. cbn. auto.
Qed.

(** What the row looks like after [set_attrs]. *)
Lemma set_attrs_fixed inst v :
  app_id (JobApplicationSerializer.set_attrs inst v) = app_id inst /\
  job_seeker (JobApplicationSerializer.set_attrs inst v) = job_seeker inst /\
  applied_at (JobApplicationSerializer.set_attrs inst v) = applied_at inst.
Proof. repeat split. Qed.

Lemma update_result st inst v c inst' st' :
  JobApplicationSerializer.update st inst v = (Success c inst', st') ->
  inst' = JobApplicationSerializer.set_attrs inst v /\
  st' = set_job_applications st
          (map (fun r => if Nat.eqb (app_id r) (app_id inst') then inst' else r)
             (job_applications st)).
Proof.
  unfold JobApplicationSerializer.update. cbn zeta.
  destruct (existsb _ _); intros H; inversion H; subst; auto.
Qed.

Lemma update_failure st inst v e st' :
  JobApplicationSerializer.update st inst v = (Failed e, st') ->
  st' = st /\ e = Unhandled IntegrityError.
Proof.
  unfold JobApplicationSerializer.update. cbn zeta.
  destruct (existsb _ _); intros H; inversion H; subst; auto.
Qed.

(** Saving the instance a second time finds the table as the first save
    left it. *)
Lemma update_saved_instance st i v :
  JobApplicationSerializer.set_attrs i v = i ->
  existsb (fun r => negb (Nat.eqb (app_id r) (app_id i))
                    && JobApplicationSerializer.same_pair r i) (job_applications st) = false ->
  let st' := set_job_applications st
               (map (fun r => if Nat.eqb (app_id r) (app_id i) then i else r)
                  (job_applications st)) in
  JobApplicationSerializer.update st' i v = (Success HTTP_200_OK i, st').
Proof.
  intros Hfix Hex st'. unfold JobApplicationSerializer.update. cbn zeta. rewrite Hfix.
  assert (Hex' : existsb (fun r => negb (Nat.eqb (app_id r) (app_id i))
                                   && JobApplicationSerializer.same_pair r i)
                   (job_applications st') = false).
  { subst st'. cbn. rewrite <- Hex. clear.
    induction (job_applications st) as [|r l IH]; [reflexivity|].
    cbn. rewrite IH. destruct (Nat.eqb (app_id r) (app_id i)) eqn:E.
    - rewrite Nat.eqb_refl. reflexivity.
    - rewrite E. reflexivity. }
  rewrite Hex'. f_equal. subst st'. unfold set_job_applications. cbn. f_equal.
  rewrite map_map. apply map_ext. intros r.
  destruct (Nat.eqb (app_id r) (app_id i)) eqn:E.
  - rewrite Nat.eqb_refl. reflexivity.
  - rewrite E. reflexivity.
Qed.

Lemma update_twice st inst v c inst' st' :
  JobApplicationSerializer.update st inst v = (Success c inst', st') ->
  JobApplicationSerializer.update st' inst' v = (Success HTTP_200_OK inst', st').
Proof.
  intros H. pose proof (update_result _ _ _ _ _ _ H) as [Hi Hst].
  assert (Hfix : JobApplicationSerializer.set_attrs inst' v = inst').
  { rewrite Hi. apply set_attrs_idem. }
  assert (Hex : existsb (fun r => negb (Nat.eqb (app_id r) (app_id inst'))
                                  && JobApplicationSerializer.same_pair r inst')
                  (job_applications st) = false).
  { unfold JobApplicationSerializer.update in H. cbn zeta in H. rewrite <- Hi in H.
    destruct (existsb _ _); [discriminate H | reflexivity]. }
  rewrite Hst. apply update_saved_instance; assumption.
Qed.

Lemma update_delay st t inst v :
  JobApplicationSerializer.update (delay st t) inst v =
  (fst (JobApplicationSerializer.update st inst v),
   delay (snd (JobApplicationSerializer.update st inst v)) t).
Proof.
  unfold JobApplicationSerializer.update. cbn zeta. cbn [job_applications delay].
  destruct (existsb _ _); reflexivity.
Qed.

Lemma put_success_shape st u pk d c inst' st' :
  JobApplicationDetail.put st u pk d = (Success c inst', st') ->
  updated_to st pk d inst' st'.
Proof.
  unfold JobApplicationDetail.put, JobApplicationDetail.perform_update.
  destruct (check_permissions _ _); [|discriminate].
  destruct (JobApplicationDetail.get_object _ _ _) as [? inst|] eqn:Hobj; [|discriminate].
  destruct (JobApplicationSerializer.is_valid _ _ _ _) as [? v|] eqn:Hv; [|discriminate].
  destruct (JobApplicationSerializer.update st inst v) as [[c1 inst1|e] st1] eqn:Hu;
    [|discriminate].
  intros H. inversion H; subst; clear H.
  apply get_object_some in Hobj.
  apply is_valid_update_fields in Hv; [|cbn; discriminate].
  destruct Hv as [Hs [Hok Hj]].
  pose proof (update_result _ _ _ _ _ _ Hu) as [Hi Hst].
  exists inst, v, c1. rewrite <- Hst. subst st'. repeat split; auto.
Qed.

Lemma patch_success_shape st u pk d c inst' st' :
  JobApplicationDetail.patch st u pk d = (Success c inst', st') ->
  updated_to st pk d inst' st'.
Proof.
  unfold JobApplicationDetail.patch, JobApplicationDetail.perform_update.
  destruct (check_permissions _ _); [|discriminate].
  destruct (JobApplicationDetail.get_object _ _ _) as [? inst|] eqn:Hobj; [|discriminate].
  destruct (JobApplicationSerializer.is_valid _ _ _ _) as [? v|] eqn:Hv; [|discriminate].
  destruct (JobApplicationSerializer.update st inst v) as [[c1 inst1|e] st1] eqn:Hu;
    [|discriminate].
  cbn zeta. intros H.
  apply get_object_some in Hobj.
  apply is_valid_update_fields in Hv; [|cbn; discriminate].
  destruct Hv as [Hs [Hok Hj]].
  pose proof (update_result _ _ _ _ _ _ Hu) as [Hi Hst].
  pose proof (update_twice _ _ _ _ _ _ Hu) as Hu2.
  assert (Hgoal : inst' = inst1 /\ (st' = st1 \/ exists t, st' = delay st1 t)).
  { destruct (negb (String.eqb (status inst) "accepted")
              && String.eqb (status inst1) "accepted").
    - destruct (JobApplicationDetail.accepted_email_args st1 inst1) as [[em ti]|];
        [|discriminate H].
      rewrite update_delay, Hu2 in H. cbn in H. inversion H; subst. eauto.
    - rewrite Hu2 in H. inversion H; subst. auto. }
  destruct Hgoal as [Hinst Hst']. subst inst'.
  exists inst, v, c1. rewrite <- Hst.
  destruct Hst' as [Hst' | [t Hst']]; subst st'; subst st1; repeat split; auto.
Qed.

Lemma find_replace_other (g : JobApplication -> JobApplication) (k : nat)
  (rows : list JobApplication) :
  (forall r, app_id (g r) = app_id r) ->
  (forall r, app_id r = k -> g r = r) ->
  find (fun a => Nat.eqb (app_id a) k) (map g rows) =
  find (fun a => Nat.eqb (app_id a) k) rows.
Proof.
  intros Hkey Hsame. induction rows as [|r l IH]; cbn; [reflexivity|].
  rewrite Hkey. destruct (Nat.eqb (app_id r) k) eqn:E; [|exact IH].
  apply Nat.eqb_eq in E. rewrite (Hsame r E). reflexivity.
Qed.

(** X4.  A successful [put] or [patch] rewrites one row: its id, its job seeker
    and its timestamp stay, its status is the one sent (or stays), every
    other application is as before, and no row is added or removed. *)
Theorem application_update_touches_one_row :
  forall st u pk d c inst' st',
    JobApplicationDetail.put st u pk d = (Success c inst', st') \/
    JobApplicationDetail.patch st u pk d = (Success c inst', st') ->
    exists inst,
      get_application st pk = Some inst /\
      get_application st' pk = Some inst' /\
      app_id inst' = pk /\ job_seeker inst' = job_seeker inst /\
      applied_at inst' = applied_at inst /\
      status inst' = match data_status d with Some s => s | None => status inst end /\
      (forall pk', pk' <> pk -> get_application st' pk' = get_application st pk') /\
      map app_id (job_applications st') = map app_id (job_applications st) /\
      users st' = users st /\ job_postings st' = job_postings st.
Proof.
  intros st u pk d c inst' st' H.
  assert (Hshape : updated_to st pk d inst' st').
  { destruct H as [H | H]; [apply put_success_shape in H | apply patch_success_shape in H];
      exact H. }
  destruct Hshape as [inst [v [c1 [Hget [Hu [Hs [_ [_ [Hrows [Hus [Hjs _]]]]]]]]]]].
  pose proof (update_result _ _ _ _ _ _ Hu) as [Hi _].
  pose proof (get_application_some _ _ _ Hget) as [Hid Hin].
  assert (Hid' : app_id inst' = pk) by (rewrite Hi; cbn; exact Hid).
  exists inst. split; [exact Hget|]. split; [|split; [exact Hid'|]].
  - unfold get_application in *. rewrite Hrows, Hid'.
    rewrite (find_map_same_key app_id).
    + rewrite Hget. cbn. rewrite Hid, Nat.eqb_refl. reflexivity.
    + intros a. destruct (Nat.eqb (app_id a) pk) eqn:E; [|reflexivity].
      apply Nat.eqb_eq in E. congruence.
  - split; [rewrite Hi; reflexivity|]. split; [rewrite Hi; reflexivity|].
    split; [rewrite Hi; cbn; rewrite Hs; reflexivity|].
    split; [|split; [|auto]].
    + intros pk' Hne. unfold get_application. rewrite Hrows, Hid'.
      apply find_replace_other.
      * intros r. destruct (Nat.eqb (app_id r) pk) eqn:E; [|reflexivity].
        apply Nat.eqb_eq in E. congruence.
      * intros r Hr. destruct (Nat.eqb (app_id r) pk) eqn:E; [|reflexivity].
        apply Nat.eqb_eq in E. congruence.
    + rewrite Hrows, Hid', map_map. apply map_ext. intros r.
      destruct (Nat.eqb (app_id r) pk) eqn:E; [|reflexivity].
      apply Nat.eqb_eq in E. congruence.
Qed.

Lemma updated_row_lookup st pk d inst' st' :
  updated_to st pk d inst' st' -> get_application st' pk = Some inst'.
Proof.
  intros [inst [v [c1 [Hget [Hu [_ [_ [_ [Hrows _]]]]]]]]].
  pose proof (update_result _ _ _ _ _ _ Hu) as [Hi _].
  pose proof (get_application_some _ _ _ Hget) as [Hid _].
  assert (Hid' : app_id inst' = pk) by (rewrite Hi; cbn; exact Hid).
  unfold get_application in *. rewrite Hrows, Hid'.
  rewrite (find_map_same_key app_id).
  - rewrite Hget. cbn. rewrite Hid, Nat.eqb_refl. reflexivity.
  - intros a. destruct (Nat.eqb (app_id a) pk) eqn:E; [|reflexivity].
    apply Nat.eqb_eq in E. congruence.
Qed.

Lemma get_object_again st st' request pk c inst inst' :
  JobApplicationDetail.get_object st request pk = Success c inst ->
  get_application st' pk = Some inst' ->
  job_seeker inst' = job_seeker inst -> job inst' = job inst ->
  job_postings st' = job_postings st ->
  JobApplicationDetail.get_object st' request pk = Success HTTP_200_OK inst'.
Proof.
  unfold JobApplicationDetail.get_object, JobApplicationDetail.super_get_object.
  intros H Hget' Hseeker Hjob Hpostings. rewrite Hget'.
  destruct (get_application st pk) as [obj|]; [|discriminate H].
  unfold check_object_permissions in *.
  assert (Hperm : forall o o' : JobApplication,
             forallb (fun p => has_object_permission p request o)
               (JobApplicationDetail.get_permissions request) =
             forallb (fun p => has_object_permission p request o')
               (JobApplicationDetail.get_permissions request)).
  { intros o o'. unfold JobApplicationDetail.get_permissions.
    destruct (method request); reflexivity. }
  rewrite (Hperm inst' obj).
  destruct (forallb _ _); [|discriminate H]. cbn in *.
  assert (Hinst : obj = inst).
  { destruct (String.eqb (role (user request)) "job_seeker"
              && negb (Nat.eqb (job_seeker obj) (user_id (user request))));
      [discriminate H|].
    destruct (String.eqb (role (user request)) "employer").
    - destruct (get_posting st (job obj)) as [j|]; [|discriminate H].
      destruct (negb (Nat.eqb (employer j) (user_id (user request))));
        [discriminate H|]. inversion H. reflexivity.
    - inversion H. reflexivity. }
  subst obj. rewrite Hseeker.
  destruct (String.eqb (role (user request)) "job_seeker"
            && negb (Nat.eqb (job_seeker inst) (user_id (user request))));
    [discriminate H|].
  destruct (String.eqb (role (user request)) "employer"); [|reflexivity].
  unfold get_posting in *. rewrite Hpostings, Hjob.
  destruct (find _ (job_postings st)) as [j|]; [|discriminate H].
  destruct (negb (Nat.eqb (employer j) (user_id (user request)))); [discriminate H|].
  reflexivity.
Qed.

Lemma update_same_table st1 st2 i v c i' :
  JobApplicationSerializer.update st1 i v = (Success c i', st1) ->
  job_applications st2 = job_applications st1 ->
  JobApplicationSerializer.update st2 i v = (Success c i', st2).
Proof.
  unfold JobApplicationSerializer.update. cbn zeta. intros H Hrows. rewrite Hrows.
  destruct (existsb _ _); [discriminate H|].
  injection H as Hc Hi Hst. apply (f_equal job_applications) in Hst. cbn in Hst.
  f_equal; [congruence|].
  destruct st2; cbn in *. unfold set_job_applications; cbn. f_equal. congruence.
Qed.

(** X5.  Sending a status-only PATCH that succeeded once more succeeds again,
    with the same answer, and changes nothing: in particular it queues no
    second "accepted" task. *)
Theorem patch_repeated_changes_nothing :
  forall st u pk d c inst' st',
    data_job_id d = None ->
    JobApplicationDetail.patch st u pk d = (Success c inst', st') ->
    JobApplicationDetail.patch st' u pk d = (Success HTTP_200_OK inst', st').
Proof.
  intros st u pk d c inst' st' Hnojob H.
  pose proof (patch_success_shape _ _ _ _ _ _ _ H) as Hshape.
  pose proof (updated_row_lookup _ _ _ _ _ Hshape) as Hget'.
  destruct Hshape as [inst [v [c1 [Hget [Hu [Hs [Hok [Hj [Hrows [Hus [Hjs _]]]]]]]]]]].
  rewrite Hnojob in Hj.
  pose proof (update_result _ _ _ _ _ _ Hu) as [Hi _].
  unfold JobApplicationDetail.patch, JobApplicationDetail.perform_update in *.
  destruct (check_permissions _ _); [|discriminate H].
  destruct (JobApplicationDetail.get_object st _ pk) as [? inst0|] eqn:Hobj;
    [|discriminate H].
  assert (inst0 = inst).
  { apply get_object_some in Hobj. congruence. }
  subst inst0.
  rewrite (get_object_again st st' _ pk _ inst inst' Hobj Hget');
    [| rewrite Hi; reflexivity | rewrite Hi; cbn; rewrite Hj; reflexivity | exact Hjs].
  assert (Hv' : JobApplicationSerializer.is_valid st' (mkRequest PATCH u) true d =
                Success HTTP_200_OK v).
  { unfold JobApplicationSerializer.is_valid, JobApplicationSerializer.job_id,
      JobApplicationSerializer.validate. rewrite status_field_spec, Hnojob, Hok. cbn.
    destruct v as [vj vs]. cbn in *. subst. reflexivity. }
  rewrite Hv'. cbn zeta.
  destruct (JobApplicationSerializer.is_valid st _ true d) as [? v0|]; [|discriminate H].
  clear H.
  assert (Hsaved : JobApplicationSerializer.update st' inst' v =
                   (Success HTTP_200_OK inst', st')).
  { apply (update_same_table _ st' _ _ _ _ (update_twice _ _ _ _ _ _ Hu)).
    rewrite Hrows. reflexivity. }
  rewrite Hsaved.
  assert (Hedge : negb (String.eqb (status inst') "accepted")
                  && String.eqb (status inst') "accepted" = false)
    by (destruct (String.eqb (status inst') "accepted"); reflexivity).
  rewrite Hedge, Hsaved. reflexivity.
Qed.


(** ** jobs: locations *)

Lemma has_triple_true c t a l : has_triple c t a l = true <-> triple_of l = (c, t, a).
Proof.
  unfold has_triple, triple_of. rewrite !andb_true_iff, !String.eqb_eq. split.
  - intros [[H1 H2] H3]. congruence.
  - intros H. inversion H. auto.
Qed.

Lemma find_app_some {A} (f : A -> bool) (l1 l2 : list A) x :
  find f l1 = Some x -> find f (l1 ++ l2) = Some x.
Proof.
  induction l1 as [|h t IH]; cbn; [discriminate|].
  destruct (f h); [auto | exact IH].
Qed.

Lemma find_app_none {A} (f : A -> bool) (l1 l2 : list A) :
  find f l1 = None -> find f (l1 ++ l2) = find f l2.
Proof.
  induction l1 as [|h t IH]; cbn; [reflexivity|].
  destruct (f h); [discriminate | exact IH].
Qed.

(** [get_or_create] returns a row of the table it leaves, with the triple
    asked for; it adds a row only when no row has the triple, so the triples
    stay unique; and asking again returns the same row and adds nothing. *)
Lemma get_or_create_spec rows fresh c t a :
  let r := JobPostingSerializer.get_or_create rows fresh c t a in
  In (fst r) (snd r) /\ triple_of (fst r) = (c, t, a) /\
  (NoDup (map triple_of rows) -> NoDup (map triple_of (snd r))) /\
  (forall fresh', JobPostingSerializer.get_or_create (snd r) fresh' c t a = (fst r, snd r)) /\
  ((exists l, In l rows /\ triple_of l = (c, t, a)) -> snd r = rows) /\
  (forall l, In l rows -> In l (snd r)).
Proof.
  unfold JobPostingSerializer.get_or_create. fold (has_triple c t a).
  destruct (find (has_triple c t a) rows) as [l|] eqn:Hf; cbn.
  - pose proof (find_some _ _ Hf) as [Hin Ht]. apply has_triple_true in Ht.
    repeat split; auto. intros fresh'. rewrite Hf. reflexivity.
  - assert (Hnone : forall l, In l rows -> triple_of l <> (c, t, a)).
    { intros l Hin Ht. apply has_triple_true in Ht.
      pose proof (find_none _ _ Hf l Hin). congruence. }
    split; [apply in_or_app; right; left; reflexivity|]. split; [reflexivity|].
    split; [|split; [|split]].
    + intros Hnd. rewrite map_app. cbn. apply NoDup_snoc; [exact Hnd|].
      intros Hin. apply in_map_iff in Hin. destruct Hin as [l [Ht Hl]].
      exact (Hnone l Hl Ht).
    + intros fresh'. rewrite (find_app_none _ _ _ Hf). cbn.
      unfold has_triple. cbn. rewrite !String.eqb_refl. reflexivity.
    + intros [l [Hin Ht]]. exfalso. exact (Hnone l Hin Ht).
    + intros l Hl. apply in_or_app. auto.
Qed.

(** ** jobs: creating a posting *)

Lemma required_success {A} (d : option A) c x :
  JobPostingSerializer.required d = Success c x -> d = Some x.
Proof. destruct d; cbn; intros H; inversion H; reflexivity. Qed.

Lemma char_field_success m s c x :
  JobPostingSerializer.char_field m s = Success c x -> x = strip s /\ x <> "".
Proof.
  unfold JobPostingSerializer.char_field. intros H. apply CharField_success in H.
  destruct H as [_ [Hx Hblank]]. split; [exact Hx|].
  apply String.eqb_neq. exact (Hblank eq_refl).
Qed.

Lemma decimal_field_success s c x :
  JobPostingSerializer.decimal_field s = Success c x -> x = s.
Proof.
  unfold JobPostingSerializer.decimal_field.
  destruct (N.ltb _ _); intros H; inversion H; reflexivity.
Qed.

Lemma decimal_field_failure s e :
  JobPostingSerializer.decimal_field s = Failed e -> e = ValidationError.
Proof.
  unfold JobPostingSerializer.decimal_field.
  destruct (N.ltb _ _); intros H; inversion H; reflexivity.
Qed.

Lemma choice_success l s c x :
  JobPostingSerializer.choice l s = Success c x -> x = s /\ In s l.
Proof.
  unfold JobPostingSerializer.choice. destruct (existsb _ _) eqn:E; [|discriminate].
  intros H. inversion H; subst. split; [reflexivity|].
  apply existsb_exists in E. destruct E as [y [Hin Hy]]. apply String.eqb_eq in Hy.
  subst. exact Hin.
Qed.

Lemma validate_create_success data c lc lt la :
  JobPostingSerializer.validate_create data = Success c (lc, lt, la) ->
  option_map strip (location_country data) = Some lc /\
  option_map strip (location_city data) = Some lt /\
  option_map strip (location_address data) = Some la.
Proof.
  unfold JobPostingSerializer.validate_create.
  destruct (location_country data) as [x|]; [|discriminate].
  destruct (location_city data) as [y|]; [|discriminate].
  destruct (location_address data) as [z|]; [|discriminate].
  unfold bind.
  destruct (JobPostingSerializer.char_field None x) eqn:Ex; [|discriminate].
  destruct (JobPostingSerializer.char_field None y) eqn:Ey; [|discriminate].
  destruct (JobPostingSerializer.char_field None z) eqn:Ez; [|discriminate].
  apply char_field_success in Ex, Ey, Ez. intros H. inversion H; subst.
  destruct Ex as [Ex _], Ey as [Ey _], Ez as [Ez _]. cbn. rewrite Ex, Ey, Ez. auto.
Qed.

(** What a successful [post] of a posting wrote: the strings are the
    stripped values of the request. *)
Lemma job_post_success st u data pk loc_pk now c row st' :
  JobPostingListCreateView.post st u data pk loc_pk now = (Success c row, st') ->
  exists t d s cat jt lc lt la,
    role u = "employer" /\
    option_map strip (data_title data) = Some t /\
    option_map strip (data_description data) = Some d /\
    data_salary data = Some s /\
    data_category data = Some cat /\ In cat CATEGORY_CHOICES /\
    data_job_type data = Some jt /\ In jt JOB_TYPES /\
    option_map strip (location_country data) = Some lc /\
    option_map strip (location_city data) = Some lt /\
    option_map strip (location_address data) = Some la /\
    let r := JobPostingSerializer.get_or_create (locations st) loc_pk lc lt la in
    row = mkJobPosting pk t d cat (Some (location_id (fst r))) jt (user_id u) s now
            (match data_is_active data with Some b => b | None => true end) /\
    st' = mkState (users st) (job_seeker_profiles st) (employer_profiles st)
            (verification_tokens st) (snd r) (job_postings st ++ [row])
            (job_applications st) None (queue st).
Proof.
  unfold JobPostingListCreateView.post, check_permissions. cbn.
  destruct (String.eqb (role u) "employer") eqn:Hrole; cbn; [|discriminate].
  apply String.eqb_eq in Hrole. unfold bind.
  destruct (JobPostingSerializer.required (data_title data)) as [? t0|] eqn:E1; [|discriminate].
  destruct (JobPostingSerializer.char_field (Some 100) t0) as [? t|] eqn:E2; [|discriminate].
  destruct (JobPostingSerializer.required (data_description data)) as [? d0|] eqn:E3;
    [|discriminate].
  destruct (JobPostingSerializer.char_field None d0) as [? d|] eqn:E4; [|discriminate].
  destruct (JobPostingSerializer.required (data_salary data)) as [? s0|] eqn:E5;
    [|discriminate].
  destruct (JobPostingSerializer.decimal_field s0) as [? s|] eqn:E5'; [|discriminate].
  destruct (JobPostingSerializer.required (data_category data)) as [? c0|] eqn:E6;
    [|discriminate].
  destruct (JobPostingSerializer.choice CATEGORY_CHOICES c0) as [? cat|] eqn:E7; [|discriminate].
  destruct (JobPostingSerializer.required (data_job_type data)) as [? jt0|] eqn:E8;
    [|discriminate].
  destruct (JobPostingSerializer.choice JOB_TYPES jt0) as [? jt|] eqn:E9; [|discriminate].
  destruct (JobPostingSerializer.validate_create data) as [? [[lc lt] la]|] eqn:E10;
    [|discriminate].
  apply required_success in E1, E3, E5, E6, E8.
  apply char_field_success in E2, E4. apply choice_success in E7, E9.
  apply decimal_field_success in E5'.
  apply validate_create_success in E10.
  destruct E2 as [E2 _], E4 as [E4 _], E7 as [E7 E7'], E9 as [E9 E9'], E10 as [Hlc [Hlt Hla]].
  subst t d s cat jt.
  destruct (JobPostingSerializer.get_or_create (locations st) loc_pk lc lt la) as [l locs]
    eqn:Hg.
  intros H. inversion H; subst; clear H.
  exists (strip t0), (strip d0), s0, c0, jt0, lc, lt, la.
  rewrite E1, E3, E5, E6, E8, Hlc, Hlt, Hla. cbn. rewrite Hg.
  repeat split; try reflexivity; assumption.
Qed.

Lemma required_failure {A} (d : option A) e :
  JobPostingSerializer.required d = Failed e -> e = ValidationError.
Proof. destruct d; cbn; intros H; inversion H; reflexivity. Qed.

Lemma char_field_failure m s e :
  JobPostingSerializer.char_field m s = Failed e -> e = ValidationError.
Proof. unfold JobPostingSerializer.char_field. apply CharField_failure. Qed.

Lemma choice_failure l s e :
  JobPostingSerializer.choice l s = Failed e -> e = ValidationError.
Proof.
  unfold JobPostingSerializer.choice.
  destruct (existsb _ _); intros H; inversion H; reflexivity.
Qed.

Lemma validate_create_failure data e :
  JobPostingSerializer.validate_create data = Failed e -> e = ValidationError.
Proof.
  unfold JobPostingSerializer.validate_create.
  destruct (location_country data) as [x|]; [|intros H; inversion H; reflexivity].
  destruct (location_city data) as [y|]; [|intros H; inversion H; reflexivity].
  destruct (location_address data) as [z|]; [|intros H; inversion H; reflexivity].
  unfold bind.
  destruct (JobPostingSerializer.char_field None x) eqn:Ex;
    [|intros H; inversion H; subst; exact (char_field_failure _ _ _ Ex)].
  destruct (JobPostingSerializer.char_field None y) eqn:Ey;
    [|intros H; inversion H; subst; exact (char_field_failure _ _ _ Ey)].
  destruct (JobPostingSerializer.char_field None z) eqn:Ez;
    [|intros H; inversion H; subst; exact (char_field_failure _ _ _ Ez)].
  discriminate.
Qed.

(** A refused [post] of a posting changes nothing, the cache entry
    included. *)
Lemma job_post_failure st u data pk loc_pk now e st' :
  JobPostingListCreateView.post st u data pk loc_pk now = (Failed e, st') ->
  st' = st /\ (e = Forbidden \/ e = ValidationError).
Proof.
  unfold JobPostingListCreateView.post, check_permissions. cbn.
  destruct (String.eqb (role u) "employer"); cbn;
    [|intros H; inversion H; auto].
  match goal with |- context [match ?v with Success _ _ => _ | Failed _ => _ end] =>
    destruct v as [? [[[[[t d] s] c] jt] [[lc lt] la]]|e0] eqn:Hv end.
  - destruct (JobPostingSerializer.get_or_create _ _ _ _ _). discriminate.
  - intros H. inversion H; subst. split; [reflexivity|]. right.
    unfold bind in Hv.
    destruct (JobPostingSerializer.required (data_title data)) eqn:E1;
      [|inversion Hv; subst; exact (required_failure _ _ E1)].
    destruct (JobPostingSerializer.char_field (Some 100) _) eqn:E2;
      [|inversion Hv; subst; exact (char_field_failure _ _ _ E2)].
    destruct (JobPostingSerializer.required (data_description data)) eqn:E3;
      [|inversion Hv; subst; exact (required_failure _ _ E3)].
    destruct (JobPostingSerializer.char_field None _) eqn:E4;
      [|inversion Hv; subst; exact (char_field_failure _ _ _ E4)].
    destruct (JobPostingSerializer.required (data_salary data)) eqn:E5;
      [|inversion Hv; subst; exact (required_failure _ _ E5)].
    destruct (JobPostingSerializer.decimal_field _) eqn:E5';
      [|inversion Hv; subst; exact (decimal_field_failure _ _ E5')].
    destruct (JobPostingSerializer.required (data_category data)) eqn:E6;
      [|inversion Hv; subst; exact (required_failure _ _ E6)].
    destruct (JobPostingSerializer.choice CATEGORY_CHOICES _) eqn:E7;
      [|inversion Hv; subst; exact (choice_failure _ _ _ E7)].
    destruct (JobPostingSerializer.required (data_job_type data)) eqn:E8;
      [|inversion Hv; subst; exact (required_failure _ _ E8)].
    destruct (JobPostingSerializer.choice JOB_TYPES _) eqn:E9;
      [|inversion Hv; subst; exact (choice_failure _ _ _ E9)].
    destruct (JobPostingSerializer.validate_create data) eqn:E10;
      [discriminate Hv|inversion Hv; subst; exact (validate_create_failure _ _ E10)].
Qed.

Lemma CharField_max_length allow_blank n data c value :
  CharField allow_blank (Some n) data = Success c value -> String.length value <= n.
Proof.
  unfold CharField. destruct (String.eqb (strip data) "").
  - destruct allow_blank; intros H; inversion H; subst. cbn. lia.
  - destruct (has_null_character (strip data)); [intros H; discriminate H|].
    destruct (Nat.leb (String.length (strip data)) n) eqn:E; intros H; inversion H; subst.
    apply Nat.leb_le. exact E.
Qed.

(** The row of a successful [post] passed the checks of its fields. *)
Lemma job_post_fields st u data pk loc_pk now c row st' :
  JobPostingListCreateView.post st u data pk loc_pk now = (Success c row, st') ->
  title row <> "" /\ String.length (title row) <= 100 /\ description row <> "" /\
  N.lt (N.of_nat (salary row)) 100000000.
Proof.
  unfold JobPostingListCreateView.post, check_permissions. cbn.
  destruct (String.eqb (role u) "employer"); cbn; [|discriminate].
  unfold bind.
  destruct (JobPostingSerializer.required (data_title data)) as [? t0|]; [|discriminate].
  destruct (JobPostingSerializer.char_field (Some 100) t0) as [? t|] eqn:E2; [|discriminate].
  destruct (JobPostingSerializer.required (data_description data)) as [? d0|]; [|discriminate].
  destruct (JobPostingSerializer.char_field None d0) as [? d|] eqn:E4; [|discriminate].
  destruct (JobPostingSerializer.required (data_salary data)) as [? s0|]; [|discriminate].
  destruct (JobPostingSerializer.decimal_field s0) as [? s|] eqn:E5; [|discriminate].
  destruct (JobPostingSerializer.required (data_category data)) as [? c0|]; [|discriminate].
  destruct (JobPostingSerializer.choice CATEGORY_CHOICES c0) as [? cat|]; [|discriminate].
  destruct (JobPostingSerializer.required (data_job_type data)) as [? jt0|]; [|discriminate].
  destruct (JobPostingSerializer.choice JOB_TYPES jt0) as [? jt|]; [|discriminate].
  destruct (JobPostingSerializer.validate_create data) as [? [[lc lt] la]|]; [|discriminate].
  destruct (JobPostingSerializer.get_or_create (locations st) loc_pk lc lt la) as [l locs].
  intros H. inversion H; subst; clear H. cbn.
  pose proof (CharField_max_length _ _ _ _ _ E2) as Hlen.
  apply char_field_success in E2, E4.
  unfold JobPostingSerializer.decimal_field in E5.
  destruct (N.ltb (N.of_nat s0) 100000000) eqn:Hs; [|discriminate E5].
  inversion E5; subst. apply N.ltb_lt in Hs. tauto.
Qed.

Lemma order_by_snoc_newest row l :
  (forall j, In j l -> created_at j < created_at row) ->
  JobPostingListCreateView.order_by_created_at_desc (l ++ [row]) =
  row :: JobPostingListCreateView.order_by_created_at_desc l.
Proof.
  unfold JobPostingListCreateView.order_by_created_at_desc.
  induction l as [|h t IH]; intros Hnew; [reflexivity|].
  cbn [app fold_right]. rewrite IH by (intros j Hj; apply Hnew; right; exact Hj).
  cbn [JobPostingListCreateView.insert_newest_first].
  assert (E : Nat.leb (created_at row) (created_at h) = false).
  { apply Nat.leb_gt. apply Hnew. left. reflexivity. }
  rewrite E. reflexivity.
Qed.

(** The first page a user who is not an employer gets without filters:
    the ten newest active rows of the table, and the number of active rows. *)
Lemma list_first_page st v p st'' :
  role v <> "employer" ->
  JobPostingListCreateView.get st v no_params = (Success HTTP_200_OK p, st'') ->
  results p =
    firstn PAGE_SIZE
      (JobPostingListCreateView.order_by_created_at_desc (filter is_active (job_postings st))) /\
  count p = length (filter is_active (job_postings st)).
Proof.
  intros Hrole Hget. apply list_success in Hget.
  destruct Hget as [cleaned [n [_ [_ [Hv [_ [Hpage Hfull]]]]]]].
  cbv zeta in Hfull. destruct Hfull as [Hcount Hres].
  apply String.eqb_neq in Hrole. rewrite Hrole in Hcount, Hres.
  rewrite no_params_valid in Hv. inversion Hv; subst cleaned.
  rewrite (filter_true _ _ (keeps_nothing_cleaned st)) in Hres, Hcount.
  rewrite (Hpage eq_refl) in Hres. cbn [Nat.sub Nat.mul skipn] in Hres.
  unfold JobPostingListCreateView.fetch_all in Hres, Hcount.
  change (JobPostingListCreateView.where_clause filter_is_active) with is_active
    in Hres, Hcount.
  split; [exact Hres|]. rewrite Hcount.
  apply Permutation_length. apply order_by_perm.
Qed.

(** X6.  A posting is created by employers only, for themselves, from a
    body whose fields pass their checks: the title is stored stripped, is
    not blank and has at most 100 characters, the salary has at most eight
    digits.  The posting is active unless the [is_active] field read
    [False].  The cache entry is dropped.  A list request without parameters
    that any user who is not an employer sends next is answered with the
    first page, in which the posting is counted and shown only if it is
    active; when it is active and newer than every posting of the table it is
    the first row of that page.  A refused request changes nothing. *)
Theorem job_create_is_owned_and_listed :
  forall st u data pk loc_pk now,
    let r := JobPostingListCreateView.post st u data pk loc_pk now in
    (forall c row st',
       r = (Success c row, st') ->
       role u = "employer" /\ employer row = user_id u /\ posting_id row = pk /\
       created_at row = now /\
       is_active row = match data_is_active data with Some b => b | None => true end /\
       option_map strip (data_title data) = Some (title row) /\
       title row <> "" /\ String.length (title row) <= 100 /\
       data_salary data = Some (salary row) /\
       N.lt (N.of_nat (salary row)) 100000000 /\
       job_postings st' = job_postings st ++ [row] /\
       active_jobs_queryset st' = None /\
       forall v,
         role v <> "employer" ->
         exists p st'',
           JobPostingListCreateView.get st' v no_params = (Success HTTP_200_OK p, st'') /\
           count p = length (filter is_active (job_postings st))
                     + (if is_active row then 1 else 0) /\
           (In row (results p) -> is_active row = true) /\
           (is_active row = true ->
            (forall j, In j (job_postings st) -> created_at j < now) ->
            exists rest, results p = row :: rest)) /\
    (forall e st', r = (Failed e, st') -> st' = st).
Proof.
  intros st u data pk loc_pk now r. subst r. split.
  - intros c row st' H. pose proof (job_post_fields _ _ _ _ _ _ _ _ _ H) as Hfields.
    destruct Hfields as [Hblank [Hlen [_ Hsal]]].
    apply job_post_success in H.
    destruct H as [t [d [s [cat [jt [lc [lt [la H]]]]]]]].
    destruct H as [Hrole [Ht [_ [Hs [_ [_ [_ [_ [_ [_ [_ [Hrow Hst]]]]]]]]]]]].
    cbn zeta in Hrow, Hst.
    assert (Hposts : job_postings st' = job_postings st ++ [row]) by (subst st'; reflexivity).
    assert (Hcache : active_jobs_queryset st' = None) by (subst st'; reflexivity).
    assert (Hnow : created_at row = now) by (subst row; reflexivity).
    split; [exact Hrole|]. split; [subst row; reflexivity|].
    split; [subst row; reflexivity|]. split; [exact Hnow|].
    split; [subst row; reflexivity|].
    split; [rewrite Ht; subst row; reflexivity|].
    split; [exact Hblank|]. split; [exact Hlen|].
    split; [rewrite Hs; subst row; reflexivity|]. split; [exact Hsal|].
    split; [exact Hposts|]. split; [exact Hcache|].
    intros v Hv. destruct (list_no_params st' v) as [p Hlist].
    exists p. eexists. split; [exact Hlist|].
    pose proof (list_first_page _ _ _ _ Hv Hlist) as Hget.
    destruct Hget as [Hres Hcount]. rewrite Hposts, filter_app in Hres, Hcount.
    cbn [filter] in Hres, Hcount.
    destruct (is_active row) eqn:Hact.
    + split; [rewrite Hcount, length_app; reflexivity|]. split; [reflexivity|].
      intros _ Hnew.
      rewrite order_by_snoc_newest in Hres.
      * eexists. rewrite Hres. reflexivity.
      * intros j Hj. apply filter_In in Hj. rewrite Hnow. apply Hnew. tauto.
    + rewrite app_nil_r in Hres, Hcount.
      split; [rewrite Hcount; lia|]. split; [|intros E; discriminate E].
      intros Hin. rewrite Hres in Hin. apply in_firstn in Hin.
      apply (proj1 (order_by_In _ _)) in Hin. apply filter_In in Hin.
      destruct Hin as [_ Hin]. rewrite Hin in Hact. discriminate Hact.
  - intros e st' H. apply job_post_failure in H. tauto.
Qed.

(** ** jobs: updating a posting *)

Lemma serializer_update_result st loc_pk j v :
  let r := JobPostingSerializer.update st loc_pk j v in
  posting_id (fst r) = posting_id j /\ employer (fst r) = employer j /\
  created_at (fst r) = created_at j /\
  job_postings (snd r) =
    map (fun x => if Nat.eqb (posting_id x) (posting_id j) then fst r else x)
      (job_postings st) /\
  job_applications (snd r) = job_applications st /\ users (snd r) = users st /\
  job_seeker_profiles (snd r) = job_seeker_profiles st /\
  employer_profiles (snd r) = employer_profiles st /\
  verification_tokens (snd r) = verification_tokens st /\
  active_jobs_queryset (snd r) = active_jobs_queryset st /\ queue (snd r) = queue st.
Proof.
  unfold JobPostingSerializer.update. cbn zeta.
  destruct (JobPostingSerializer.truthy_str (JobPostingSerializer.validated_country v)
            && JobPostingSerializer.truthy_str (JobPostingSerializer.validated_city v)
            && JobPostingSerializer.truthy_str (JobPostingSerializer.validated_address v)).
  - destruct (JobPostingSerializer.get_or_create _ _ _ _ _). cbn. repeat split.
  - cbn. repeat split.
Qed.

(** What a successful update went through. *)
Lemma job_update_success st u m partial id data loc_pk c j' st' :
  is_write m = true ->
  JobPostingDetailView.update st u m partial id data loc_pk = (Success c j', st') ->
  role u = "employer" /\
  exists j v cv,
    get_posting st id = Some j /\ employer j = user_id u /\
    JobPostingSerializer.is_valid_update partial data = Success cv v /\
    JobPostingSerializer.update st loc_pk j v = (j', st').
Proof.
  intros Hm. unfold JobPostingDetailView.update, JobPostingDetailView.get_object,
    JobPostingDetailView.get_permissions, check_permissions, check_object_permissions.
  cbn [method user].
  destruct m; try discriminate Hm; cbn.
  all: destruct (String.eqb (role u) "employer") eqn:Hrole; cbn; [|discriminate].
  all: apply String.eqb_eq in Hrole.
  all: destruct (get_posting st id) as [j|] eqn:Hj; cbn; [|discriminate].
  all: destruct (Nat.eqb (user_id u) (employer j)) eqn:Hown; cbn; [|discriminate].
  all: apply Nat.eqb_eq in Hown.
  all: destruct (JobPostingSerializer.is_valid_update partial data) as [cv v|] eqn:Hv;
    [|discriminate].
  all: destruct (JobPostingSerializer.update st loc_pk j v) as [j1 st1] eqn:Hu.
  all: intros H; inversion H; subst; split; [exact Hrole|].
  all: exists j, v, cv; auto.
Qed.

Lemma job_update_failure st u m partial id data loc_pk e st' :
  JobPostingDetailView.update st u m partial id data loc_pk = (Failed e, st') -> st' = st.
Proof.
  unfold JobPostingDetailView.update.
  destruct (check_permissions _ _); [|intros H; inversion H; reflexivity].
  destruct (JobPostingDetailView.get_object _ _ _); [|intros H; inversion H; reflexivity].
  destruct (JobPostingSerializer.is_valid_update _ _);
    [|intros H; inversion H; reflexivity].
  destruct (JobPostingSerializer.update _ _ _ _). discriminate.
Qed.

Lemma job_update_owner_only_gen :
  forall st u id data loc_pk m partial,
    (m = PUT /\ partial = false) \/ (m = PATCH /\ partial = true) ->
    let r := JobPostingDetailView.update st u m partial id data loc_pk in
    (is_success (fst r) = true ->
     role u = "employer" /\
     exists j, get_posting st id = Some j /\ employer j = user_id u) /\
    (role u <> "employer" -> r = (Failed Forbidden, st)) /\
    (role u = "employer" -> get_posting st id = None -> r = (Failed NotFound, st)) /\
    (role u = "employer" ->
     forall j, get_posting st id = Some j -> employer j <> user_id u ->
               r = (Failed Forbidden, st)) /\
    (is_success (fst r) = false -> snd r = st).
Proof.
  intros st u id data loc_pk m partial Hm r.
  assert (Hw : is_write m = true) by (destruct Hm as [[? _] | [? _]]; subst; reflexivity).
  split; [|split; [|split; [|split]]].
  - destruct r as [[c j'|e] st'] eqn:Hr; [intros _|discriminate].
    subst r. apply (job_update_success _ _ _ _ _ _ _ _ _ _ Hw) in Hr.
    destruct Hr as [Hrole [j [v [cv [Hj [Hown _]]]]]]. eauto.
  - intros Hrole. subst r. unfold JobPostingDetailView.update,
      JobPostingDetailView.get_permissions, check_permissions. cbn [method user].
    apply String.eqb_neq in Hrole.
    destruct m; try discriminate Hw; cbn; rewrite Hrole; reflexivity.
  - intros Hrole Hnone. subst r. unfold JobPostingDetailView.update,
      JobPostingDetailView.get_object, JobPostingDetailView.get_permissions,
      check_permissions. cbn [method user].
    destruct m; try discriminate Hw; cbn; rewrite Hrole, Hnone; reflexivity.
  - intros Hrole j Hj Hown. subst r. unfold JobPostingDetailView.update,
      JobPostingDetailView.get_object, JobPostingDetailView.get_permissions,
      check_permissions, check_object_permissions. cbn [method user].
    assert (Hn : Nat.eqb (user_id u) (employer j) = false)
      by (apply Nat.eqb_neq; congruence).
    destruct m; try discriminate Hw; cbn; rewrite Hrole, Hj; cbn; rewrite Hn; reflexivity.
  - destruct r as [[c j'|e] st'] eqn:Hr; [discriminate|intros _].
    subst r. apply job_update_failure in Hr. exact Hr.
Qed.

Lemma find_map_posting (g : JobPosting -> JobPosting) (k : nat) (rows : list JobPosting) :
  (forall r, posting_id (g r) = posting_id r) ->
  find (fun j => Nat.eqb (posting_id j) k) (map g rows) =
  option_map g (find (fun j => Nat.eqb (posting_id j) k) rows).
Proof.
  intros Hkey. induction rows as [|r l IH]; cbn; [reflexivity|].
  rewrite Hkey. destruct (Nat.eqb (posting_id r) k); [reflexivity | exact IH].
Qed.

Lemma job_update_read_back_gen :
  forall st u id data loc_pk m partial c j' st',
    (m = PUT /\ partial = false) \/ (m = PATCH /\ partial = true) ->
    JobPostingDetailView.update st u m partial id data loc_pk = (Success c j', st') ->
    JobPostingDetailView.get st' u id = (Success HTTP_200_OK j', st') /\
    (exists j, get_posting st id = Some j /\ posting_id j' = posting_id j /\
               employer j' = employer j /\ created_at j' = created_at j) /\
    (forall id', id' <> id -> get_posting st' id' = get_posting st id') /\
    job_applications st' = job_applications st /\
    users st' = users st /\
    active_jobs_queryset st' = active_jobs_queryset st.
Proof.
  intros st u id data loc_pk m partial c j' st' Hm H.
  assert (Hw : is_write m = true) by (destruct Hm as [[? _] | [? _]]; subst; reflexivity).
  apply (job_update_success _ _ _ _ _ _ _ _ _ _ Hw) in H.
  destruct H as [Hrole [j [v [cv [Hj [Hown [_ Hu]]]]]]].
  pose proof (serializer_update_result st loc_pk j v) as Hres. cbn zeta in Hres.
  rewrite Hu in Hres. cbn [fst snd] in Hres.
  destruct Hres as [Hid [Hemp [Hcr [Hrows [Happs [Hus [_ [_ [_ [Hcache _]]]]]]]]]].
  assert (Hpid : posting_id j = id).
  { unfold get_posting in Hj. apply find_some in Hj. apply Nat.eqb_eq. tauto. }
  assert (Hget : get_posting st' id = Some j').
  { unfold get_posting in *. rewrite Hrows, find_map_posting.
    - rewrite Hj. cbn. rewrite Hpid, Nat.eqb_refl. reflexivity.
    - intros r. destruct (Nat.eqb (posting_id r) (posting_id j)) eqn:E; [|reflexivity].
      apply Nat.eqb_eq in E. congruence. }
  split; [|split; [|split; [|auto]]].
  - unfold JobPostingDetailView.get, JobPostingDetailView.get_object,
      JobPostingDetailView.get_permissions, check_permissions, check_object_permissions.
    cbn. rewrite Hrole, Hget. cbn. rewrite Hemp, Hown, Nat.eqb_refl. reflexivity.
  - exists j. auto.
  - intros id' Hne. unfold get_posting in *. rewrite Hrows.
    assert (Hgen : forall rows,
               find (fun x => Nat.eqb (posting_id x) id')
                 (map (fun x => if Nat.eqb (posting_id x) (posting_id j) then j' else x) rows)
               = find (fun x => Nat.eqb (posting_id x) id') rows).
    { induction rows as [|r l IH]; cbn; [reflexivity|].
      destruct (Nat.eqb (posting_id r) (posting_id j)) eqn:E.
      - apply Nat.eqb_eq in E.
        assert (E1 : Nat.eqb (posting_id j') id' = false)
          by (apply Nat.eqb_neq; congruence).
        assert (E2 : Nat.eqb (posting_id r) id' = false)
          by (apply Nat.eqb_neq; congruence).
        rewrite E1, E2. exact IH.
      - destruct (Nat.eqb (posting_id r) id'); [reflexivity | exact IH]. }
    apply Hgen.
Qed.


Lemma location_field_success d c r :
  JobPostingSerializer.field true (JobPostingSerializer.char_field None) d = Success c r ->
  r = option_map strip d /\
  JobPostingSerializer.truthy_str r = JobPostingSerializer.present d.
Proof.
  unfold JobPostingSerializer.field, bind. destruct d as [x|].
  - destruct (JobPostingSerializer.char_field None x) as [? y|] eqn:E; [|discriminate].
    apply char_field_success in E. destruct E as [Hy Hx]. intros H. inversion H; subst.
    split; [reflexivity|]. cbn. apply String.eqb_neq in Hx. rewrite Hx. reflexivity.
  - intros H. inversion H; subst. auto.
Qed.

(** The location part of a validated update: the three keys as sent,
    stripped, each one non-blank when present, and all of them present when
    one is. *)
Lemma is_valid_update_locations partial data c v :
  JobPostingSerializer.is_valid_update partial data = Success c v ->
  JobPostingSerializer.validated_country v = option_map strip (location_country data) /\
  JobPostingSerializer.validated_city v = option_map strip (location_city data) /\
  JobPostingSerializer.validated_address v = option_map strip (location_address data) /\
  JobPostingSerializer.truthy_str (JobPostingSerializer.validated_country v)
    = JobPostingSerializer.present (location_country data) /\
  JobPostingSerializer.truthy_str (JobPostingSerializer.validated_city v)
    = JobPostingSerializer.present (location_city data) /\
  JobPostingSerializer.truthy_str (JobPostingSerializer.validated_address v)
    = JobPostingSerializer.present (location_address data) /\
  JobPostingSerializer.present (location_city data)
    = JobPostingSerializer.present (location_country data) /\
  JobPostingSerializer.present (location_address data)
    = JobPostingSerializer.present (location_country data).
Proof.
  unfold JobPostingSerializer.is_valid_update, bind.
  destruct (JobPostingSerializer.field partial _ (data_title data)); [|discriminate].
  destruct (JobPostingSerializer.field partial _ (data_description data)); [|discriminate].
  destruct (JobPostingSerializer.field partial _ (data_salary data)); [|discriminate].
  destruct (JobPostingSerializer.field partial _ (data_category data)); [|discriminate].
  destruct (JobPostingSerializer.field partial _ (data_job_type data)); [|discriminate].
  destruct (JobPostingSerializer.field true _ (location_country data)) as [? lc|] eqn:Ec;
    [|discriminate].
  destruct (JobPostingSerializer.field true _ (location_city data)) as [? lt|] eqn:Et;
    [|discriminate].
  destruct (JobPostingSerializer.field true _ (location_address data)) as [? la|] eqn:Ea;
    [|discriminate].
  apply location_field_success in Ec, Et, Ea.
  destruct Ec as [Hc Hc'], Et as [Ht Ht'], Ea as [Ha Ha']. subst lc lt la.
  unfold JobPostingSerializer.validate_update. cbn.
  destruct (location_country data), (location_city data), (location_address data);
    cbn; intros H; inversion H; subst; cbn; repeat split; auto.
Qed.

Lemma job_update_location_gen st u m partial id data loc_pk :
  let r := JobPostingDetailView.update st u m partial id data loc_pk in
  (JobPostingSerializer.present (location_country data)
   || JobPostingSerializer.present (location_city data)
   || JobPostingSerializer.present (location_address data) = true ->
   JobPostingSerializer.present (location_country data)
   && JobPostingSerializer.present (location_city data)
   && JobPostingSerializer.present (location_address data) = false ->
   is_success (fst r) = false /\ snd r = st) /\
  (forall c j' st',
     r = (Success c j', st') ->
     (location_country data = None ->
      locations st' = locations st /\
      exists j, get_posting st id = Some j /\ location j' = location j) /\
     (forall lc lt la,
        location_country data = Some lc -> location_city data = Some lt ->
        location_address data = Some la ->
        exists l, In l (locations st') /\ triple_of l = (strip lc, strip lt, strip la) /\
                  location j' = Some (location_id l))).
Proof.
  intros r. subst r. split.
  - intros Hany Hall.
    destruct (JobPostingDetailView.update st u m partial id data loc_pk)
      as [[c j'|e] st'] eqn:Hr.
    + exfalso. unfold JobPostingDetailView.update in Hr.
      destruct (check_permissions _ _); [|discriminate Hr].
      destruct (JobPostingDetailView.get_object _ _ _); [|discriminate Hr].
      destruct (JobPostingSerializer.is_valid_update partial data) as [cv v|] eqn:Hv;
        [|discriminate Hr].
      apply is_valid_update_locations in Hv.
      destruct Hv as [_ [_ [_ [_ [_ [_ [H1 H2]]]]]]]. rewrite H1, H2 in Hany, Hall.
      destruct (JobPostingSerializer.present (location_country data));
        cbn in Hany, Hall; discriminate.
    + split; [reflexivity|]. cbn. unfold JobPostingDetailView.update in Hr.
      destruct (check_permissions _ _); [|inversion Hr; reflexivity].
      destruct (JobPostingDetailView.get_object _ _ _); [|inversion Hr; reflexivity].
      destruct (JobPostingSerializer.is_valid_update partial data);
        [|inversion Hr; reflexivity].
      destruct (JobPostingSerializer.update _ _ _ _). discriminate Hr.
  - intros c j' st' Hr. unfold JobPostingDetailView.update in Hr.
    destruct (check_permissions _ _); [|discriminate Hr].
    destruct (JobPostingDetailView.get_object _ _ _) as [? j|] eqn:Hobj; [|discriminate Hr].
    assert (Hj : get_posting st id = Some j).
    { unfold JobPostingDetailView.get_object in Hobj.
      destruct (get_posting st id) as [o|]; [|discriminate Hobj].
      unfold bind in Hobj. destruct (check_object_permissions _ _ _); [|discriminate Hobj].
      inversion Hobj. reflexivity. }
    destruct (JobPostingSerializer.is_valid_update partial data) as [cv v|] eqn:Hv;
      [|discriminate Hr].
    apply is_valid_update_locations in Hv.
    destruct Hv as [Hvc [Hvt [Hva [Htc [Htt [Hta [H1 H2]]]]]]].
    unfold JobPostingSerializer.update in Hr. cbn zeta in Hr.
    rewrite Htc, Htt, Hta, H1, H2 in Hr. rewrite Hvc, Hvt, Hva in Hr. split.
    + intros Hnone. rewrite Hnone in Hr. cbn in Hr. inversion Hr; subst; clear Hr. cbn.
      split; [reflexivity|]. exists j. auto.
    + intros lc lt la Hc Ht Ha. rewrite Hc, Ht, Ha in Hr. cbn in Hr.
      pose proof (get_or_create_spec (locations st) loc_pk (strip lc) (strip lt) (strip la))
        as Hspec.
      cbn zeta in Hspec. destruct Hspec as [Hin [Htr _]].
      destruct (JobPostingSerializer.get_or_create (locations st) loc_pk
                  (strip lc) (strip lt) (strip la))
        as [l locs]. cbn in Hin, Htr.
      inversion Hr; subst; clear Hr. cbn. exists l. auto.
Qed.


Lemma update_method_cases (h : State -> User -> nat -> JobPostingData -> nat
                                -> Response JobPosting * State) :
  h = JobPostingDetailView.put \/ h = JobPostingDetailView.patch ->
  exists m partial,
    ((m = PUT /\ partial = false) \/ (m = PATCH /\ partial = true)) /\
    forall st u id data loc_pk,
      h st u id data loc_pk = JobPostingDetailView.update st u m partial id data loc_pk.
Proof.
  intros [H | H]; subst h.
  - exists PUT, false. split; [left; auto | reflexivity].
  - exists PATCH, true. split; [right; auto | reflexivity].
Qed.

(** X8.  Only the employer who owns a posting can update it, by [put] or by
    [patch].  Every other user is refused: an admin and any other
    non-employer with [Forbidden] before the posting is looked up, another
    employer with [Forbidden] when the posting exists and with [NotFound]
    when it does not.  A request that does not succeed changes nothing. *)
Theorem job_update_owner_only :
  forall h st u id data loc_pk,
    h = JobPostingDetailView.put \/ h = JobPostingDetailView.patch ->
    let r := h st u id data loc_pk in
    (is_success (fst r) = true ->
     role u = "employer" /\
     exists j, get_posting st id = Some j /\ employer j = user_id u) /\
    (role u <> "employer" -> r = (Failed Forbidden, st)) /\
    (role u = "employer" -> get_posting st id = None -> r = (Failed NotFound, st)) /\
    (role u = "employer" ->
     forall j, get_posting st id = Some j -> employer j <> user_id u ->
               r = (Failed Forbidden, st)) /\
    (is_success (fst r) = false -> snd r = st).
Proof.
  intros h st u id data loc_pk Hh.
  destruct (update_method_cases h Hh) as [m [partial [Hm Heq]]].
  rewrite Heq. apply job_update_owner_only_gen. exact Hm.
Qed.

Lemma job_update_owner_only_witness :
  JobPostingDetailView.patch board root 10 deactivate_data 50 = (Failed Forbidden, board) /\
  JobPostingDetailView.patch board carol 10 deactivate_data 50 = (Failed Forbidden, board) /\
  JobPostingDetailView.put board carol 99 clerk_data 50 = (Failed NotFound, board).
Proof.
  pose proof (job_update_owner_only _ board root 10 deactivate_data 50
                (or_intror eq_refl)) as Hroot.
  pose proof (job_update_owner_only _ board carol 10 deactivate_data 50
                (or_intror eq_refl)) as Hcarol.
  pose proof (job_update_owner_only _ board carol 99 clerk_data 50
                (or_introl eq_refl)) as Hmissing.
  cbv zeta in Hroot, Hcarol, Hmissing.
  destruct Hroot as [_ [Hroot _]].
  destruct Hcarol as [_ [_ [_ [Hcarol _]]]].
  destruct Hmissing as [_ [_ [Hmissing _]]].
  split; [|split].
  - apply Hroot. cbn. intros H. discriminate H.
  - apply (Hcarol eq_refl backend_job eq_refl). cbn. intros H. discriminate H.
  - apply (Hmissing eq_refl eq_refl).
Defined.

(** X9.  After a successful [put] or [patch] the owner reads the updated posting
    back; its id, its employer and its creation time are the old ones; every
    other posting is as before; applications, users and the cache entry are
    not touched. *)
Theorem job_update_read_back :
  forall h st u id data loc_pk c j' st',
    h = JobPostingDetailView.put \/ h = JobPostingDetailView.patch ->
    h st u id data loc_pk = (Success c j', st') ->
    JobPostingDetailView.get st' u id = (Success HTTP_200_OK j', st') /\
    (exists j, get_posting st id = Some j /\ posting_id j' = posting_id j /\
               employer j' = employer j /\ created_at j' = created_at j) /\
    (forall id', id' <> id -> get_posting st' id' = get_posting st id') /\
    job_applications st' = job_applications st /\
    users st' = users st /\
    active_jobs_queryset st' = active_jobs_queryset st.
Proof.
  intros h st u id data loc_pk c j' st' Hh H.
  destruct (update_method_cases h Hh) as [m [partial [Hm Heq]]].
  rewrite Heq in H. exact (job_update_read_back_gen _ _ _ _ _ _ _ _ _ _ Hm H).
Qed.

Lemma job_update_read_back_witness :
  exists j' st',
    JobPostingDetailView.patch board bob 10 deactivate_data 50 = (Success HTTP_200_OK j', st') /\
    is_active j' = false /\
    JobPostingDetailView.get st' bob 10 = (Success HTTP_200_OK j', st').
Proof.
  eexists. eexists. split; [reflexivity|]. split; [reflexivity|].
  exact (proj1 (job_update_read_back _ board bob 10 deactivate_data 50 _ _ _
                  (or_intror eq_refl) eq_refl)).
Defined.

(** X10.  The location of a posting is replaced as a whole or not at all.  A
    [put] or [patch] that carries some but not all of the three location
    fields never succeeds and changes nothing.  A successful one without them
    keeps the location and the location table; one with all three sets the
    location to a row of the table that has exactly this triple, each value
    stripped of surrounding whitespace. *)
Theorem job_update_location_all_or_nothing :
  forall h st u id data loc_pk,
    h = JobPostingDetailView.put \/ h = JobPostingDetailView.patch ->
    let r := h st u id data loc_pk in
    (JobPostingSerializer.present (location_country data)
     || JobPostingSerializer.present (location_city data)
     || JobPostingSerializer.present (location_address data) = true ->
     JobPostingSerializer.present (location_country data)
     && JobPostingSerializer.present (location_city data)
     && JobPostingSerializer.present (location_address data) = false ->
     is_success (fst r) = false /\ snd r = st) /\
    (forall c j' st',
       r = (Success c j', st') ->
       (location_country data = None ->
        locations st' = locations st /\
        exists j, get_posting st id = Some j /\ location j' = location j) /\
       (forall lc lt la,
          location_country data = Some lc -> location_city data = Some lt ->
          location_address data = Some la ->
          exists l, In l (locations st') /\
                    triple_of l = (strip lc, strip lt, strip la) /\
                    location j' = Some (location_id l))).
Proof.
  intros h st u id data loc_pk Hh.
  destruct (update_method_cases h Hh) as [m [partial [_ Heq]]].
  rewrite Heq. apply job_update_location_gen.
Qed.

Lemma job_update_location_all_or_nothing_witness :
  is_success (fst (JobPostingDetailView.patch board bob 10 city_only_data 50)) = false /\
  snd (JobPostingDetailView.patch board bob 10 city_only_data 50) = board /\
  exists l, In l (locations (snd (JobPostingDetailView.put board bob 10 clerk_data 50))) /\
            triple_of l = ("US", "SF", "A1").
Proof.
  pose proof (job_update_location_all_or_nothing _ board bob 10 city_only_data 50
                (or_intror eq_refl)) as Hcity.
  pose proof (job_update_location_all_or_nothing _ board bob 10 clerk_data 50
                (or_introl eq_refl)) as Hall.
  cbv zeta in Hcity, Hall.
  destruct Hcity as [Hcity _]. destruct Hall as [_ Hall].
  destruct (Hcity eq_refl eq_refl) as [H1 H2].
  split; [exact H1|]. split; [exact H2|].
  destruct (Hall _ _ _ eq_refl) as [_ H3].
  destruct (H3 _ _ _ eq_refl eq_refl eq_refl) as [l [Hin [Htr _]]].
  exists l. split; [exact Hin | exact Htr].
Defined.

Lemma job_create_is_owned_and_listed_witness :
  exists row st',
    JobPostingListCreateView.post board bob clerk_data 20 50 300
      = (Success HTTP_201_CREATED row, st') /\
    employer row = 2 /\ title row = "Clerk" /\
    exists p st'',
      JobPostingListCreateView.get st' alice no_params = (Success HTTP_200_OK p, st'') /\
      count p = 3 /\ exists rest, results p = row :: rest.
Proof.
  do 2 eexists. split; [reflexivity|].
  destruct (job_create_is_owned_and_listed board bob clerk_data 20 50 300) as [H _].
  destruct (H _ _ _ eq_refl)
    as [_ [Hemp [_ [_ [Hact [_ [_ [_ [_ [_ [_ [_ Hlist]]]]]]]]]]]].
  split; [exact Hemp|]. split; [reflexivity|].
  destruct (Hlist alice ltac:(cbn; intros E; discriminate E))
    as [p [st'' [Hget [Hcount [_ Hfirst]]]]].
  exists p, st''. split; [exact Hget|]. split; [exact Hcount|].
  apply Hfirst; [exact Hact|].
  cbn. intros j Hj. repeat (destruct Hj as [Hj|Hj]; [subst j; cbn; lia|]). contradiction.
Defined.

Lemma application_detail_denials_witness :
  JobApplicationDetail.get board_applied carol 1 = (Failed Forbidden, board_applied) /\
  JobApplicationDetail.get board_applied carol 5 = (Failed NotFound, board_applied).
Proof.
  destruct (application_detail_denials board_applied carol 1) as [_ H1].
  destruct (application_detail_denials board_applied carol 5) as [H2 _].
  split; [|exact (H2 eq_refl)].
  destruct (H1 _ eq_refl) as [_ H]. apply (H eq_refl backend_job eq_refl).
  cbn. intros E. discriminate E.
Defined.


Lemma application_update_touches_one_row_witness :
  exists inst' st',
    JobApplicationDetail.put board_applied bob 1 (mkApplicationData None (Some "reviewed"))
      = (Success HTTP_200_OK inst', st') /\
    status inst' = "reviewed" /\ job_seeker inst' = 1 /\
    get_application st' 1 = Some inst'.
Proof.
  eexists. eexists. split; [reflexivity|].
  destruct (application_update_touches_one_row board_applied bob 1
              (mkApplicationData None (Some "reviewed")) _ _ _ (or_introl eq_refl))
    as [inst [Hget [Hget' [_ [Hseeker [_ [Hstatus _]]]]]]].
  cbn in Hget. inversion Hget; subst inst.
  split; [exact Hstatus|]. split; [exact Hseeker | exact Hget'].
Defined.

Lemma patch_repeated_changes_nothing_witness :
  exists inst' st',
    JobApplicationDetail.patch board_applied bob 1 (mkApplicationData None (Some "accepted"))
      = (Success HTTP_200_OK inst', st') /\
    queue st' = queue board_applied ++
                [send_application_accepted_email "alice@example.com" "Backend Engineer"] /\
    JobApplicationDetail.patch st' bob 1 (mkApplicationData None (Some "accepted"))
      = (Success HTTP_200_OK inst', st').
Proof.
  eexists. eexists. split; [reflexivity|]. split; [reflexivity|].
  exact (patch_repeated_changes_nothing board_applied bob 1
           (mkApplicationData None (Some "accepted")) _ _ _ eq_refl eq_refl).
Defined.


(** ** Invariants of the tables along any sequence of requests *)

Lemma profile_get_frame st u :
  job_applications (snd (UserProfileView.get st u)) = job_applications st /\
  job_postings (snd (UserProfileView.get st u)) = job_postings st /\
  locations (snd (UserProfileView.get st u)) = locations st /\
  users (snd (UserProfileView.get st u)) = users st.
Proof.
  unfold UserProfileView.get, UserProfileView.get_object. cbn.
  destruct (String.eqb (role u) "job_seeker").
  { destruct (find _ _); repeat split. }
  destruct (String.eqb (role u) "employer").
  { destruct (find _ _); repeat split. }
  destruct (String.eqb (role u) "admin"); repeat split.
Qed.

Lemma job_update_frame st u m partial id data loc_pk :
  job_applications (snd (JobPostingDetailView.update st u m partial id data loc_pk))
  = job_applications st.
Proof.
  destruct (JobPostingDetailView.update st u m partial id data loc_pk) as [[c j'|e] st'] eqn:H.
  - unfold JobPostingDetailView.update in H.
    destruct (check_permissions _ _); [|discriminate H].
    destruct (JobPostingDetailView.get_object _ _ _) as [? j|]; [|discriminate H].
    destruct (JobPostingSerializer.is_valid_update _ _) as [? v|]; [|discriminate H].
    pose proof (serializer_update_result st loc_pk j v) as Hres. cbn zeta in Hres.
    destruct (JobPostingSerializer.update st loc_pk j v) as [j1 st1].
    inversion H; subst. cbn in *. tauto.
  - apply job_update_failure in H. subst. reflexivity.
Qed.

Lemma handle_wide_applications_frame django st c :
  writes_applications c = false ->
  job_applications (handle_wide django st c) = job_applications st.
Proof.
  destruct c as [c | u id data loc_pk | u id data loc_pk | u]; cbn [handle_wide].
  - destruct c; cbn [writes_applications handle]; try discriminate; intros _.
    + unfold JobApplicationListCreate.get. destruct (check_permissions _ _); reflexivity.
    + unfold JobApplicationDetail.get. destruct (check_permissions _ _); reflexivity.
    + apply job_list_applications.
    + apply job_post_applications.
    + unfold JobPostingDetailView.get. destruct (check_permissions _ _); reflexivity.
    + apply register_frame.
    + apply verify_frame.
    + reflexivity.
  - intros _. apply job_update_frame.
  - intros _. apply job_update_frame.
  - intros _. apply profile_get_frame.
Qed.

Lemma status_ok_in s : status_ok (Some s) = true -> In s STATUS_CHOICES.
Proof.
  unfold status_ok. intros H. apply existsb_exists in H. destruct H as [x [Hin Hx]].
  apply String.eqb_eq in Hx. subst. exact Hin.
Qed.

Lemma updated_to_statuses st pk d inst' st' :
  updated_to st pk d inst' st' -> statuses_valid st -> statuses_valid st'.
Proof.
  intros [inst [v [c1 [Hget [Hu [Hs [Hok [_ [Hrows _]]]]]]]]] Hvalid.
  pose proof (update_result _ _ _ _ _ _ Hu) as [Hi _].
  pose proof (get_application_some _ _ _ Hget) as [_ Hin].
  unfold statuses_valid in *. rewrite Hrows. rewrite Forall_forall in *.
  intros a Ha. apply in_map_iff in Ha. destruct Ha as [r [Hr Hrin]].
  destruct (Nat.eqb (app_id r) (app_id inst')).
  - subst a. rewrite Hi. cbn. rewrite Hs.
    destruct (data_status d) as [s|]; [apply status_ok_in; exact Hok | apply Hvalid; exact Hin].
  - subst a. apply Hvalid. exact Hrin.
Qed.

(** The state [put] and [patch] leave, whatever they answer: the one they
    found, or the one with the row rewritten. *)
Lemma put_state_cases st u pk d :
  snd (JobApplicationDetail.put st u pk d) = st \/
  exists inst', updated_to st pk d inst' (snd (JobApplicationDetail.put st u pk d)).
Proof.
  destruct (JobApplicationDetail.put st u pk d) as [[c inst'|e] st'] eqn:H.
  - right. exists inst'. apply put_success_shape in H. exact H.
  - left. cbn. unfold JobApplicationDetail.put, JobApplicationDetail.perform_update in H.
    destruct (check_permissions _ _); [|inversion H; reflexivity].
    destruct (JobApplicationDetail.get_object _ _ _) as [? inst|];
      [|inversion H; reflexivity].
    destruct (JobApplicationSerializer.is_valid _ _ _ _) as [? v|];
      [|inversion H; reflexivity].
    destruct (JobApplicationSerializer.update st inst v) as [[? inst'|e1] st1] eqn:Hu;
      [discriminate H|].
    apply update_failure in Hu. inversion H; subst. tauto.
Qed.

Lemma patch_state_cases st u pk d :
  snd (JobApplicationDetail.patch st u pk d) = st \/
  exists inst', updated_to st pk d inst' (snd (JobApplicationDetail.patch st u pk d)).
Proof.
  destruct (JobApplicationDetail.patch st u pk d) as [[c inst'|e] st'] eqn:H.
  - right. exists inst'. apply patch_success_shape in H. exact H.
  - cbn. unfold JobApplicationDetail.patch, JobApplicationDetail.perform_update in H.
    destruct (check_permissions _ _); [|inversion H; auto].
    destruct (JobApplicationDetail.get_object _ _ _) as [? inst|] eqn:Hobj;
      [|inversion H; auto].
    destruct (JobApplicationSerializer.is_valid _ _ _ _) as [? v|] eqn:Hv;
      [|inversion H; auto].
    destruct (JobApplicationSerializer.update st inst v) as [[c1 inst1|e1] st1] eqn:Hu.
    2:{ apply update_failure in Hu. inversion H; subst. tauto. }
    cbn zeta in H. pose proof (update_twice _ _ _ _ _ _ Hu) as Hu2.
    destruct (negb (String.eqb (status inst) "accepted")
              && String.eqb (status inst1) "accepted").
    + destruct (JobApplicationDetail.accepted_email_args st1 inst1) as [[em ti]|].
      * rewrite update_delay, Hu2 in H. discriminate H.
      * inversion H; subst. right. exists inst1.
        apply get_object_some in Hobj.
        apply is_valid_update_fields in Hv; [|cbn; discriminate].
        destruct Hv as [Hs [Hok Hj]].
        pose proof (update_result _ _ _ _ _ _ Hu) as [Hi Hst].
        exists inst, v, c1. rewrite <- Hst. subst st'. repeat split; auto.
    + rewrite Hu2 in H. discriminate H.
Qed.

Lemma handle_wide_statuses django st c :
  statuses_valid st -> statuses_valid (handle_wide django st c).
Proof.
  intros Hvalid. destruct (writes_applications c) eqn:Hw.
  - destruct c as [c | | | ]; try discriminate Hw.
    destruct c; try discriminate Hw; cbn [handle_wide handle].
    + destruct (JobApplicationListCreate.post st u data now) as [[cd row|e] st'] eqn:Hp.
      * pose proof (post_success _ _ _ _ _ _ _ Hp) as Hs.
        destruct Hs as [pk [j [_ [_ [_ [_ [Hok [_ [_ [Hrow Hst]]]]]]]]]].
        unfold statuses_valid in *. subst st'. cbn. apply Forall_app. split; [exact Hvalid|].
        constructor; [|constructor]. subst row. cbn.
        destruct (data_status data) as [s|]; [apply status_ok_in; exact Hok | left; reflexivity].
      * apply post_failure in Hp. destruct Hp as [Hst _]. subst st'. exact Hvalid.
    + destruct (put_state_cases st u pk data) as [H | [inst' H]].
      * rewrite H. exact Hvalid.
      * exact (updated_to_statuses _ _ _ _ _ H Hvalid).
    + destruct (patch_state_cases st u pk data) as [H | [inst' H]].
      * rewrite H. exact Hvalid.
      * exact (updated_to_statuses _ _ _ _ _ H Hvalid).
  - unfold statuses_valid. rewrite (handle_wide_applications_frame django st c Hw).
    exact Hvalid.
Qed.

(** X11.  Whatever the requests, every stored application carries one of the
    four status values. *)
Theorem statuses_stay_valid :
  forall django calls st,
    statuses_valid st -> statuses_valid (handle_all_wide django st calls).
Proof.
  intros django calls. unfold handle_all_wide.
  induction calls as [|c calls IH]; intros st Hvalid; [exact Hvalid|].
  cbn. apply IH. apply handle_wide_statuses. exact Hvalid.
Qed.

Lemma updated_to_frame st pk d inst' st' :
  updated_to st pk d inst' st' ->
  job_postings st' = job_postings st /\ locations st' = locations st.
Proof.
  intros [inst [v [c1 H]]]. repeat
    match goal with H : _ /\ _ |- _ => destruct H end.
  auto.
Qed.

Lemma handle_wide_postings_frame django st c :
  writes_postings c = false ->
  job_postings (handle_wide django st c) = job_postings st /\
  locations (handle_wide django st c) = locations st.
Proof.
  destruct c as [c | u id data loc_pk | u id data loc_pk | u]; cbn [handle_wide];
    try discriminate.
  - destruct c; cbn [writes_postings handle]; try discriminate; intros _.
    + unfold JobApplicationListCreate.get. destruct (check_permissions _ _); auto.
    + destruct (JobApplicationListCreate.post st u data now) as [[cd row|e] st'] eqn:Hp.
      * apply post_success in Hp.
        destruct Hp as [pk [j [_ [_ [_ [_ [_ [_ [_ [_ Hst]]]]]]]]]]. subst st'. auto.
      * apply post_failure in Hp. destruct Hp as [Hst _]. subst st'. auto.
    + unfold JobApplicationDetail.get. destruct (check_permissions _ _); auto.
    + destruct (put_state_cases st u pk data) as [H | [inst' H]].
      * rewrite H. auto.
      * destruct (updated_to_frame _ _ _ _ _ H) as [Hjs Hl]. auto.
    + destruct (patch_state_cases st u pk data) as [H | [inst' H]].
      * rewrite H. auto.
      * destruct (updated_to_frame _ _ _ _ _ H) as [Hjs Hl]. auto.
    + rewrite get_state.
      pose proof (get_queryset_tables st (mkRequest GET u)) as H. cbv zeta in H. tauto.
    + unfold JobPostingDetailView.get. destruct (check_permissions _ _); auto.
    + unfold RegisterView.create.
      destruct (RegisterSerializer.is_valid django st data) as [? v|]; [|auto].
      unfold RegisterSerializer.create, CustomUserManager.create_user.
      destruct (String.eqb (validated_email v) ""); [auto|].
      destruct (existsb _ _); [auto|]. cbn.
      destruct (String.eqb (validated_role v) "job_seeker").
      { destruct (find _ _); auto. }
      destruct (String.eqb (validated_role v) "employer").
      { destruct (find _ _); auto. }
      destruct (String.eqb (validated_role v) "admin"); auto.
    + unfold VerifyEmailView.get.
      destruct (match token_param with Some t => get_token st t | None => None end)
        as [vt|]; [|auto].
      destruct (get_user st (vt_user vt)) as [x|]; [|auto].
      destruct (negb (is_email_verified x)); auto.
    + auto.
  - intros _. pose proof (profile_get_frame st u). tauto.
Qed.

Lemma get_posting_app st rows k :
  find (fun j => Nat.eqb (posting_id j) k) (job_postings st) <> None ->
  find (fun j => Nat.eqb (posting_id j) k) (job_postings st ++ rows) <> None.
Proof.
  destruct (find _ (job_postings st)) as [j|] eqn:Hf; [|congruence].
  intros _. rewrite (find_app_some _ _ rows _ Hf). discriminate.
Qed.

(** Rewriting a posting keeps every id of the table. *)
Lemma job_update_keeps_ids st u m partial id data loc_pk k :
  get_posting st k <> None ->
  get_posting (snd (JobPostingDetailView.update st u m partial id data loc_pk)) k <> None.
Proof.
  intros Hk.
  destruct (JobPostingDetailView.update st u m partial id data loc_pk) as [[c j'|e] st'] eqn:H.
  - unfold JobPostingDetailView.update in H.
    destruct (check_permissions _ _); [|discriminate H].
    destruct (JobPostingDetailView.get_object _ _ _) as [? j|]; [|discriminate H].
    destruct (JobPostingSerializer.is_valid_update _ _) as [? v|]; [|discriminate H].
    pose proof (serializer_update_result st loc_pk j v) as Hres. cbn zeta in Hres.
    destruct (JobPostingSerializer.update st loc_pk j v) as [j1 st1].
    inversion H; subst. cbn in *.
    destruct Hres as [Hid [_ [_ [Hrows _]]]].
    unfold get_posting in *. rewrite Hrows, find_map_posting.
    + destruct (find _ (job_postings st)); [discriminate | congruence].
    + intros r. destruct (Nat.eqb (posting_id r) (posting_id j)) eqn:E; [|reflexivity].
      apply Nat.eqb_eq in E. congruence.
  - apply job_update_failure in H. subst. exact Hk.
Qed.

Lemma updated_to_jobs_exist st pk d inst' st' :
  updated_to st pk d inst' st' -> jobs_exist st -> jobs_exist st'.
Proof.
  intros [inst [v [c1 [Hget [Hu [_ [_ [Hj [Hrows [_ [Hjs _]]]]]]]]]]] Hex.
  pose proof (update_result _ _ _ _ _ _ Hu) as [Hi _].
  pose proof (get_application_some _ _ _ Hget) as [_ Hin].
  unfold jobs_exist, get_posting in *. rewrite Hrows, Hjs. rewrite Forall_forall in *.
  intros a Ha. apply in_map_iff in Ha. destruct Ha as [r [Hr Hrin]].
  destruct (Nat.eqb (app_id r) (app_id inst')).
  - subst a. rewrite Hi. cbn. destruct (data_job_id d) as [j_id|].
    + destruct Hj as [j [Hfound Hvj]]. rewrite Hvj.
      pose proof (get_posting_some _ _ _ Hfound) as [Hid _]. rewrite Hid.
      unfold get_posting in Hfound. rewrite Hfound. discriminate.
    + rewrite Hj. apply Hex. exact Hin.
  - subst a. apply Hex. exact Hrin.
Qed.

Lemma handle_wide_jobs_exist django st c :
  jobs_exist st -> jobs_exist (handle_wide django st c).
Proof.
  intros Hex.
  destruct (writes_applications c) eqn:Hw; [|destruct (writes_postings c) eqn:Hp].
  - destruct c as [c | | | ]; try discriminate Hw.
    destruct c; try discriminate Hw; cbn [handle_wide handle].
    + destruct (JobApplicationListCreate.post st u data now) as [[cd row|e] st'] eqn:Hp.
      * pose proof (post_success _ _ _ _ _ _ _ Hp) as Hs.
        destruct Hs as [pk [j [_ [_ [Hj [_ [_ [_ [_ [Hrow Hst]]]]]]]]]].
        pose proof (get_posting_some _ _ _ Hj) as [Hid _].
        unfold jobs_exist in *. subst st'. cbn. apply Forall_app. split; [exact Hex|].
        constructor; [|constructor]. subst row. cbn. rewrite Hid.
        change (get_posting st pk <> None). rewrite Hj. discriminate.
      * apply post_failure in Hp. destruct Hp as [Hst _]. subst st'. exact Hex.
    + destruct (put_state_cases st u pk data) as [H | [inst' H]].
      * rewrite H. exact Hex.
      * exact (updated_to_jobs_exist _ _ _ _ _ H Hex).
    + destruct (patch_state_cases st u pk data) as [H | [inst' H]].
      * rewrite H. exact Hex.
      * exact (updated_to_jobs_exist _ _ _ _ _ H Hex).
  - pose proof (handle_wide_applications_frame django st c Hw) as Happs.
    unfold jobs_exist in *. rewrite Happs. rewrite Forall_forall in *.
    intros a Ha. specialize (Hex a Ha).
    destruct c as [c | u id data loc_pk | u id data loc_pk | u]; try discriminate Hp;
      cbn [handle_wide].
    + destruct c; try discriminate Hp. cbn [handle].
      destruct (JobPostingListCreateView.post st u data pk loc_pk now)
        as [[cd row|e] st'] eqn:Hpost.
      * apply job_post_success in Hpost.
        destruct Hpost as [t [d [s [cat [jt [lc [lt [la H]]]]]]]].
        destruct H as [_ [_ [_ [_ [_ [_ [_ [_ [_ [_ [_ [_ Hst]]]]]]]]]]]].
        cbn zeta in Hst. subst st'. cbn. unfold get_posting. cbn.
        apply get_posting_app. exact Hex.
      * apply job_post_failure in Hpost. destruct Hpost as [Hst _]. subst st'. exact Hex.
    + apply job_update_keeps_ids. exact Hex.
    + apply job_update_keeps_ids. exact Hex.
  - pose proof (handle_wide_applications_frame django st c Hw) as Happs.
    pose proof (handle_wide_postings_frame django st c Hp) as [Hposts _].
    unfold jobs_exist, get_posting in *. rewrite Happs, Hposts. exact Hex.
Qed.

(** X12.  Whatever the requests, no stored application points to a posting that
    is not in the table. *)
Theorem application_jobs_stay_present :
  forall django calls st,
    jobs_exist st -> jobs_exist (handle_all_wide django st calls).
Proof.
  intros django calls. unfold handle_all_wide.
  induction calls as [|c calls IH]; intros st Hex; [exact Hex|].
  cbn. apply IH. apply handle_wide_jobs_exist. exact Hex.
Qed.

Lemma serializer_update_locations st loc_pk j v :
  locations_unique st ->
  locations_unique (snd (JobPostingSerializer.update st loc_pk j v)).
Proof.
  intros Hu. unfold JobPostingSerializer.update. cbn zeta.
  destruct (JobPostingSerializer.truthy_str _ && JobPostingSerializer.truthy_str _
            && JobPostingSerializer.truthy_str _).
  - match goal with |- context [JobPostingSerializer.get_or_create ?r ?f ?c ?t ?a] =>
      pose proof (get_or_create_spec r f c t a) as Hspec;
      destruct (JobPostingSerializer.get_or_create r f c t a) as [l locs]
    end.
    cbn in *. destruct Hspec as [_ [_ [Hnd _]]]. exact (Hnd Hu).
  - exact Hu.
Qed.

Lemma handle_wide_locations django st c :
  locations_unique st -> locations_unique (handle_wide django st c).
Proof.
  intros Hu. destruct (writes_postings c) eqn:Hp.
  - assert (Hupd : forall u m partial id data loc_pk,
               locations_unique
                 (snd (JobPostingDetailView.update st u m partial id data loc_pk))).
    { intros u m partial id data loc_pk. unfold JobPostingDetailView.update.
      destruct (check_permissions _ _); [|exact Hu].
      destruct (JobPostingDetailView.get_object _ _ _) as [? j|]; [|exact Hu].
      destruct (JobPostingSerializer.is_valid_update _ _) as [? v|]; [|exact Hu].
      pose proof (serializer_update_locations st loc_pk j v Hu) as H.
      destruct (JobPostingSerializer.update st loc_pk j v). exact H. }
    destruct c as [c | u id data loc_pk | u id data loc_pk | u]; try discriminate Hp;
      cbn [handle_wide]; [|apply Hupd | apply Hupd].
    destruct c; try discriminate Hp. cbn [handle].
    destruct (JobPostingListCreateView.post st u data pk loc_pk now)
      as [[cd row|e] st'] eqn:Hpost.
    + apply job_post_success in Hpost.
      destruct Hpost as [t [d [s [cat [jt [lc [lt [la H]]]]]]]].
      destruct H as [_ [_ [_ [_ [_ [_ [_ [_ [_ [_ [_ [_ Hst]]]]]]]]]]]].
      cbn zeta in Hst. subst st'. unfold locations_unique. cbn.
      pose proof (get_or_create_spec (locations st) loc_pk lc lt la) as Hspec.
      cbn zeta in Hspec. destruct Hspec as [_ [_ [Hnd _]]]. exact (Hnd Hu).
    + apply job_post_failure in Hpost. destruct Hpost as [Hst _]. subst st'. exact Hu.
  - pose proof (handle_wide_postings_frame django st c Hp) as [_ Hl].
    unfold locations_unique in *. rewrite Hl. exact Hu.
Qed.

(** X13.  Whatever the requests, no two rows of the location table carry the same
    (country, city, address). *)
Theorem location_triples_stay_unique :
  forall django calls st,
    locations_unique st -> locations_unique (handle_all_wide django st calls).
Proof.
  intros django calls. unfold handle_all_wide.
  induction calls as [|c calls IH]; intros st Hu; [exact Hu|].
  cbn. apply IH. apply handle_wide_locations. exact Hu.
Qed.

Lemma statuses_stay_valid_witness :
  statuses_valid board_applied /\
  statuses_valid (handle_all_wide plain_django board_applied busy_day).
Proof.
  assert (H : statuses_valid board_applied).
  { unfold statuses_valid. cbn. apply Forall_cons; [auto 10 | apply Forall_nil]. }
  split; [exact H | exact (statuses_stay_valid plain_django busy_day board_applied H)].
Defined.

Lemma application_jobs_stay_present_witness :
  jobs_exist board_applied /\
  jobs_exist (handle_all_wide plain_django board_applied busy_day).
Proof.
  assert (H : jobs_exist board_applied).
  { unfold jobs_exist. cbn.
    apply Forall_cons; [intros E; discriminate E | apply Forall_nil]. }
  split; [exact H | exact (application_jobs_stay_present plain_django busy_day board_applied H)].
Defined.

Lemma location_triples_stay_unique_witness :
  locations_unique board_applied /\
  locations_unique (handle_all_wide plain_django board_applied busy_day).
Proof.
  assert (H : locations_unique board_applied).
  { unfold locations_unique. cbn. apply NoDup_nil. }
  split; [exact H | exact (location_triples_stay_unique plain_django busy_day board_applied H)].
Defined.

Lemma busy_day_outcome :
  map (fun a => (app_id a, job a, status a))
    (job_applications (handle_all_wide plain_django board_applied busy_day))
  = [(1, 11, "rejected"); (2, 12, "accepted")] /\
  map triple_of (locations (handle_all_wide plain_django board_applied busy_day))
  = [("US", "SF", "A1")].
Proof. split; reflexivity. Qed.

(** ** jobs: one row per location *)

Lemma get_or_create_find rows fresh c t a :
  let r := JobPostingSerializer.get_or_create rows fresh c t a in
  find (has_triple c t a) (snd r) = Some (fst r) /\
  exists extra, snd r = rows ++ extra.
Proof.
  unfold JobPostingSerializer.get_or_create. fold (has_triple c t a).
  destruct (find (has_triple c t a) rows) as [l|] eqn:Hf; cbn.
  - split; [exact Hf|]. exists []. symmetry. apply app_nil_r.
  - split.
    + rewrite (find_app_none _ _ _ Hf). cbn. unfold has_triple. cbn.
      rewrite !String.eqb_refl. reflexivity.
    + eexists. reflexivity.
Qed.

Lemma serializer_update_locations_grow st loc_pk j v :
  exists extra,
    locations (snd (JobPostingSerializer.update st loc_pk j v)) = locations st ++ extra.
Proof.
  unfold JobPostingSerializer.update. cbn zeta.
  destruct (JobPostingSerializer.truthy_str _ && JobPostingSerializer.truthy_str _
            && JobPostingSerializer.truthy_str _).
  - match goal with |- context [JobPostingSerializer.get_or_create ?r ?f ?c ?t ?a] =>
      pose proof (get_or_create_find r f c t a) as Hspec;
      destruct (JobPostingSerializer.get_or_create r f c t a) as [l locs]
    end.
    cbn in *. destruct Hspec as [_ Hgrow]. exact Hgrow.
  - exists []. cbn. symmetry. apply app_nil_r.
Qed.

(** No request removes or rewrites a row of the location table. *)
Lemma handle_wide_locations_grow django st c :
  exists extra, locations (handle_wide django st c) = locations st ++ extra.
Proof.
  assert (Hsame : exists extra, locations st = locations st ++ extra)
    by (exists []; symmetry; apply app_nil_r).
  destruct (writes_postings c) eqn:Hp.
  - assert (Hupd : forall u m partial id data loc_pk,
               exists extra,
                 locations (snd (JobPostingDetailView.update st u m partial id data loc_pk))
                 = locations st ++ extra).
    { intros u m partial id data loc_pk. unfold JobPostingDetailView.update.
      destruct (check_permissions _ _); [|exact Hsame].
      destruct (JobPostingDetailView.get_object _ _ _) as [? j|]; [|exact Hsame].
      destruct (JobPostingSerializer.is_valid_update _ _) as [? v|]; [|exact Hsame].
      pose proof (serializer_update_locations_grow st loc_pk j v) as H.
      destruct (JobPostingSerializer.update st loc_pk j v). exact H. }
    destruct c as [c | u id data loc_pk | u id data loc_pk | u]; try discriminate Hp;
      cbn [handle_wide]; [|apply Hupd | apply Hupd].
    destruct c; try discriminate Hp. cbn [handle].
    destruct (JobPostingListCreateView.post st u data pk loc_pk now)
      as [[cd row|e] st'] eqn:Hpost.
    + apply job_post_success in Hpost.
      destruct Hpost as [t [d [s [cat [jt [lc [lt [la H]]]]]]]].
      destruct H as [_ [_ [_ [_ [_ [_ [_ [_ [_ [_ [_ [_ Hst]]]]]]]]]]]].
      cbn zeta in Hst. subst st'. cbn.
      exact (proj2 (get_or_create_find (locations st) loc_pk lc lt la)).
    + apply job_post_failure in Hpost. destruct Hpost as [Hst _]. subst st'. exact Hsame.
  - pose proof (handle_wide_postings_frame django st c Hp) as [_ Hl].
    rewrite Hl. exact Hsame.
Qed.

Lemma handle_all_wide_locations_grow django calls :
  forall st, exists extra,
    locations (handle_all_wide django st calls) = locations st ++ extra.
Proof.
  unfold handle_all_wide.
  induction calls as [|c calls IH]; intros st.
  - exists []. cbn. symmetry. apply app_nil_r.
  - cbn. destruct (IH (handle_wide django st c)) as [e2 H2].
    destruct (handle_wide_locations_grow django st c) as [e1 H1].
    exists (e1 ++ e2). rewrite H2, H1. symmetry. apply app_assoc.
Qed.

Lemma handle_all_wide_locations_unique django calls :
  forall st, locations_unique st -> locations_unique (handle_all_wide django st calls).
Proof.
  unfold handle_all_wide.
  induction calls as [|c calls IH]; intros st Hu; [exact Hu|].
  cbn. apply IH. apply handle_wide_locations. exact Hu.
Qed.

Lemma NoDup_map_eq {A B} (f : A -> B) (l : list A) x y :
  NoDup (map f l) -> In x l -> In y l -> f x = f y -> x = y.
Proof.
  induction l as [|h t IH]; cbn; [tauto|].
  intros Hnd Hx Hy Hf. inversion Hnd as [|? ? Hnot Hnd']; subst.
  destruct Hx as [Hx | Hx], Hy as [Hy | Hy].
  - congruence.
  - subst h. exfalso. apply Hnot. rewrite Hf. apply in_map. exact Hy.
  - subst h. exfalso. apply Hnot. rewrite <- Hf. apply in_map. exact Hx.
  - auto.
Qed.

Lemma find_by_id (rows : list Location) l :
  NoDup (map location_id rows) -> In l rows ->
  find (fun l' => Nat.eqb (location_id l') (location_id l)) rows = Some l.
Proof.
  intros Hnd Hin.
  destruct (find (fun l' => Nat.eqb (location_id l') (location_id l)) rows) as [l'|] eqn:Hf.
  - apply find_some in Hf. destruct Hf as [Hin' He]. apply Nat.eqb_eq in He.
    f_equal. exact (NoDup_map_eq location_id rows l' l Hnd Hin' Hin He).
  - pose proof (find_none _ _ Hf l Hin) as He. cbn in He.
    rewrite Nat.eqb_refl in He. discriminate.
Qed.

(** X7.  A posting created with a location points to a row of the location
    table that carries the three values sent, stripped; the row is inserted
    when the table had none with these values and no row is added otherwise.
    A later posting created with the same three values, whatever requests
    were served in between, points to that same row, which is still in the
    table, and its creation adds no row.  When the table held no two rows
    with the same values, the row is the only one with its values; when no
    two rows share an id, both postings are joined with it. *)
Theorem job_create_reuses_location :
  forall django st u1 data1 pk1 lk1 now1 c1 row1 st1 calls
         u2 data2 pk2 lk2 now2 c2 row2 st2,
    JobPostingListCreateView.post st u1 data1 pk1 lk1 now1 = (Success c1 row1, st1) ->
    JobPostingListCreateView.post (handle_all_wide django st1 calls) u2 data2 pk2 lk2 now2
      = (Success c2 row2, st2) ->
    option_map strip (location_country data2) = option_map strip (location_country data1) ->
    option_map strip (location_city data2) = option_map strip (location_city data1) ->
    option_map strip (location_address data2) = option_map strip (location_address data1) ->
    exists l,
      In l (locations st1) /\ In l (locations st2) /\
      option_map strip (location_country data1) = Some (country l) /\
      option_map strip (location_city data1) = Some (city l) /\
      option_map strip (location_address data1) = Some (address l) /\
      location row1 = Some (location_id l) /\
      location row2 = Some (location_id l) /\
      locations st2 = locations (handle_all_wide django st1 calls) /\
      ((exists l0, In l0 (locations st) /\ triple_of l0 = triple_of l) ->
       locations st1 = locations st) /\
      ((forall l0, In l0 (locations st) -> triple_of l0 <> triple_of l) ->
       locations st1 = locations st ++ [l] /\ location_id l = lk1) /\
      (locations_unique st ->
       forall l', In l' (locations st2) -> triple_of l' = triple_of l -> l' = l) /\
      (NoDup (map location_id (locations st2)) ->
       JobPostingFilter.location_of st2 row1 = Some l /\
       JobPostingFilter.location_of st2 row2 = Some l).
Proof.
  intros django st u1 data1 pk1 lk1 now1 c1 row1 st1 calls
    u2 data2 pk2 lk2 now2 c2 row2 st2 H1 H2 Hc Ht Ha.
  apply job_post_success in H1, H2.
  destruct H1 as [t [d [s [cat [jt [lc [lt [la H1]]]]]]]].
  destruct H1 as [_ [_ [_ [_ [_ [_ [_ [_ [Hlc [Hlt [Hla [Hrow1 Hst1]]]]]]]]]]]].
  destruct H2 as [t' [d' [s' [cat' [jt' [lc' [lt' [la' H2]]]]]]]].
  destruct H2 as [_ [_ [_ [_ [_ [_ [_ [_ [Hlc' [Hlt' [Hla' [Hrow2 Hst2]]]]]]]]]]]].
  cbn zeta in *.
  assert (lc' = lc) by congruence. assert (lt' = lt) by congruence.
  assert (la' = la) by congruence. subst lc' lt' la'.
  pose proof (get_or_create_spec (locations st) lk1 lc lt la) as Hspec. cbn zeta in Hspec.
  pose proof (get_or_create_find (locations st) lk1 lc lt la) as Hfind. cbn zeta in Hfind.
  destruct (JobPostingSerializer.get_or_create (locations st) lk1 lc lt la) as [l locs1]
    eqn:Hg1.
  cbn [fst snd] in *.
  destruct Hspec as [Hin1 [Htriple [Hnd [_ [Hold _]]]]].
  destruct Hfind as [Hfound _].
  assert (Hlocs1 : locations st1 = locs1) by (subst st1; reflexivity).
  destruct (handle_all_wide_locations_grow django calls st1) as [extra Hmid].
  assert (Hfound' : find (has_triple lc lt la)
                      (locations (handle_all_wide django st1 calls)) = Some l).
  { rewrite Hmid, Hlocs1. apply find_app_some. exact Hfound. }
  assert (Hg2 : JobPostingSerializer.get_or_create
                  (locations (handle_all_wide django st1 calls)) lk2 lc lt la
                = (l, locations (handle_all_wide django st1 calls))).
  { unfold JobPostingSerializer.get_or_create. fold (has_triple lc lt la).
    rewrite Hfound'. reflexivity. }
  rewrite Hg2 in Hrow2, Hst2. cbn [fst snd] in Hrow2, Hst2.
  assert (Hlocs2 : locations st2 = locations (handle_all_wide django st1 calls))
    by (rewrite Hst2; reflexivity).
  assert (Hin2 : In l (locations st2)).
  { rewrite Hlocs2, Hmid, Hlocs1. apply in_or_app. left. exact Hin1. }
  assert (Hl1 : location row1 = Some (location_id l)) by (rewrite Hrow1; reflexivity).
  assert (Hl2 : location row2 = Some (location_id l)) by (rewrite Hrow2; reflexivity).
  unfold triple_of in Htriple. inversion Htriple as [[Hcl Htl Hal]].
  exists l. rewrite Hlocs1.
  split; [exact Hin1|]. split; [exact Hin2|].
  split; [rewrite Hcl; exact Hlc|]. split; [rewrite Htl; exact Hlt|].
  split; [rewrite Hal; exact Hla|].
  split; [exact Hl1|]. split; [exact Hl2|]. split; [exact Hlocs2|].
  split; [|split; [|split]].
  - intros [l0 [Hin0 Ht0]]. apply Hold. exists l0. split; [exact Hin0|].
    rewrite Ht0. unfold triple_of. rewrite Hcl, Htl, Hal. reflexivity.
  - intros Hnone. unfold JobPostingSerializer.get_or_create in Hg1.
    fold (has_triple lc lt la) in Hg1.
    destruct (find (has_triple lc lt la) (locations st)) as [l0|] eqn:Hf.
    + exfalso. apply find_some in Hf. destruct Hf as [Hin0 Ht0].
      apply has_triple_true in Ht0. apply (Hnone l0 Hin0).
      rewrite Ht0. unfold triple_of. rewrite Hcl, Htl, Hal. reflexivity.
    + inversion Hg1; subst l locs1. split; reflexivity.
  - intros Hu l' Hin' Ht'.
    assert (Hu2 : NoDup (map triple_of (locations st2))).
    { rewrite Hlocs2. apply handle_all_wide_locations_unique.
      unfold locations_unique. rewrite Hlocs1. exact (Hnd Hu). }
    exact (NoDup_map_eq triple_of (locations st2) l' l Hu2 Hin' Hin2 Ht').
  - intros Hids. unfold JobPostingFilter.location_of. rewrite Hl1, Hl2.
    split; apply find_by_id; assumption.
Qed.

Lemma job_create_reuses_location_witness :
  exists row1 st1 row2 st2,
    JobPostingListCreateView.post board bob clerk_data 20 50 300
      = (Success HTTP_201_CREATED row1, st1) /\
    JobPostingListCreateView.post (handle_all_wide plain_django st1 between_postings)
      carol clerk_data_spaced 21 51 301
      = (Success HTTP_201_CREATED row2, st2) /\
    map triple_of (locations st2) = [("US", "SF", "A1"); ("NO", "Oslo", "B2")] /\
    exists l,
      In l (locations st1) /\ In l (locations st2) /\
      option_map strip (location_country clerk_data) = Some (country l) /\
      option_map strip (location_city clerk_data) = Some (city l) /\
      option_map strip (location_address clerk_data) = Some (address l) /\
      location row1 = Some (location_id l) /\
      location row2 = Some (location_id l) /\
      locations st2 = locations (handle_all_wide plain_django st1 between_postings) /\
      ((exists l0, In l0 (locations board) /\ triple_of l0 = triple_of l) ->
       locations st1 = locations board) /\
      ((forall l0, In l0 (locations board) -> triple_of l0 <> triple_of l) ->
       locations st1 = locations board ++ [l] /\ location_id l = 50) /\
      (locations_unique board ->
       forall l', In l' (locations st2) -> triple_of l' = triple_of l -> l' = l) /\
      (NoDup (map location_id (locations st2)) ->
       JobPostingFilter.location_of st2 row1 = Some l /\
       JobPostingFilter.location_of st2 row2 = Some l).
Proof.
  do 4 eexists. split; [reflexivity|]. split; [reflexivity|]. split; [reflexivity|].
  exact (job_create_reuses_location plain_django board bob clerk_data 20 50 300 _ _ _
           between_postings carol clerk_data_spaced 21 51 301 _ _ _
           eq_refl eq_refl eq_refl eq_refl eq_refl).
Defined.

(** X14.  [JobApplicationsView]: the permission check lets an employer through
    and nobody else, an admin included; the list holds the applications to
    the requested posting when the requester is its employer, and is empty
    for every other posting and every other requester. *)
Theorem applications_of_job_owner_only :
  forall st m u id a,
    (check_permissions JobApplicationsView.permission_classes (mkRequest m u)
       = Success HTTP_200_OK tt <-> role u = "employer") /\
    (In a (JobApplicationsView.get_queryset st (mkRequest m u) (Some id)) <->
       In a (job_applications st) /\ job a = id /\
       exists j, In j (job_postings st) /\ posting_id j = id /\ employer j = user_id u) /\
    JobApplicationsView.get_queryset st (mkRequest m u) None = [].
Proof.
  intros st m u id a. split; [|split; [|reflexivity]].
  - unfold check_permissions. cbn.
    destruct (String.eqb (role u) "employer") eqn:E.
    + apply String.eqb_eq in E. split; auto.
    + apply String.eqb_neq in E. split; [intros H; discriminate H | intros H; contradiction].
  - unfold JobApplicationsView.get_queryset. cbn.
    destruct (find _ (job_postings st)) as [j|] eqn:Hf.
    + apply find_some in Hf. destruct Hf as [Hin Hj].
      apply andb_true_iff in Hj. destruct Hj as [Hid Hemp].
      apply Nat.eqb_eq in Hid. apply Nat.eqb_eq in Hemp.
      rewrite filter_In, Nat.eqb_eq, Hid. split.
      * intros [Ha Hjob]. split; [exact Ha|]. split; [exact Hjob|].
        exists j. auto.
      * intros [Ha [Hjob _]]. auto.
    + split; [intros H; contradiction|].
      intros [_ [_ [j [Hin [Hid Hemp]]]]].
      pose proof (find_none _ _ Hf j Hin) as Hn. cbn in Hn.
      rewrite (proj2 (Nat.eqb_eq _ _) Hid), (proj2 (Nat.eqb_eq _ _) Hemp) in Hn.
      discriminate Hn.
Qed.

Lemma applications_of_job_owner_only_witness :
  check_permissions JobApplicationsView.permission_classes (mkRequest GET root)
    <> Success HTTP_200_OK tt /\
  In (mkJobApplication 1 10 1 "submitted" 1000)
    (JobApplicationsView.get_queryset board_applied (mkRequest GET bob) (Some 10)) /\
  ~ In (mkJobApplication 1 10 1 "submitted" 1000)
      (JobApplicationsView.get_queryset board_applied (mkRequest GET carol) (Some 10)).
Proof.
  split; [|split].
  - intros E.
    apply (proj1 (proj1 (applications_of_job_owner_only board_applied GET root 10
                           (mkJobApplication 1 10 1 "submitted" 1000)))) in E.
    discriminate E.
  - apply (proj2 (proj1 (proj2 (applications_of_job_owner_only board_applied GET bob 10
                                  (mkJobApplication 1 10 1 "submitted" 1000))))).
    split; [left; reflexivity|]. split; [reflexivity|].
    exists backend_job. split; [left; reflexivity|]. split; reflexivity.
  - intros Hin.
    apply (proj1 (proj1 (proj2 (applications_of_job_owner_only board_applied GET carol 10
                                  (mkJobApplication 1 10 1 "submitted" 1000))))) in Hin.
    destruct Hin as [_ [_ [j [Hj [Hid Hemp]]]]].
    cbn in Hj. destruct Hj as [Hj|[Hj|[Hj|Hj]]]; try contradiction;
      subst j; discriminate.
Defined.


(** ** Accounts: registration, verification, profile, password reset *)

Lemma is_valid_email django st data c v :
  RegisterSerializer.is_valid django st data = Success c v ->
  option_map strip (data_email data) = Some (validated_email v) /\
  String.eqb (validated_email v) "" = false /\
  existsb (fun u => String.eqb (email u) (validated_email v)) (users st) = false.
Proof.
  unfold RegisterSerializer.is_valid, bind. intros Hv.
  destruct (RegisterSerializer.email_field django st (data_email data)) as [ce e|] eqn:He;
    [|discriminate Hv].
  apply email_field_success in He. destruct He as [raw [Hd [He [Hblank Hfree]]]].
  destruct (RegisterSerializer.password_field (data_password data)); [|discriminate Hv].
  destruct (RegisterSerializer.name_field (data_first_name data)); [|discriminate Hv].
  destruct (RegisterSerializer.name_field (data_last_name data)); [|discriminate Hv].
  destruct (RegisterSerializer.phone_field (data_phone_number data)); [|discriminate Hv].
  destruct (RegisterSerializer.role_field (data_role data)); [|discriminate Hv].
  inversion Hv; subst. cbn. rewrite Hd. auto.
Qed.

Lemma is_valid_failure django st data e :
  RegisterSerializer.is_valid django st data = Failed e -> e = ValidationError.
Proof.
  unfold RegisterSerializer.is_valid, bind, RegisterSerializer.email_field,
    RegisterSerializer.password_field, RegisterSerializer.name_field,
    RegisterSerializer.phone_field, RegisterSerializer.role_field, bind, CharField.
  intros H.
  repeat match type of H with
         | context [match ?x with _ => _ end] =>
             match x with
             | context [match _ with _ => _ end] => fail 1
             | _ => destruct x
             end
         end; inversion H; reflexivity.
Qed.

Lemma existsb_snoc {A} (f : A -> bool) (l : list A) (x : A) :
  f x = true -> existsb f (l ++ [x]) = true.
Proof.
  intros H. rewrite existsb_app. cbn. rewrite H. apply orb_true_iff. right. reflexivity.
Qed.

(** What a registration does to the user table: nothing, or one more row
    whose e-mail no row had. *)
Lemma register_users django st uid tok data :
  let st' := snd (RegisterView.create django st uid tok data) in
  (st' = st /\ is_success (fst (RegisterView.create django st uid tok data)) = false) \/
  exists u, users st' = users st ++ [u] /\
            existsb (fun r => String.eqb (email r) (email u)) (users st) = false.
Proof.
  cbv zeta. unfold RegisterView.create.
  destruct (RegisterSerializer.is_valid django st data) as [? v|]; [|left; auto].
  unfold RegisterSerializer.create, CustomUserManager.create_user.
  destruct (String.eqb (validated_email v) ""); [left; auto|].
  match goal with |- context [existsb ?f ?l] => destruct (existsb f l) eqn:Hex end;
    [left; auto|].
  right. eexists. cbn.
  destruct (String.eqb (validated_role v) "job_seeker").
  { match goal with |- context [find ?g ?rows] => destruct (find g rows) end;
      cbn; (split; [reflexivity | exact Hex]). }
  destruct (String.eqb (validated_role v) "employer").
  { match goal with |- context [find ?g ?rows] => destruct (find g rows) end;
      cbn; (split; [reflexivity | exact Hex]). }
  destruct (String.eqb (validated_role v) "admin"); cbn; (split; [reflexivity | exact Hex]).
Qed.

(** X15.  An address that is registered cannot be registered again: the second
    request, with the same address up to surrounding whitespace, is refused
    and writes nothing.  The refusal is a validation error when the stripped
    address is stored as it is; when normalising changed it, the serializer's
    uniqueness check misses the stored row and the insert fails on the unique
    column instead. *)
Theorem register_same_email_again :
  forall django st uid tok data c body st' uid2 tok2 data2,
    RegisterView.create django st uid tok data = (Success c body, st') ->
    option_map strip (data_email data2) = option_map strip (data_email data) ->
    let again := RegisterView.create django st' uid2 tok2 data2 in
    snd again = st' /\
    (fst again = Failed ValidationError \/ fst again = Failed (Unhandled IntegrityError)) /\
    (forall e, data_email data = Some e ->
       normalize_email django (strip e) = strip e ->
       fst again = Failed ValidationError).
Proof.
  intros django st uid tok data c body st' uid2 tok2 data2 Hreg Hsame. cbv zeta.
  apply register_success in Hreg.
  destruct Hreg as [v [u [Hv [Hu [Husers _]]]]].
  apply is_valid_email in Hv. destruct Hv as [Hemail [Hblank _]].
  assert (Hstored : email u = normalize_email django (validated_email v)).
  { subst u. reflexivity. }
  unfold RegisterView.create.
  destruct (RegisterSerializer.is_valid django st' data2) as [c2 v2|e2] eqn:Hv2.
  - pose proof (is_valid_email _ _ _ _ _ Hv2) as [Hemail2 [_ Hfree2]].
    assert (Hv2e : validated_email v2 = validated_email v) by congruence.
    unfold RegisterSerializer.create, CustomUserManager.create_user.
    rewrite Hv2e, Hblank, Husers.
    rewrite existsb_snoc by (rewrite Hstored; apply String.eqb_refl).
    cbn. split; [reflexivity|]. split; [right; reflexivity|].
    intros e He Hnorm. exfalso.
    rewrite He in Hemail. cbn in Hemail.
    assert (Hve : validated_email v = strip e) by congruence.
    rewrite Hv2e, Husers in Hfree2.
    rewrite existsb_snoc in Hfree2 by (rewrite Hstored, Hve, Hnorm; apply String.eqb_refl).
    discriminate Hfree2.
  - apply is_valid_failure in Hv2. subst e2. cbn. auto.
Qed.

Lemma register_same_email_again_witness :
  snd (RegisterView.create plain_django
         (snd (RegisterView.create plain_django board 5 778 dana_data)) 6 779
         (with_role dana_data "job_seeker"))
  = snd (RegisterView.create plain_django board 5 778 dana_data) /\
  fst (RegisterView.create plain_django
         (snd (RegisterView.create plain_django board 5 778 dana_data)) 6 779
         (with_role dana_data "job_seeker"))
  = Failed ValidationError.
Proof.
  pose proof (register_same_email_again plain_django board 5 778 dana_data _ _ _ 6 779
                (with_role dana_data "job_seeker") eq_refl eq_refl) as H.
  cbv zeta in H. destruct H as [Hst [_ Hval]].
  split; [exact Hst | exact (Hval _ eq_refl eq_refl)].
Defined.

(** X16.  Registration keeps the e-mail column free of duplicates: the insert
    checks the normalised address, the one that is stored. *)
Theorem register_keeps_emails_unique :
  forall django st uid tok data,
    emails_unique st -> emails_unique (snd (RegisterView.create django st uid tok data)).
Proof.
  intros django st uid tok data Hu.
  destruct (register_users django st uid tok data) as [[Hst _] | [u [Husers Hex]]].
  - rewrite Hst. exact Hu.
  - unfold emails_unique in *. rewrite Husers, map_app. cbn.
    apply NoDup_snoc; [exact Hu|].
    intros Hin. apply in_map_iff in Hin. destruct Hin as [r [Hr Hrin]].
    assert (Ht : existsb (fun r => String.eqb (email r) (email u)) (users st) = true).
    { apply existsb_exists. exists r. split; [exact Hrin|]. rewrite Hr. apply String.eqb_refl. }
    congruence.
Qed.

Lemma register_keeps_emails_unique_witness :
  emails_unique board /\
  emails_unique (snd (RegisterView.create plain_django board 5 778 dana_data)).
Proof.
  assert (H : emails_unique board).
  { unfold emails_unique. cbn.
    repeat (apply NoDup_cons; [intros E; cbn in E; intuition discriminate|]).
    apply NoDup_nil. }
  split; [exact H | exact (register_keeps_emails_unique plain_django board 5 778 dana_data H)].
Defined.

Lemma find_snoc_fresh {A} (f : A -> bool) (l : list A) (x : A) :
  find f l = None -> f x = true -> find f (l ++ [x]) = Some x.
Proof.
  intros Hn Hx. rewrite (find_app_none _ _ _ Hn). cbn. rewrite Hx. reflexivity.
Qed.

(** X17.  The token a registration issues verifies the account it was issued
    for: with a fresh user id and a fresh token, the registered user is
    stored unverified, and one call of the verification link with that token
    marks this user verified and spends the token.  The only task queued
    along the way is the verification e-mail. *)
Theorem register_then_verify :
  forall django st uid tok data c body st',
    RegisterView.create django st uid tok data = (Success c body, st') ->
    get_user st uid = None -> get_token st tok = None ->
    exists u st'',
      get_user st' uid = Some u /\ is_email_verified u = false /\
      VerifyEmailView.get st' (Some tok)
        = (Success HTTP_200_OK "Email verified successfully", st'') /\
      get_user st'' uid = Some (VerifyEmailView.set_verified u) /\
      get_token st'' tok = None /\
      queue st'' = queue st ++ [send_verification_email uid tok].
Proof.
  intros django st uid tok data c body st' Hreg Hfresh Htok.
  apply register_success in Hreg.
  destruct Hreg as [v [u [_ [Hu [Husers [Htokens [Hqueue _]]]]]]].
  assert (Hid : user_id u = uid) by (subst u; reflexivity).
  assert (Hver : is_email_verified u = false) by (subst u; reflexivity).
  assert (Hget : get_user st' uid = Some u).
  { unfold get_user in *. rewrite Husers. apply find_snoc_fresh; [exact Hfresh|].
    rewrite Hid. apply Nat.eqb_refl. }
  assert (Hgett : get_token st' tok = Some (mkVerificationToken uid tok)).
  { unfold get_token in *. rewrite Htokens. apply find_snoc_fresh; [exact Htok|].
    cbn. apply Nat.eqb_refl. }
  exists u. eexists. split; [exact Hget|]. split; [exact Hver|].
  unfold VerifyEmailView.get. rewrite Hgett. cbn [vt_user]. rewrite Hget, Hver. cbn [negb].
  split; [reflexivity|]. split; [|split].
  - rewrite <- Hid in Hget. apply get_user_after_save in Hget. rewrite <- Hid. exact Hget.
  - exact (get_token_after_delete
             (VerifyEmailView.save_user st' (VerifyEmailView.set_verified u))
             (mkVerificationToken uid tok)).
  - cbn. exact Hqueue.
Qed.

Lemma register_then_verify_witness :
  exists st'',
    VerifyEmailView.get (snd (RegisterView.create plain_django board 5 778 dana_data)) (Some 778)
      = (Success HTTP_200_OK "Email verified successfully", st'') /\
    option_map is_email_verified (get_user st'' 5) = Some true.
Proof.
  destruct (register_then_verify plain_django board 5 778 dana_data _ _ _
              eq_refl eq_refl eq_refl) as [u [st'' [_ [_ [Hv [Hu _]]]]]].
  exists st''. split; [exact Hv|]. rewrite Hu. reflexivity.
Defined.

(** X18.  The profile endpoint creates the profile of a job seeker or of an
    employer at most once: asking again returns the same profile and writes
    nothing.  Every other role, admin included, is answered 404 and nothing
    is written.  A profile is created only when the user had none, and then
    an employer's carries the company name made of the first name. *)
Theorem profile_get_creates_once :
  forall st u,
    (role u <> "job_seeker" -> role u <> "employer" ->
       UserProfileView.get st u = (Failed NotFound, st)) /\
    (forall c p st',
       UserProfileView.get st u = (Success c p, st') ->
       UserProfileView.get st' u = (Success c p, st') /\
       match p with
       | SeekerProfile x =>
           role u = "job_seeker" /\ jsp_user x = user_id u /\
           employer_profiles st' = employer_profiles st /\
           (job_seeker_profiles st' = job_seeker_profiles st \/
            find (fun r => Nat.eqb (jsp_user r) (user_id u)) (job_seeker_profiles st) = None /\
            job_seeker_profiles st' = job_seeker_profiles st ++ [x])
       | CompanyProfile x =>
           role u = "employer" /\ ep_user x = user_id u /\
           job_seeker_profiles st' = job_seeker_profiles st /\
           (employer_profiles st' = employer_profiles st \/
            find (fun r => Nat.eqb (ep_user r) (user_id u)) (employer_profiles st) = None /\
            employer_profiles st' = employer_profiles st ++ [x] /\
            company_name x = Some (first_name u ++ "'s Company")%string)
       end).
Proof.
  intros st u. unfold UserProfileView.get, UserProfileView.get_object. cbn [user]. split.
  - intros Hjs Hem. apply String.eqb_neq in Hjs. apply String.eqb_neq in Hem.
    rewrite Hjs, Hem. destruct (String.eqb (role u) "admin"); reflexivity.
  - intros c p st' H.
    destruct (String.eqb (role u) "job_seeker") eqn:Hjs.
    { apply String.eqb_eq in Hjs.
      destruct (find _ (job_seeker_profiles st)) as [x|] eqn:Hf.
      - inversion H; subst. rewrite Hf. split; [reflexivity|].
        apply find_some in Hf. destruct Hf as [_ Hx]. apply Nat.eqb_eq in Hx. auto.
      - inversion H; subst. cbn.
        rewrite (find_snoc_fresh _ _ _ Hf) by (cbn; apply Nat.eqb_refl).
        split; [reflexivity|]. cbn.
        split; [exact Hjs|]. split; [reflexivity|]. split; [reflexivity|].
        right. split; reflexivity. }
    destruct (String.eqb (role u) "employer") eqn:Hem.
    { apply String.eqb_eq in Hem.
      destruct (find _ (employer_profiles st)) as [x|] eqn:Hf.
      - inversion H; subst. rewrite Hf. split; [reflexivity|].
        apply find_some in Hf. destruct Hf as [_ Hx]. apply Nat.eqb_eq in Hx. auto.
      - inversion H; subst. cbn.
        rewrite (find_snoc_fresh _ _ _ Hf) by (cbn; apply Nat.eqb_refl).
        split; [reflexivity|]. cbn.
        split; [exact Hem|]. split; [reflexivity|]. split; [reflexivity|].
        right. split; [reflexivity|]. split; reflexivity. }
    destruct (String.eqb (role u) "admin"); discriminate H.
Qed.

Lemma profile_get_creates_once_witness :
  UserProfileView.get board root = (Failed NotFound, board) /\
  UserProfileView.get board mallory = (Failed NotFound, board).
Proof.
  split.
  - apply (proj1 (profile_get_creates_once board root)); intros E; discriminate E.
  - apply (proj1 (profile_get_creates_once board mallory)); intros E; discriminate E.
Defined.

(** X19.  After an employer registered, the profile endpoint returns the profile
    the registration wrote, with no company name, and writes nothing: the
    default company name of the profile endpoint is never applied to an
    account that came through registration. *)
Theorem profile_after_registration :
  forall django st uid tok data c u p st',
    RegisterView.create django st uid tok data
      = (Success c (EmployerProfileData u p), st') ->
    find (fun r => Nat.eqb (ep_user r) uid) (employer_profiles st) = None ->
    UserProfileView.get st' u
      = (Success HTTP_200_OK (CompanyProfile (mkEmployerProfile uid None None None)), st').
Proof.
  intros django st uid tok data c u p st' Hreg Hfresh.
  apply register_success in Hreg.
  destruct Hreg as [v [u0 [_ [Hu [_ [_ [_ [_ [Hep [Hbody Hrole]]]]]]]]]].
  subst u. unfold UserProfileView.get, UserProfileView.get_object. cbn [user].
  assert (Hid : user_id u0 = uid) by (subst u0; reflexivity).
  rewrite Hrole in *. cbn [String.eqb Ascii.eqb Bool.eqb] in *. cbn in Hep |- *.
  rewrite Hep, Hid.
  rewrite (find_snoc_fresh _ _ _ Hfresh) by (cbn; apply Nat.eqb_refl).
  reflexivity.
Qed.

Lemma profile_after_registration_witness :
  exists u p st',
    RegisterView.create plain_django board 5 778 dana_data
      = (Success HTTP_201_CREATED (EmployerProfileData u p), st') /\
    UserProfileView.get st' u
      = (Success HTTP_200_OK (CompanyProfile (mkEmployerProfile 5 None None None)), st').
Proof.
  do 3 eexists. split; [reflexivity|].
  exact (profile_after_registration plain_django board 5 778 dana_data _ _ _ _
           eq_refl eq_refl).
Defined.

Lemma request_email_field_success django d c e :
  PasswordResetRequestView.email_field django d = Success c e ->
  exists raw, d = Some raw /\ e = strip raw.
Proof.
  unfold PasswordResetRequestView.email_field, bind. destruct d as [raw|]; [|discriminate].
  destruct (CharField false None raw) as [c0 x|] eqn:Hf; [|discriminate].
  apply CharField_success in Hf. destruct Hf as [_ [Hx _]].
  destruct (negb (EmailValidator django x)); [discriminate|].
  intros H. inversion H; subst. exists raw. auto.
Qed.

(** X20.  The answer to a reset request does not tell whether the address has an
    account: with a token value that is not taken, the response is the same
    on any two states.  When the address, stripped of surrounding
    whitespace, has no account the request writes nothing. *)
Theorem password_reset_request_reveals_nothing :
  forall django st st' d tok,
    existsb (fun r => Nat.eqb (prt_token r) tok) (password_reset_tokens st) = false ->
    existsb (fun r => Nat.eqb (prt_token r) tok) (password_reset_tokens st') = false ->
    fst (PasswordResetRequestView.post django st d tok)
      = fst (PasswordResetRequestView.post django st' d tok) /\
    (forall e, d = Some e ->
       find (fun u => String.eqb (email u) (strip e)) (users (core st)) = None ->
       snd (PasswordResetRequestView.post django st d tok) = st).
Proof.
  intros django st st' d tok Hfresh Hfresh'. unfold PasswordResetRequestView.post.
  destruct (PasswordResetRequestView.email_field django d) as [c e0|err] eqn:He.
  - rewrite Hfresh, Hfresh'. split.
    + destruct (find _ (users (core st))); destruct (find _ (users (core st'))); reflexivity.
    + intros e Hd Hnone. apply request_email_field_success in He.
      destruct He as [raw [Hraw He0]].
      assert (raw = e) by congruence. subst raw e0. rewrite Hnone. reflexivity.
  - split; [reflexivity|]. intros e _ _. reflexivity.
Qed.

Lemma password_reset_request_reveals_nothing_witness :
  fst (PasswordResetRequestView.post plain_django board_auth (Some "alice@example.com") 901)
  = fst (PasswordResetRequestView.post plain_django board_auth (Some "nobody@example.com") 901) /\
  snd (PasswordResetRequestView.post plain_django board_auth (Some "nobody@example.com") 901)
  = board_auth /\
  snd (PasswordResetRequestView.post plain_django board_auth (Some "alice@example.com") 901)
  <> board_auth.
Proof.
  split; [reflexivity|]. split.
  - exact (proj2 (password_reset_request_reveals_nothing plain_django board_auth board_auth
                    (Some "nobody@example.com") 901 eq_refl eq_refl) _ eq_refl eq_refl).
  - intros E. discriminate E.
Defined.

Lemma find_unique_id (l : list User) (u : User) :
  NoDup (map user_id l) -> In u l ->
  find (fun r => Nat.eqb (user_id r) (user_id u)) l = Some u.
Proof.
  induction l as [|h t IH]; cbn; intros Hnd Hin; [contradiction|].
  inversion Hnd as [|? ? Hnotin Hnd']; subst.
  destruct Hin as [Hh | Hin].
  - subst h. rewrite Nat.eqb_refl. reflexivity.
  - destruct (Nat.eqb (user_id h) (user_id u)) eqn:E.
    + apply Nat.eqb_eq in E. exfalso. apply Hnotin. rewrite E.
      apply in_map. exact Hin.
    + apply IH; assumption.
Qed.

Lemma filter_fresh {A} (f : A -> bool) (l : list A) :
  existsb f l = false -> filter (fun r => negb (f r)) l = l.
Proof.
  induction l as [|h t IH]; cbn; [reflexivity|].
  intros H. apply orb_false_iff in H. destruct H as [Hh Ht].
  rewrite Hh. cbn. rewrite IH by exact Ht. reflexivity.
Qed.

Lemma existsb_false_find {A} (f : A -> bool) (l : list A) :
  existsb f l = false -> find f l = None.
Proof.
  induction l as [|h t IH]; cbn; [reflexivity|].
  intros H. apply orb_false_iff in H. destruct H as [Hh Ht].
  rewrite Hh. exact (IH Ht).
Qed.

Lemma get_user_after_save_any st u u' :
  get_user st (user_id u') = Some u ->
  get_user (VerifyEmailView.save_user st u') (user_id u') = Some u'.
Proof.
  intros Hu. unfold get_user, VerifyEmailView.save_user in *. cbn [users set_users].
  rewrite (find_map_same_key user_id).
  - rewrite Hu. cbn. apply find_some in Hu. destruct Hu as [_ Hu]. rewrite Hu. reflexivity.
  - intros a. destruct (Nat.eqb (user_id a) (user_id u')) eqn:E; [|reflexivity].
    apply Nat.eqb_eq in E. congruence.
Qed.

Lemma get_user_after_save_other st u' id :
  id <> user_id u' ->
  get_user (VerifyEmailView.save_user st u') id = get_user st id.
Proof.
  intros Hne. unfold get_user, VerifyEmailView.save_user. cbn [users set_users].
  rewrite (find_map_same_key user_id).
  - destruct (find _ (users st)) as [r|] eqn:Hf; [|reflexivity].
    apply find_some in Hf. destruct Hf as [_ Hr]. apply Nat.eqb_eq in Hr. cbn.
    destruct (Nat.eqb (user_id r) (user_id u')) eqn:E; [|reflexivity].
    apply Nat.eqb_eq in E. congruence.
  - intros a. destruct (Nat.eqb (user_id a) (user_id u')) eqn:E; [|reflexivity].
    apply Nat.eqb_eq in E. congruence.
Qed.

Lemma get_reset_token_after_delete (rows : list PasswordResetToken) t t' :
  find (fun r => Nat.eqb (prt_token r) t')
    (filter (fun r => negb (Nat.eqb (prt_token r) t)) rows)
  = if Nat.eqb t' t then None else find (fun r => Nat.eqb (prt_token r) t') rows.
Proof.
  induction rows as [|h rest IH]; cbn; [destruct (Nat.eqb t' t); reflexivity|].
  destruct (Nat.eqb (prt_token h) t) eqn:Eh; cbn.
  - rewrite IH. destruct (Nat.eqb t' t) eqn:Et; [reflexivity|].
    apply Nat.eqb_eq in Eh. apply Nat.eqb_neq in Et.
    destruct (Nat.eqb (prt_token h) t') eqn:E; [|reflexivity].
    apply Nat.eqb_eq in E. congruence.
  - destruct (Nat.eqb (prt_token h) t') eqn:E.
    + apply Nat.eqb_eq in E. apply Nat.eqb_neq in Eh.
      destruct (Nat.eqb t' t) eqn:Et; [|reflexivity].
      apply Nat.eqb_eq in Et. congruence.
    + exact IH.
Qed.

Lemma new_password_field_success p c pw :
  PasswordResetConfirmView.new_password_field p = Success c pw ->
  c = HTTP_200_OK /\ exists raw, p = Some raw /\ pw = strip raw.
Proof.
  unfold PasswordResetConfirmView.new_password_field. destruct p as [raw|]; [|discriminate].
  intros H. apply CharField_success in H. destruct H as [Hc [Hpw _]].
  split; [exact Hc|]. exists raw. auto.
Qed.

Lemma get_reset_token_with_expires_at f st t :
  PasswordResetConfirmView.get_reset_token (with_expires_at f st) t =
  option_map (set_expires_at f) (PasswordResetConfirmView.get_reset_token st t).
Proof.
  unfold PasswordResetConfirmView.get_reset_token, with_expires_at. cbn.
  apply (find_map_same_key prt_token). intros a. reflexivity.
Qed.

(** X21.  A reset token works once, and [expires_at] is not consulted.  A
    confirmation succeeds exactly when the token is in the table, its user
    exists and the new password passes its field; the answer and what is
    done to the users are the same whatever [expires_at] the rows of the token
    table hold.  A confirmation that succeeds stores the hash of the new
    password, stripped of surrounding whitespace, for the token's user and
    deletes the token, so the same request sent again is refused as an
    invalid token and writes nothing.  Every other token stays usable, every
    other user row is left as it was, and no task is queued. *)
Theorem password_reset_confirm_single_use :
  forall django st t p,
    (is_success (fst (PasswordResetConfirmView.post django st (Some t) p)) = true <->
     exists rt u pw,
       PasswordResetConfirmView.get_reset_token st t = Some rt /\
       get_user (core st) (prt_user rt) = Some u /\
       PasswordResetConfirmView.new_password_field p = Success HTTP_200_OK pw) /\
    (forall f,
       fst (PasswordResetConfirmView.post django (with_expires_at f st) (Some t) p)
       = fst (PasswordResetConfirmView.post django st (Some t) p) /\
       core (snd (PasswordResetConfirmView.post django (with_expires_at f st) (Some t) p))
       = core (snd (PasswordResetConfirmView.post django st (Some t) p))) /\
    forall c msg st',
      PasswordResetConfirmView.post django st (Some t) p = (Success c msg, st') ->
      (exists rt u raw,
         PasswordResetConfirmView.get_reset_token st t = Some rt /\
         get_user (core st) (prt_user rt) = Some u /\ p = Some raw /\
         get_user (core st') (prt_user rt) = Some (set_password django u (strip raw)) /\
         (forall id, id <> prt_user rt -> get_user (core st') id = get_user (core st) id)) /\
      PasswordResetConfirmView.post django st' (Some t) p = (Failed InvalidToken, st') /\
      (forall t', t' <> t ->
         PasswordResetConfirmView.get_reset_token st' t'
         = PasswordResetConfirmView.get_reset_token st t') /\
      queue (core st') = queue (core st).
Proof.
  intros django st t p. split; [|split].
  - unfold PasswordResetConfirmView.post.
    destruct (PasswordResetConfirmView.new_password_field p) as [cp pw|] eqn:Hp.
    + pose proof (new_password_field_success _ _ _ Hp) as [Hcp _]. subst cp.
      destruct (PasswordResetConfirmView.get_reset_token st t) as [rt|] eqn:Hrt.
      * destruct (get_user (core st) (prt_user rt)) as [u|] eqn:Hu; cbn.
        -- split; [intros _|reflexivity]. exists rt, u, pw. auto.
        -- split; [intros H; discriminate H|].
           intros [rt' [u' [pw' [Hrt' [Hu' _]]]]]. congruence.
      * cbn. split; [intros H; discriminate H|].
        intros [rt' [u' [pw' [Hrt' _]]]]. discriminate Hrt'.
    + cbn. split; [intros H; discriminate H|].
      intros [rt' [u' [pw' [_ [_ Hp']]]]]. discriminate Hp'.
  - intros f. unfold PasswordResetConfirmView.post.
    rewrite get_reset_token_with_expires_at.
    destruct (PasswordResetConfirmView.new_password_field p) as [cp pw|]; [|auto].
    destruct (PasswordResetConfirmView.get_reset_token st t) as [rt|]; cbn; [|auto].
    destruct (get_user (core st) (prt_user rt)) as [u|]; cbn; auto.
  - intros c msg st' H. unfold PasswordResetConfirmView.post in *.
    destruct (PasswordResetConfirmView.new_password_field p) as [cp pw|] eqn:Hp;
      [|discriminate H].
    pose proof (new_password_field_success _ _ _ Hp) as [_ [raw [Hraw Hpw]]].
    destruct (PasswordResetConfirmView.get_reset_token st t) as [rt|] eqn:Hrt;
      [|discriminate H].
    destruct (get_user (core st) (prt_user rt)) as [u|] eqn:Hu; [|discriminate H].
    inversion H; subst c msg st'; clear H.
    assert (Ht : prt_token rt = t).
    { unfold PasswordResetConfirmView.get_reset_token in Hrt. apply find_some in Hrt.
      apply Nat.eqb_eq. tauto. }
    pose proof (get_user_some _ _ _ Hu) as Hid.
    assert (Hgone : forall t',
               PasswordResetConfirmView.get_reset_token
                 (mkAuthState
                    (VerifyEmailView.save_user (core st) (set_password django u pw))
                    (filter (fun r => negb (Nat.eqb (prt_token r) (prt_token rt)))
                       (password_reset_tokens st))) t'
               = if Nat.eqb t' t then None
                 else PasswordResetConfirmView.get_reset_token st t').
    { intros t'. unfold PasswordResetConfirmView.get_reset_token. cbn.
      rewrite Ht. apply get_reset_token_after_delete. }
    split; [|split; [|split]].
    + exists rt, u, raw. split; [reflexivity|]. split; [exact Hu|]. split; [exact Hraw|].
      cbn [core]. rewrite <- Hpw. split.
      * rewrite <- Hid in Hu |- *.
        exact (get_user_after_save_any (core st) u (set_password django u pw) Hu).
      * intros id Hne. apply get_user_after_save_other. cbn. congruence.
    + rewrite Hgone, Nat.eqb_refl. reflexivity.
    + intros t' Hne. rewrite Hgone. apply Nat.eqb_neq in Hne. rewrite Hne. reflexivity.
    + reflexivity.
Qed.

Lemma password_reset_confirm_single_use_witness :
  exists st',
    PasswordResetConfirmView.post plain_django board_reset (Some 900) (Some " n3w ")
      = (Success HTTP_200_OK "Password reset successfully", st') /\
    option_map password (get_user (core st') 1) = Some "hashed:n3w" /\
    PasswordResetConfirmView.post plain_django st' (Some 900) (Some " n3w ")
      = (Failed InvalidToken, st') /\
    is_success (fst (PasswordResetConfirmView.post plain_django board_reset (Some 900)
                       (Some "   "))) = false.
Proof.
  eexists. split; [reflexivity|].
  destruct (password_reset_confirm_single_use plain_django board_reset 900 (Some " n3w "))
    as [_ [_ H]].
  destruct (H _ _ _ eq_refl) as [_ [Hagain _]].
  split; [reflexivity|]. split; [exact Hagain | reflexivity].
Defined.

(** X22.  Request and confirmation compose: for an address with an account, the
    token a reset request stores lets one confirmation through, which sets
    that account's password to the hash of the new one and leaves the token
    table as it was before the request; the token is then refused.  Address
    and password are read with surrounding whitespace stripped. *)
Theorem password_reset_round_trip :
  forall django st e tok pw u,
    is_success (PasswordResetRequestView.email_field django (Some e)) = true ->
    is_success (PasswordResetConfirmView.new_password_field (Some pw)) = true ->
    existsb (fun r => Nat.eqb (prt_token r) tok) (password_reset_tokens st) = false ->
    find (fun r => String.eqb (email r) (strip e)) (users (core st)) = Some u ->
    user_ids_unique (core st) ->
    exists st1 st2,
      PasswordResetRequestView.post django st (Some e) tok
        = (Success HTTP_200_OK "Password reset email sent", st1) /\
      queue (core st1) = queue (core st) ++ [send_password_reset_email (user_id u) tok] /\
      PasswordResetConfirmView.post django st1 (Some tok) (Some pw)
        = (Success HTTP_200_OK "Password reset successfully", st2) /\
      get_user (core st2) (user_id u) = Some (set_password django u (strip pw)) /\
      password_reset_tokens st2 = password_reset_tokens st /\
      PasswordResetConfirmView.post django st2 (Some tok) (Some pw)
        = (Failed InvalidToken, st2).
Proof.
  intros django st e tok pw u He Hpw Hfresh Hfind Hnd.
  assert (Hu : get_user (core st) (user_id u) = Some u).
  { apply find_unique_id; [exact Hnd|]. apply find_some in Hfind. tauto. }
  destruct (PasswordResetRequestView.email_field django (Some e)) as [ce e'|] eqn:Ee;
    [|discriminate He].
  pose proof (request_email_field_success _ _ _ _ Ee) as [raw [Hraw He']].
  assert (raw = e) by congruence. subst raw e'.
  destruct (PasswordResetConfirmView.new_password_field (Some pw)) as [cp pw'|] eqn:Ep;
    [|discriminate Hpw].
  pose proof (new_password_field_success _ _ _ Ep) as [_ [raw [Hraw' Hpw']]].
  assert (raw = pw) by congruence. subst raw pw'.
  do 2 eexists. unfold PasswordResetRequestView.post. rewrite Ee, Hfind, Hfresh.
  split; [reflexivity|]. split; [reflexivity|].
  unfold PasswordResetConfirmView.post, PasswordResetConfirmView.get_reset_token.
  rewrite Ep. cbn [password_reset_tokens core].
  rewrite (find_snoc_fresh _ _ _ (existsb_false_find _ _ Hfresh))
    by (cbn; apply Nat.eqb_refl).
  cbn [prt_user prt_token].
  change (get_user (delay (core st) (send_password_reset_email (user_id u) tok)) (user_id u))
    with (get_user (core st) (user_id u)).
  rewrite Hu. split; [reflexivity|]. cbn [core password_reset_tokens].
  assert (Hfilter : filter (fun r => negb (Nat.eqb (prt_token r) tok))
                      (password_reset_tokens st ++ [mkPasswordResetToken (user_id u) tok None])
                    = password_reset_tokens st).
  { rewrite filter_app. cbn. rewrite Nat.eqb_refl. cbn. rewrite app_nil_r.
    exact (filter_fresh _ _ Hfresh). }
  split; [|split].
  - exact (get_user_after_save_any
             (delay (core st) (send_password_reset_email (user_id u) tok)) u
             (set_password django u (strip pw)) Hu).
  - exact Hfilter.
  - rewrite Hfilter, (existsb_false_find _ _ Hfresh). reflexivity.
Qed.

Lemma password_reset_round_trip_witness :
  exists st1 st2,
    PasswordResetRequestView.post plain_django board_reset (Some " bob@example.com") 901
      = (Success HTTP_200_OK "Password reset email sent", st1) /\
    PasswordResetConfirmView.post plain_django st1 (Some 901) (Some "n3w")
      = (Success HTTP_200_OK "Password reset successfully", st2) /\
    option_map password (get_user (core st2) 2) = Some "hashed:n3w" /\
    password_reset_tokens st2 = password_reset_tokens board_reset.
Proof.
  assert (Hnd : user_ids_unique (core board_reset)).
  { unfold user_ids_unique. cbn.
    repeat (apply NoDup_cons; [intros E; cbn in E; intuition discriminate|]).
    apply NoDup_nil. }
  destruct (password_reset_round_trip plain_django board_reset " bob@example.com" 901 "n3w" bob
              eq_refl eq_refl eq_refl eq_refl Hnd)
    as [st1 [st2 [H1 [_ [H2 [H3 [H4 _]]]]]]].
  exists st1, st2. split; [exact H1|]. split; [exact H2|]. split; [|exact H4].
  change 2 with (user_id bob). rewrite H3. reflexivity.
Defined.


(** ** Profile updates *)

Lemma set_user_data_same_account u d : same_account u (set_user_data u d).
Proof. unfold same_account. cbn. auto. Qed.

(** [update_user] leaves every table but the users alone; each user row
    keeps its account data, and only the row of [user_pk] can change. *)
Lemma update_user_spec st user_pk d c st' :
  update_user st user_pk d = Success c st' ->
  job_seeker_profiles st' = job_seeker_profiles st /\
  employer_profiles st' = employer_profiles st /\
  verification_tokens st' = verification_tokens st /\
  locations st' = locations st /\ job_postings st' = job_postings st /\
  job_applications st' = job_applications st /\
  active_jobs_queryset st' = active_jobs_queryset st /\ queue st' = queue st /\
  (truthy_dict d = false -> st' = st) /\
  (forall id u, get_user st id = Some u ->
     exists u', get_user st' id = Some u' /\ same_account u u' /\
                (id <> user_pk -> u' = u) /\
                (id = user_pk -> truthy_dict d = true -> u' = set_user_data u d)).
Proof.
  unfold update_user. destruct (truthy_dict d) eqn:Ht.
  - destruct (get_user st user_pk) as [user|] eqn:Hu; [|discriminate].
    intros H. inversion H; subst c st'; clear H.
    do 8 (split; [reflexivity|]). split; [discriminate|].
    intros id u Hget. pose proof (get_user_some _ _ _ Hu) as Hid.
    destruct (Nat.eq_dec id user_pk) as [E|E].
    + subst id. assert (u = user) by congruence. subst u.
      exists (set_user_data user d). split; [|split; [|split]].
      * rewrite <- Hid in Hu |- *.
        exact (get_user_after_save_any st user (set_user_data user d) Hu).
      * apply set_user_data_same_account.
      * intros Hne. contradiction.
      * reflexivity.
    + exists u. split; [|split; [|split]].
      * rewrite <- Hget. apply get_user_after_save_other. cbn. congruence.
      * unfold same_account. auto.
      * reflexivity.
      * intros Hid'. contradiction.
  - intros H. inversion H; subst c st'; clear H.
    do 8 (split; [reflexivity|]). split; [reflexivity|].
    intros id u Hget. exists u. split; [exact Hget|]. split; [unfold same_account; auto|].
    split; [reflexivity | discriminate].
Qed.

Lemma update_user_failure st user_pk d e :
  update_user st user_pk d = Failed e -> get_user st user_pk = None.
Proof.
  unfold update_user. destruct (truthy_dict d); [|discriminate].
  destruct (get_user st user_pk); [discriminate | reflexivity].
Qed.

Lemma in_map_replace_other {A} (key : A -> nat) (x : A) (rows : list A) (r : A) :
  In r rows -> key r <> key x ->
  In r (map (fun a => if Nat.eqb (key a) (key x) then x else a) rows).
Proof.
  intros Hin Hne. apply in_map_iff. exists r. split; [|exact Hin].
  apply Nat.eqb_neq in Hne. rewrite Hne. reflexivity.
Qed.

(** X23.  A profile update cannot reach the account: whichever of the two
    serializers runs, and whatever the validated data, every user keeps id,
    e-mail, password hash, role and verification flag; only the user of the
    profile can change at all, and only in first name, last name and phone
    number, and not even that when the request carried none of the three.
    Profiles of other users, postings, applications, tokens and the task
    queue are left as they were, and the profile stays with its user. *)
Theorem profile_update_keeps_account :
  forall st,
    (forall instance v r st',
       EmployerProfileSerializer.update st instance v = (r, st') ->
       (forall id u, get_user st id = Some u ->
          exists u', get_user st' id = Some u' /\ same_account u u' /\
                     (id <> ep_user instance -> u' = u)) /\
       (truthy_dict (ev_user v) = false -> users st' = users st) /\
       (forall p, In p (employer_profiles st) -> ep_user p <> ep_user instance ->
                  In p (employer_profiles st')) /\
       job_seeker_profiles st' = job_seeker_profiles st /\
       job_postings st' = job_postings st /\ job_applications st' = job_applications st /\
       verification_tokens st' = verification_tokens st /\ queue st' = queue st /\
       (forall c p', r = Success c p' ->
          ep_user p' = ep_user instance /\ bio p' = bio instance)) /\
    (forall instance v r st',
       JobSeekerProfileSerializer.update st instance v = (r, st') ->
       (forall id u, get_user st id = Some u ->
          exists u', get_user st' id = Some u' /\ same_account u u' /\
                     (id <> jsp_user instance -> u' = u)) /\
       (truthy_dict (sv_user v) = false -> users st' = users st) /\
       (forall p, In p (job_seeker_profiles st) -> jsp_user p <> jsp_user instance ->
                  In p (job_seeker_profiles st')) /\
       employer_profiles st' = employer_profiles st /\
       job_postings st' = job_postings st /\ job_applications st' = job_applications st /\
       verification_tokens st' = verification_tokens st /\ queue st' = queue st /\
       (forall c p', r = Success c p' -> jsp_user p' = jsp_user instance)).
Proof.
  intros st. split.
  - intros instance v r st' H. unfold EmployerProfileSerializer.update in H.
    destruct (update_user st (ep_user instance) (ev_user v)) as [c st1|e] eqn:Hu.
    + apply update_user_spec in Hu.
      destruct Hu as [Hjsp [Hep [Hvt [_ [Hjp [Hja [_ [Hq [Hsame Husers]]]]]]]]].
      inversion H; subst r st'; clear H. cbn.
      split; [|split; [|split; [|split; [|split; [|split; [|split; [|split]]]]]]];
        try assumption.
      * intros id u Hget. destruct (Husers id u Hget) as [u' [Hg [Hacc [Hother _]]]].
        exists u'. split; [exact Hg|]. split; [exact Hacc | exact Hother].
      * intros Hf. rewrite (Hsame Hf). reflexivity.
      * intros p Hin Hne. rewrite Hep.
        apply (in_map_replace_other ep_user
                 (mkEmployerProfile (ep_user instance)
                    (dict_get (ev_company_name v) (company_name instance))
                    (dict_get (ev_website v) (website instance)) (bio instance)));
          assumption.
      * intros c0 p' Hp. inversion Hp; subst. cbn. auto.
    + inversion H; subst r st'; clear H.
      split; [|split; [|split; [|split; [|split; [|split; [|split; [|split]]]]]]];
        try reflexivity.
      * intros id u Hget. exists u. split; [exact Hget|].
        split; [unfold same_account; auto | reflexivity].
      * intros p Hin _. exact Hin.
      * intros c0 p' Hp. discriminate Hp.
  - intros instance v r st' H. unfold JobSeekerProfileSerializer.update in H.
    destruct (update_user st (jsp_user instance) (sv_user v)) as [c st1|e] eqn:Hu.
    + apply update_user_spec in Hu.
      destruct Hu as [Hjsp [Hep [Hvt [_ [Hjp [Hja [_ [Hq [Hsame Husers]]]]]]]]].
      inversion H; subst r st'; clear H. cbn.
      split; [|split; [|split; [|split; [|split; [|split; [|split; [|split]]]]]]];
        try assumption.
      * intros id u Hget. destruct (Husers id u Hget) as [u' [Hg [Hacc [Hother _]]]].
        exists u'. split; [exact Hg|]. split; [exact Hacc | exact Hother].
      * intros Hf. rewrite (Hsame Hf). reflexivity.
      * intros p Hin Hne. rewrite Hjsp.
        apply (in_map_replace_other jsp_user
                 (mkJobSeekerProfile (jsp_user instance)
                    (dict_get (sv_resume v) (resume instance))
                    (dict_get (sv_skills v) (skills instance))
                    (dict_get (sv_experience v) (experience instance))));
          assumption.
      * intros c0 p' Hp. inversion Hp; subst. reflexivity.
    + inversion H; subst r st'; clear H.
      split; [|split; [|split; [|split; [|split; [|split; [|split; [|split]]]]]]];
        try reflexivity.
      * intros id u Hget. exists u. split; [exact Hget|].
        split; [unfold same_account; auto | reflexivity].
      * intros p Hin _. exact Hin.
      * intros c0 p' Hp. discriminate Hp.
Qed.

Lemma profile_update_keeps_account_witness :
  exists u',
    get_user (snd (EmployerProfileSerializer.update board
                     (mkEmployerProfile 2 None None None) rename_bob)) 2 = Some u' /\
    first_name u' = "Robert" /\ same_account bob u'.
Proof.
  destruct (proj1 (profile_update_keeps_account board)
              (mkEmployerProfile 2 None None None) rename_bob _ _ eq_refl)
    as [Husers _].
  destruct (Husers 2 bob eq_refl) as [u' [Hg [Hacc _]]].
  exists u'. split; [exact Hg|]. split; [|exact Hacc].
  cbn in Hg. inversion Hg. reflexivity.
Defined.

Lemma profile_get_company st u c p st' :
  UserProfileView.get st u = (Success c (CompanyProfile p), st') ->
  role u = "employer" /\ ep_user p = user_id u /\
  find (fun r => Nat.eqb (ep_user r) (user_id u)) (employer_profiles st') = Some p.
Proof.
  unfold UserProfileView.get, UserProfileView.get_object. cbn [user].
  destruct (String.eqb (role u) "job_seeker") eqn:Hjs.
  { destruct (find _ (job_seeker_profiles st)); intros H; inversion H. }
  destruct (String.eqb (role u) "employer") eqn:Hem.
  - apply String.eqb_eq in Hem.
    destruct (find _ (employer_profiles st)) as [x|] eqn:Hf; intros H; inversion H; subst.
    + split; [exact Hem|]. split; [|exact Hf].
      apply find_some in Hf. destruct Hf as [_ Hx]. apply Nat.eqb_eq in Hx. exact Hx.
    + split; [exact Hem|]. split; [reflexivity|]. cbn.
      apply find_snoc_fresh; [exact Hf|]. cbn. apply Nat.eqb_refl.
  - destruct (String.eqb (role u) "admin"); intros H; discriminate H.
Qed.

(** X24.  The profile an employer reads after an update of it is the updated
    one: [get_object] finds the row that [update] saved and creates nothing.
    The company name and the website are the ones sent, null included, or
    the old ones when the request carried none. *)
Theorem profile_update_read_back :
  forall st u c p st' v c' p' st'',
    UserProfileView.get st u = (Success c (CompanyProfile p), st') ->
    EmployerProfileSerializer.update st' p v = (Success c' p', st'') ->
    company_name p' = dict_get (ev_company_name v) (company_name p) /\
    website p' = dict_get (ev_website v) (website p) /\
    forall u', user_id u' = user_id u -> role u' = role u ->
      UserProfileView.get st'' u' = (Success HTTP_200_OK (CompanyProfile p'), st'').
Proof.
  intros st u c p st' v c' p' st'' Hget Hupd.
  apply profile_get_company in Hget. destruct Hget as [Hrole [Hpu Hfind]].
  unfold EmployerProfileSerializer.update in Hupd.
  destruct (update_user st' (ep_user p) (ev_user v)) as [c1 st1|e] eqn:Hu;
    [|discriminate Hupd].
  apply update_user_spec in Hu. destruct Hu as [_ [Hep _]].
  inversion Hupd; subst c' p' st''; clear Hupd. cbn.
  split; [reflexivity|]. split; [reflexivity|].
  intros u' Hid Hr.
  unfold UserProfileView.get, UserProfileView.get_object. cbn [user].
  rewrite Hr, Hrole, Hid. cbn [String.eqb Ascii.eqb Bool.eqb]. cbn.
  rewrite Hep, (find_map_same_key ep_user).
  - rewrite Hfind. cbn. rewrite Hpu, Nat.eqb_refl. reflexivity.
  - intros a. destruct (Nat.eqb (ep_user a) (ep_user p)) eqn:E; [|reflexivity].
    apply Nat.eqb_eq in E. cbn. congruence.
Qed.

Lemma profile_update_read_back_witness :
  exists p' st'',
    EmployerProfileSerializer.update board (mkEmployerProfile 2 None None None) rename_bob
      = (Success HTTP_200_OK p', st'') /\
    company_name p' = Some "Bob and Sons" /\
    UserProfileView.get st'' bob = (Success HTTP_200_OK (CompanyProfile p'), st'').
Proof.
  do 2 eexists. split; [reflexivity|].
  destruct (profile_update_read_back board bob _ _ _ rename_bob _ _ _ eq_refl eq_refl)
    as [Hname [_ Hget]].
  split; [exact Hname | exact (Hget bob eq_refl eq_refl)].
Defined.

